(** * Oracle Counter: the numpad digit buffer, its overlay and its preferences

    A shallow embedding of [main.py].  The preference functions
    [load_config] and [save_config], the overlay label logic
    ([OverlayWindow.update_text], [OverlayWindow.update_overlay_style]) and
    the key handling of [MainWindow] ([on_key_press], [update_display],
    [send_numbers], [clear_numbers]) are transcribed statement by statement.
    Python exceptions are explicit: a computation yields an [outcome], and
    the stateful methods run in a state monad whose state survives a raise,
    as the attributes of a Python object do.  The overlay as a window (its
    place, its click-through flag, its cursor) and the handlers of the
    settings follow in [Gui]; the style sheets of the buttons are kept
    abstract. *)

From Stdlib Require Import ZArith String Ascii List SpecFloat.
From stdpp Require Import gmap strings list fin_maps.

Set Warnings "-register-all".
Open Scope Z_scope.

(** ** Python values, strings and exceptions *)

Module Py.

(** The exception classes that the modelled statements can raise. *)
Inductive exn : Type :=
  | AttributeError
  | KeyError
  | TypeError
  | ValueError
  | OverflowError
  | OSError.

Inductive outcome (A : Type) : Type :=
  | Return (a : A)
  | Raise (e : exn).
Arguments Return {A} a.
Arguments Raise {A} e.

Definition obind {A B : Type} (c : outcome A) (k : A -> outcome B) : outcome B :=
  match c with
  | Return a => k a
  | Raise e => Raise e
  end.

(** A method of an object with attributes [S]: it returns or raises, and
    in both cases leaves the attributes as they were at that point. *)
Definition M (S A : Type) : Type := S -> outcome A * S.

Definition ret {S A : Type} (a : A) : M S A := fun s => (Return a, s).

Definition bind {S A B : Type} (c : M S A) (k : A -> M S B) : M S B :=
  fun s =>
    match c s with
    | (Return a, s') => k a s'
    | (Raise e, s') => (Raise e, s')
    end.

Definition lift {S A : Type} (o : outcome A) : M S A := fun s => (o, s).

Definition gets {S A : Type} (f : S -> A) : M S A := fun s => (Return (f s), s).

Definition modify {S : Type} (f : S -> S) : M S unit := fun s => (Return tt, f s).

(** [try: body / except: pass]: the bare handler swallows every exception;
    what [body] had already stored stays stored. *)
Definition try_except_pass {S : Type} (body : M S unit) : M S unit :=
  fun s =>
    match body s with
    | (Return _, s') => (Return tt, s')
    | (Raise _, s') => (Return tt, s')
    end.

(** [str.isspace].  A [str] is a [string] here, a sequence of characters
    with code points below 256, which holds every text the program builds
    itself (keypad digits, spaces and its own literals); the white space of
    Unicode beyond U+00FF has no character in this type, so what is proved
    of [split] and [strip] is proved of texts below U+0100. *)
Definition isspace (c : ascii) : bool :=
  let n := nat_of_ascii c in
  ((9 <=? n) && (n <=? 13) || (28 <=? n) && (n <=? 32)
   || (n =? 133) || (n =? 160))%nat.

(** Truth value of a [str]. *)
Definition nonempty (s : string) : bool :=
  match s with
  | EmptyString => false
  | String _ _ => true
  end.

(** [str.split()] without arguments: maximal runs of non-space characters.
    [tok] is the run being read. *)
Fixpoint split_from (tok s : string) : list string :=
  match s with
  | EmptyString => if nonempty tok then [tok] else []
  | String c s' =>
      if isspace c
      then (if nonempty tok then tok :: split_from "" s' else split_from "" s')
      else split_from (tok +:+ String c "") s'
  end.

Definition split (s : string) : list string := split_from "" s.

Fixpoint lstrip (s : string) : string :=
  match s with
  | EmptyString => EmptyString
  | String c s' => if isspace c then lstrip s' else s
  end.

Fixpoint rstrip (s : string) : string :=
  match s with
  | EmptyString => EmptyString
  | String c s' =>
      let r := rstrip s' in
      if isspace c && negb (nonempty r) then EmptyString else String c r
  end.

(** [str.strip()]. *)
Definition strip (s : string) : string := rstrip (lstrip s).

(** A token: a non-empty string without white space. *)
Fixpoint spaceless (s : string) : bool :=
  match s with
  | EmptyString => true
  | String c s' => negb (isspace c) && spaceless s'
  end.

Definition token (s : string) : Prop :=
  nonempty s = true /\ spaceless s = true.

(** [sep.join(ls)]. *)
Definition join (sep : string) (ls : list string) : string := String.concat sep ls.

(** [s.startswith(p)]. *)
Definition startswith (s p : string) : bool := String.prefix p s.

(** [p in s] for two [str]. *)
Definition substring_of (p s : string) : bool :=
  match String.index 0 p s with
  | Some _ => true
  | None => false
  end.

(** The values [json.load] produces, which are also the values the
    program stores in its configuration. *)
Inductive pyobj : Type :=
  | PNone
  | PBool (b : bool)
  | PInt (n : Z)
  | PFloat (x : spec_float)
  | PStr (s : string)
  | PList (l : list pyobj)
  | PDict (d : gmap string pyobj).

(** [bool(v)]. *)
Definition truthy (v : pyobj) : bool :=
  match v with
  | PNone => false
  | PBool b => b
  | PInt n => negb (n =? 0)
  | PFloat (S754_zero _) => false
  | PFloat _ => true
  | PStr s => nonempty s
  | PList l => match l with [] => false | _ :: _ => true end
  | PDict d => negb (bool_decide (d = ∅))
  end.

(** [x == key] for a [str] key: only an equal [str] is equal to it. *)
Definition eq_str (key : string) (x : pyobj) : bool :=
  match x with
  | PStr s => String.eqb s key
  | _ => false
  end.

(** [key in config]. *)
Definition contains (key : string) (config : pyobj) : outcome bool :=
  match config with
  | PDict d => Return (bool_decide (is_Some (d !! key)))
  | PList l => Return (existsb (eq_str key) l)
  | PStr s => Return (substring_of key s)
  | PNone | PBool _ | PInt _ | PFloat _ => Raise TypeError
  end.

(** [config[key] = value]; the dict is updated in place and stays the
    same object, so the updated value is handed on. *)
Definition setitem (key : string) (value : pyobj) (config : pyobj) : outcome pyobj :=
  match config with
  | PDict d => Return (PDict (<[key := value]> d))
  | _ => Raise TypeError
  end.

(** [config[key]]. *)
Definition getitem (config : pyobj) (key : string) : outcome pyobj :=
  match config with
  | PDict d =>
      match d !! key with
      | Some v => Return v
      | None => Raise KeyError
      end
  | _ => Raise TypeError
  end.

(** [config.get(key, default)]: only a dict has the method. *)
Definition get (config : pyobj) (key : string) (default : pyobj) : outcome pyobj :=
  match config with
  | PDict d =>
      match d !! key with
      | Some v => Return v
      | None => Return default
      end
  | _ => Raise AttributeError
  end.

End Py.

Import Py.

Notation "x <- c ;; k" := (bind c (fun x => k))
  (at level 100, c at next level, right associativity).
Notation "c ;;; k" := (bind c (fun _ => k))
  (at level 100, right associativity).
Notation "x <-? c ;; k" := (obind c (fun x => k))
  (at level 100, c at next level, right associativity).

(** Unfold the plumbing of a method down to the function on states. *)
Ltac method := unfold bind, lift, gets, ret, modify, try_except_pass.

(** ** Module-level constants *)

Definition NUMPAD_MAPPING : gmap Z string :=
  list_to_map
    [ (96, "0"); (97, "1"); (98, "2"); (99, "3"); (100, "4");
      (101, "5"); (102, "6"); (103, "7"); (104, "8"); (105, "9") ].

(** The items of [DEFAULT_CONFIG], in the order of the dict literal. *)
Definition DEFAULT_CONFIG_items : list (string * pyobj) :=
  [ ("overlay_color", PStr "#ffff00");
    ("overlay_x", PNone);
    ("overlay_y", PNone);
    ("overlay_locked", PBool false) ].

Definition DEFAULT_CONFIG : gmap string pyobj := list_to_map DEFAULT_CONFIG_items.

(** The digit character of keypad code [vk]: 96 gives "0", 105 gives "9". *)
Definition keypad_char (vk : Z) : string :=
  String (ascii_of_nat (Z.to_nat (vk - 48))) "".

(** A value of [NUMPAD_MAPPING]. *)
Definition digit (d : string) : Prop := exists vk, NUMPAD_MAPPING !! vk = Some d.

(** ** Preferences on disk: [load_config] and [save_config] *)

Section Json.

(** The [json] module is a library.  [text] is what a file holds,
    [json_load] is [None] when [json.load] raises, and [json_dump] gives
    what [json.dump(config, f, indent=2)] wrote together with whether it
    completed. *)
Variable text : Type.
Variable json_load : text -> option pyobj.
Variable json_dump : pyobj -> text * bool.

(** What opening [config.json] for writing does. *)
Inductive device : Type :=
  | Writable
  | ReadOnly
  | Failing (remains : text).

(** The part of the file system the program touches: [config.json]. *)
Record FS : Type := mkFS {
  node : option text;
  can_read : bool;
  dev : device
}.

Definition exists_ (fs : FS) : bool :=
  match node fs with
  | Some _ => true
  | None => false
  end.

(** [open("config.json", "r")] and reading it. *)
Definition open_r (fs : FS) : outcome text :=
  match node fs with
  | Some s => if can_read fs then Return s else Raise OSError
  | None => Raise OSError
  end.

(** [json.load(f)]. *)
Definition load_json (s : text) : outcome pyobj :=
  match json_load s with
  | Some v => Return v
  | None => Raise ValueError
  end.

(** The loop [for key, default_value in DEFAULT_CONFIG.items()]. *)
Fixpoint ensure_keys (items : list (string * pyobj)) (config : pyobj) : outcome pyobj :=
  match items with
  | [] => Return config
  | (key, default_value) :: rest =>
      present <-? contains key config ;;
      config' <-? (if negb present then setitem key default_value config
                   else Return config) ;;
      ensure_keys rest config'
  end.

(** The [try] block of [load_config]: [Return (Some c)] is [return config],
    [Return None] is falling out of the block. *)
Definition load_config_try (fs : FS) : outcome (option pyobj) :=
  if exists_ fs then
    s <-? open_r fs ;;
    config <-? load_json s ;;
    config <-? ensure_keys DEFAULT_CONFIG_items config ;;
    Return (Some config)
  else Return None.

Definition load_config (fs : FS) : outcome pyobj :=
  match load_config_try fs with
  | Return (Some config) => Return config
  | Return None | Raise _ => Return (PDict DEFAULT_CONFIG)
  end.

Definition save_config (config : pyobj) (fs : FS) : bool * FS :=
  match dev fs with
  | ReadOnly => (false, fs)
  | Failing remains => (false, mkFS (Some remains) (can_read fs) (dev fs))
  | Writable =>
      let '(s, completed) := json_dump config in
      (completed, mkFS (Some s) (can_read fs) (dev fs))
  end.

End Json.

Arguments Writable {text}.
Arguments ReadOnly {text}.
Arguments Failing {text} remains.
Arguments mkFS {text} node can_read dev.
Arguments node {text} f.
Arguments can_read {text} f.
Arguments dev {text} f.
Arguments exists_ {text} fs.
Arguments open_r {text} fs.
Arguments load_json {text} json_load s.
Arguments load_config_try {text} json_load fs.
Arguments load_config {text} json_load fs.
Arguments save_config {text} json_dump config fs.

(** A codec whose file contents are the values themselves; it instantiates
    the [json] parameters in the examples. *)
Definition value_load (v : pyobj) : option pyobj := Some v.
Definition value_dump (v : pyobj) : pyobj * bool := (v, true).

(** What [json.load] gives for a file holding the JSON array of the four
    key names. *)
Definition key_names : pyobj :=
  PList [PStr "overlay_color"; PStr "overlay_x"; PStr "overlay_y";
         PStr "overlay_locked"].

(** ** [class OverlayWindow]: the label of the overlay *)

Module OverlayWindow.

(** The values interpolated into the label's style sheet. *)
Record style : Type := mkStyle {
  color : pyobj;
  font_size : string;
  background_color : string;
  border : string
}.

(** The label's text and style.  [self.config] is the dict of the main
    window itself, not a copy, so the methods below read it from their
    caller instead of from a field here. *)
Record t : Type := mk {
  label : string;
  styleSheet : style
}.

Definition setText (text : string) : M t unit :=
  modify (fun ov => mk text (styleSheet ov)).

Definition setStyleSheet (st : style) : M t unit :=
  modify (fun ov => mk (label ov) st).

Definition decorated : string * string :=
  ("2px dashed #ff4757", "rgba(255, 71, 87, 0.15)").

Definition undecorated : string * string := ("none", "transparent").

Definition positioning_hint : string :=
  "Overlay Position" +:+ String "010" "(max 7 numbers)".

Definition update_overlay_style (config : pyobj) : M t unit :=
  text <- gets label ;;
  let has_content := nonempty (strip text) && negb (startswith text "Overlay") in
  is_locked <- lift (get config "overlay_locked" (PBool false)) ;;
  look <- (if has_content then
             text_color <- lift (getitem config "overlay_color") ;;
             ret (if truthy is_locked then undecorated else decorated, text_color)
           else if truthy is_locked then
             ret (undecorated, PStr "transparent")
           else
             ret (decorated, PStr "#ff4757")) ;;
  let '(border_style, bg_color, text_color) := look in
  text <- gets label ;;
  let has_actual_numbers :=
    nonempty (strip text) && negb (startswith text "Overlay") in
  let font_size := if has_actual_numbers then "36px" else "16px" in
  setStyleSheet (mkStyle text_color font_size bg_color border_style).

Definition update_text (config : pyobj) (text : string) : M t unit :=
  let numbers := split text in
  let text :=
    if (7 <? length numbers)%nat then join " " (take 7 numbers) else text in
  (if nonempty (strip text) then
     setText text
   else
     locked <- lift (get config "overlay_locked" (PBool false)) ;;
     if negb (truthy locked) then setText positioning_hint
     else setText "") ;;;
  update_overlay_style config.

End OverlayWindow.

(** ** [class MainWindow]: the digit buffer and the key listener *)

Module MainWindow.

(** [controller] is the list of strings handed to [Controller.type], oldest
    first; [display_label] is the text of the label in the main window. *)
Record t : Type := mk {
  controller : list string;
  logged_numbers : list string;
  config : pyobj;
  overlay : option OverlayWindow.t;
  display_label : string
}.

(** The state [__init__] leaves, for the configuration it loaded. *)
Definition init (cfg : pyobj) : t := mk [] [] cfg None "".

(** Members of pynput's [Key] enum. *)
Inductive Key : Type :=
  | enter
  | backspace
  | other_key (name : string).

(** What pynput passes to [on_press]: a [KeyCode] with its [vk] and [char]
    attributes (either can be [None]), a member of [Key], or [None] for a
    key it could not identify. *)
Inductive key_event : Type :=
  | KeyCode (vk : option Z) (char : option string)
  | Special (k : Key)
  | Unknown.

(** [hasattr(key, 'vk') and key.vk in NUMPAD_MAPPING], with the digit
    [NUMPAD_MAPPING[key.vk]] when it holds. *)
Definition numpad_digit (key : key_event) : option string :=
  match key with
  | KeyCode (Some vk) _ => NUMPAD_MAPPING !! vk
  | KeyCode None _ | Special _ | Unknown => None
  end.

Definition append (digit : string) (w : t) : t :=
  mk (controller w) (logged_numbers w ++ [digit]) (config w) (overlay w)
     (display_label w).

Definition clear (w : t) : t :=
  mk (controller w) [] (config w) (overlay w) (display_label w).

Definition setText (text : string) (w : t) : t :=
  mk (controller w) (logged_numbers w) (config w) (overlay w) text.

(** [self.controller.type(text)]. *)
Definition type (text : string) (w : t) : t :=
  mk (controller w ++ [text]) (logged_numbers w) (config w) (overlay w)
     (display_label w).

(** [if self.overlay: self.overlay.m(...)]: run a method of the overlay on
    the [overlay] attribute, when there is one. *)
Definition if_overlay (m : pyobj -> M OverlayWindow.t unit) : M t unit :=
  fun w =>
    match overlay w with
    | Some ov =>
        let '(r, ov') := m (config w) ov in
        (r, mk (controller w) (logged_numbers w) (config w) (Some ov')
               (display_label w))
    | None => (Return tt, w)
    end.

Definition update_display : M t unit :=
  numbers <- gets logged_numbers ;;
  let text := join " " numbers in
  modify (setText text) ;;;
  if_overlay (fun cfg => OverlayWindow.update_text cfg text).

Definition clear_numbers : M t unit :=
  modify clear ;;;
  update_display.

Definition send_numbers : M t unit :=
  numbers <- gets logged_numbers ;;
  match numbers with
  | _ :: _ =>
      let text := join "" numbers in
      modify (type text) ;;;
      clear_numbers
  | [] => ret tt
  end.

Definition on_key_press (key : key_event) : M t unit :=
  try_except_pass
    (match numpad_digit key with
     | Some digit =>
         numbers <- gets logged_numbers ;;
         if (length numbers <? 7)%nat then
           modify (append digit) ;;;
           update_display
         else ret tt
     | None => ret tt
     end) ;;;
  match key with
  | Special enter => send_numbers
  | Special backspace => clear_numbers
  | _ => ret tt
  end.

(** The attributes after a method has run, whether it returned or raised. *)
Definition exec {A : Type} (m : M t A) (w : t) : t := snd (m w).

(** A run of key events delivered one after the other. *)
Definition presses (keys : list key_event) (w : t) : t :=
  fold_left (fun w key => exec (on_key_press key) w) keys w.

(** One step of the running program: a key event, a click on Clear
    (connected to [clear_numbers]), or one of the other handlers (overlay
    toggle, lock, colour, position, drag), which rewrite [config] and
    [overlay] and touch neither [logged_numbers], [display_label] nor
    [controller]. *)
Inductive step : t -> t -> Prop :=
  | step_key key w : step w (exec (on_key_press key) w)
  | step_clear w : step w (exec clear_numbers w)
  | step_settings w cfg ov :
      step w (mk (controller w) (logged_numbers w) cfg ov (display_label w)).

Inductive reachable : t -> Prop :=
  | reachable_init cfg : reachable (init cfg)
  | reachable_step w w' : reachable w -> step w w' -> reachable w'.

(** A key event that carries virtual key code [vk] and no character. *)
Definition vk_event (vk : Z) : key_event := KeyCode (Some vk) None.

(** What holds in every state the program reaches: at most seven entries,
    each a keypad digit, and the label showing them space-joined. *)
Definition consistent (w : t) : Prop :=
  (length (logged_numbers w) <= 7)%nat
  /\ Forall digit (logged_numbers w)
  /\ display_label w = join " " (logged_numbers w).

(** The callback hands the event on and leaves the work to someone else:
    the attributes are the same when it returns as when it was called. *)
Definition hands_off (key : key_event) (w : t) : Prop :=
  let w' := exec (on_key_press key) w in
  logged_numbers w' = logged_numbers w
  /\ display_label w' = display_label w
  /\ overlay w' = overlay w
  /\ controller w' = controller w.

End MainWindow.

(** ** Vocabulary of the further properties *)

(** The test [update_overlay_style] makes on the label: it shows numbers,
    not the hint and not nothing. *)
Definition shows_numbers (label : string) : bool :=
  nonempty (strip label) && negb (startswith label "Overlay").

(** [name in v] holds, without raising. *)
Definition has_name (v : pyobj) (name : string) : bool :=
  match contains name v with
  | Return true => true
  | Return false | Raise _ => false
  end.

(** A string with its white space taken out. *)
Fixpoint despace (s : string) : string :=
  match s with
  | EmptyString => EmptyString
  | String c s' => if isspace c then despace s' else String c (despace s')
  end.

(** What the program may hand to the controller: one to seven keypad
    digits, written one after the other. *)
Definition digit_string (s : string) : Prop :=
  exists ds, ds <> [] /\ (length ds <= 7)%nat /\ Forall digit ds /\ s = join "" ds.

(** The label [update_text] chooses for a dict config. *)
Definition chosen_label (d : gmap string pyobj) (text : string) : string :=
  let text' :=
    if (7 <? length (split text))%nat then join " " (take 7 (split text)) else text in
  if nonempty (strip text') then text'
  else if match d !! "overlay_locked" with Some v => truthy v | None => false end
       then "" else OverlayWindow.positioning_hint.

(** The label the overlay carries for a buffer: the digits as the main
    window shows them, or for an empty buffer nothing when locked and the
    hint when unlocked. *)
Definition overlay_label_for (d : gmap string pyobj) (numbers : list string) : string :=
  match numbers with
  | _ :: _ => join " " numbers
  | [] => if match d !! "overlay_locked" with Some v => truthy v | None => false end
          then "" else OverlayWindow.positioning_hint
  end.

(** The overlay label with the style of the table of the overlay modes, for
    a config dict and a buffer. *)
Definition look (d : gmap string pyobj) (numbers : list string) : OverlayWindow.t :=
  let is_locked :=
    match d !! "overlay_locked" with Some v => truthy v | None => false end in
  let '(border_style, bg_color) :=
    if is_locked then OverlayWindow.undecorated else OverlayWindow.decorated in
  OverlayWindow.mk (overlay_label_for d numbers)
    (match numbers with
     | _ :: _ =>
         OverlayWindow.mkStyle
           (match d !! "overlay_color" with Some c => c | None => PNone end)
           "36px" bg_color border_style
     | [] =>
         OverlayWindow.mkStyle
           (PStr (if is_locked then "transparent" else "#ff4757"))
           "16px" bg_color border_style
     end).

(** A state of the key handling in which the config is the dict [d] with
    its colour, the buffer and the label are consistent, and the overlay,
    when there is one, looks as the table says. *)
Definition tidy (d : gmap string pyobj) (w : MainWindow.t) : Prop :=
  MainWindow.config w = PDict d
  /\ is_Some (d !! "overlay_color")
  /\ MainWindow.consistent w
  /\ forall u, MainWindow.overlay w = Some u -> u = look d (MainWindow.logged_numbers w).

(** ** The overlay as a window, and the handlers of the main window *)

Module Gui.

Inductive cursor : Type :=
  | ArrowCursor
  | BlankCursor
  | SizeAllCursor.

(** An [OverlayWindow] object: its label ([ui], as above) and what the
    window itself carries.  [transparent_for_input] is the presence of
    [Qt.WindowTransparentForInput] among the window flags, the other three
    flags being always set. *)
Record overlay_window : Type := mkOverlay {
  ui : OverlayWindow.t;
  pos : Z * Z;
  transparent_for_input : bool;
  cursor_shape : cursor;
  visible : bool
}.

(** A method of the label, run on the window. *)
Definition on_ui (m : M OverlayWindow.t unit) : M overlay_window unit :=
  fun o =>
    let '(r, u) := m (ui o) in
    (r, mkOverlay u (pos o) (transparent_for_input o) (cursor_shape o) (visible o)).

Definition move (p : Z * Z) : M overlay_window unit :=
  modify (fun o =>
    mkOverlay (ui o) p (transparent_for_input o) (cursor_shape o) (visible o)).

(** [setWindowFlags]: Qt hides a window whose flags are set. *)
Definition setWindowFlags (transparent : bool) : M overlay_window unit :=
  modify (fun o => mkOverlay (ui o) (pos o) transparent (cursor_shape o) false).

Definition setCursor (c : cursor) : M overlay_window unit :=
  modify (fun o =>
    mkOverlay (ui o) (pos o) (transparent_for_input o) c (visible o)).

Definition show : M overlay_window unit :=
  modify (fun o =>
    mkOverlay (ui o) (pos o) (transparent_for_input o) (cursor_shape o) true).

Definition close : M overlay_window unit :=
  modify (fun o =>
    mkOverlay (ui o) (pos o) (transparent_for_input o) (cursor_shape o) false).

(** [v is not None]. *)
Definition is_not_none (v : pyobj) : bool :=
  match v with
  | PNone => false
  | _ => true
  end.

(** What PyQt makes of an argument where a C [int] is expected: an [int]
    that fits or a [bool] passes; an [int] that does not fit is refused
    with [OverflowError], and anything else with [TypeError], a [float]
    included, as under Python 3.10 and later. *)
Definition as_int (v : pyobj) : outcome Z :=
  match v with
  | PInt n =>
      if (- 2 ^ 31 <=? n) && (n <? 2 ^ 31) then Return n else Raise OverflowError
  | PBool b => Return (Z.b2z b)
  | _ => Raise TypeError
  end.

(** [OverlayWindow.set_position]; [screen_width] is what
    [QApplication.primaryScreen().geometry().width()] gives at the call. *)
Definition set_position (config : pyobj) (screen_width : Z) : M overlay_window unit :=
  x <- lift (getitem config "overlay_x") ;;
  stored <- (if is_not_none x then
               y <- lift (getitem config "overlay_y") ;;
               ret (is_not_none y)
             else ret false) ;;
  if stored : bool then
    x <- lift (getitem config "overlay_x") ;;
    y <- lift (getitem config "overlay_y") ;;
    x <- lift (as_int x) ;;
    y <- lift (as_int y) ;;
    move (x, y)
  else
    move ((screen_width - 480) / 2, 30).

(** [OverlayWindow.set_click_through]. *)
Definition set_click_through (config : pyobj) (enabled : pyobj) : M overlay_window unit :=
  (if truthy enabled then
     setWindowFlags true ;;;
     setCursor BlankCursor
   else
     setWindowFlags false ;;;
     setCursor SizeAllCursor) ;;;
  show ;;;
  on_ui (OverlayWindow.update_overlay_style config).

(** A window as [QWidget.__init__] and [QLabel("")] leave it, before
    [setup_ui] has styled the label; the style here stands for the empty
    style sheet and never outlives [__init__]. *)
Definition blank : overlay_window :=
  mkOverlay (OverlayWindow.mk "" (OverlayWindow.mkStyle PNone "" "" "")) (0, 0)
            false ArrowCursor false.

(** [OverlayWindow(config)]: [__init__] with its [setup_ui] and
    [set_position].  When it raises there is no object. *)
Definition new (config : pyobj) (screen_width : Z) : outcome overlay_window :=
  match (setWindowFlags false ;;;
         on_ui (OverlayWindow.update_text config "") ;;;
         set_position config screen_width) blank with
  | (Return _, o) => Return o
  | (Raise e, _) => Raise e
  end.

Section Env.

(** [stylesheet] is the type of the style sheet of a button, [plain_style]
    the one [setup_ui] gives the Save button and [saved_style] the green
    one of [show_save_feedback]. *)
Variable text : Type.
Variable json_load : text -> option pyobj.
Variable json_dump : pyobj -> text * bool.
Variable stylesheet : Type.
Variable plain_style : stylesheet.
Variable saved_style : stylesheet.

(** The main window with all it owns.  [display_color] is the colour in
    the style sheet of [display_label], [lock_status] the word on the lock
    button, [timers] the pending [QTimer.singleShot] callbacks of
    [show_save_feedback], oldest first, each with the text and the style it
    will put back, and [disk] the state of [config.json]. *)
Record app : Type := mkApp {
  controller : list string;
  logged_numbers : list string;
  config : pyobj;
  overlay : option overlay_window;
  display_label : string;
  display_color : pyobj;
  lock_status : string;
  overlay_btn : string;
  save_btn : string * stylesheet;
  timers : list (string * stylesheet);
  disk : FS text
}.

Definition with_config (c : pyobj) (a : app) : app :=
  mkApp (controller a) (logged_numbers a) c (overlay a) (display_label a)
        (display_color a) (lock_status a) (overlay_btn a) (save_btn a) (timers a)
        (disk a).

Definition with_overlay (o : option overlay_window) (a : app) : app :=
  mkApp (controller a) (logged_numbers a) (config a) o (display_label a)
        (display_color a) (lock_status a) (overlay_btn a) (save_btn a) (timers a)
        (disk a).

Definition with_display_color (c : pyobj) (a : app) : app :=
  mkApp (controller a) (logged_numbers a) (config a) (overlay a) (display_label a)
        c (lock_status a) (overlay_btn a) (save_btn a) (timers a) (disk a).

Definition with_lock_status (s : string) (a : app) : app :=
  mkApp (controller a) (logged_numbers a) (config a) (overlay a) (display_label a)
        (display_color a) s (overlay_btn a) (save_btn a) (timers a) (disk a).

Definition with_overlay_btn (s : string) (a : app) : app :=
  mkApp (controller a) (logged_numbers a) (config a) (overlay a) (display_label a)
        (display_color a) (lock_status a) s (save_btn a) (timers a) (disk a).

Definition with_save_btn (b : string * stylesheet) (a : app) : app :=
  mkApp (controller a) (logged_numbers a) (config a) (overlay a) (display_label a)
        (display_color a) (lock_status a) (overlay_btn a) b (timers a) (disk a).

Definition with_timers (t : list (string * stylesheet)) (a : app) : app :=
  mkApp (controller a) (logged_numbers a) (config a) (overlay a) (display_label a)
        (display_color a) (lock_status a) (overlay_btn a) (save_btn a) t (disk a).

Definition with_disk (fs : FS text) (a : app) : app :=
  mkApp (controller a) (logged_numbers a) (config a) (overlay a) (display_label a)
        (display_color a) (lock_status a) (overlay_btn a) (save_btn a) (timers a) fs.

(** The part of the main window that the key handling works on. *)
Definition to_main (a : app) : MainWindow.t :=
  MainWindow.mk (controller a) (logged_numbers a) (config a)
                (option_map ui (overlay a)) (display_label a).

(** Writing that part back; the overlay keeps its window attributes. *)
Definition from_main (w : MainWindow.t) (a : app) : app :=
  mkApp (MainWindow.controller w) (MainWindow.logged_numbers w) (MainWindow.config w)
        (match overlay a, MainWindow.overlay w with
         | Some o, Some u =>
             Some (mkOverlay u (pos o) (transparent_for_input o) (cursor_shape o)
                             (visible o))
         | o, _ => o
         end)
        (MainWindow.display_label w) (display_color a) (lock_status a)
        (overlay_btn a) (save_btn a) (timers a) (disk a).

(** A method of the key handling, run on the whole window. *)
Definition run_main {A : Type} (m : M MainWindow.t A) : M app A :=
  fun a => let '(r, w) := m (to_main a) in (r, from_main w a).

Definition on_key_press (key : MainWindow.key_event) : M app unit :=
  run_main (MainWindow.on_key_press key).

Definition clear_numbers : M app unit := run_main MainWindow.clear_numbers.

(** [self.config[key]] and [self.config[key] = value]. *)
Definition config_get (key : string) : M app pyobj :=
  cfg <- gets config ;;
  lift (getitem cfg key).

Definition config_set (key : string) (value : pyobj) : M app unit :=
  cfg <- gets config ;;
  cfg <- lift (setitem key value cfg) ;;
  modify (with_config cfg).

(** [self.overlay.m(...)]. *)
Definition on_overlay (m : M overlay_window unit) : M app unit :=
  fun a =>
    match overlay a with
    | Some o => let '(r, o') := m o in (r, with_overlay (Some o') a)
    | None => (Raise AttributeError, a)
    end.

(** [if self.overlay: ...]. *)
Definition if_overlay (m : M app unit) : M app unit :=
  fun a =>
    match overlay a with
    | Some _ => m a
    | None => (Return tt, a)
    end.

(** [save_config(self.config)], with its result. *)
Definition save : M app bool :=
  fun a =>
    let '(ok, fs) := save_config json_dump (config a) (disk a) in
    (Return ok, with_disk fs a).

(** [self.overlay.update_text(' '.join(self.logged_numbers))]. *)
Definition overlay_update_text : M app unit :=
  numbers <- gets logged_numbers ;;
  let current_text := join " " numbers in
  cfg <- gets config ;;
  on_overlay (on_ui (OverlayWindow.update_text cfg current_text)).

(** [self.overlay.set_click_through(self.config["overlay_locked"])]. *)
Definition overlay_set_click_through : M app unit :=
  locked <- config_get "overlay_locked" ;;
  cfg <- gets config ;;
  on_overlay (set_click_through cfg locked).

(** [self.overlay.update_color(color)]: the overlay writes the colour into
    the config it shares with the main window. *)
Definition overlay_update_color (color : pyobj) : M app unit :=
  config_set "overlay_color" color ;;;
  cfg <- gets config ;;
  on_overlay (on_ui (OverlayWindow.update_overlay_style cfg)).

(** [MainWindow.__init__] up to the end of [setup_ui], on the file system
    it finds. *)
Definition init (fs : FS text) : outcome app :=
  cfg <-? load_config json_load fs ;;
  locked <-? getitem cfg "overlay_locked" ;;
  let lock_status := if truthy locked then "Locked" else "Unlocked" in
  color <-? getitem cfg "overlay_color" ;;
  Return (mkApp [] [] cfg None "" color lock_status "Overlay OFF"
                ("Save", plain_style) [] fs).

Definition toggle_overlay (screen_width : Z) : M app unit :=
  ov <- gets overlay ;;
  match ov with
  | Some _ =>
      on_overlay close ;;;
      modify (with_overlay None) ;;;
      modify (with_overlay_btn "Overlay OFF")
  | None =>
      cfg <- gets config ;;
      o <- lift (new cfg screen_width) ;;
      modify (with_overlay (Some o)) ;;;
      overlay_set_click_through ;;;
      overlay_update_text ;;;
      on_overlay show ;;;
      modify (with_overlay_btn "Overlay ON")
  end.

Definition toggle_lock : M app unit :=
  locked <- config_get "overlay_locked" ;;
  config_set "overlay_locked" (PBool (negb (truthy locked))) ;;;
  locked <- config_get "overlay_locked" ;;
  let lock_status := if truthy locked then "Locked" else "Unlocked" in
  modify (with_lock_status lock_status) ;;;
  _ <- config_get "overlay_locked" ;;
  if_overlay (overlay_set_click_through ;;; overlay_update_text) ;;;
  _ <- save ;;
  ret tt.

(** [MainWindow.set_position(pos)]. *)
Definition set_position_preset (p : string) (screen_width : Z) : M app unit :=
  ov <- gets overlay ;;
  match ov with
  | None => ret tt
  | Some _ =>
      let overlay_w := 480 in
      let x :=
        if String.eqb p "left" then 20
        else if String.eqb p "right" then screen_width - overlay_w - 20
        else (screen_width - overlay_w) / 2 in
      let y := 30 in
      on_overlay (move (x, y)) ;;;
      config_set "overlay_x" (PInt x) ;;;
      config_set "overlay_y" (PInt y) ;;;
      _ <- save ;;
      ret tt
  end.

(** [pick_color]; [choice] is the name of the colour picked in the dialog,
    or [None] when the dialog gave no valid colour. *)
Definition pick_color (choice : option string) : M app unit :=
  match choice with
  | Some hex_color =>
      config_set "overlay_color" (PStr hex_color) ;;;
      modify (with_display_color (PStr hex_color)) ;;;
      if_overlay (overlay_update_color (PStr hex_color)) ;;;
      _ <- save ;;
      ret tt
  | None => ret tt
  end.

Definition show_save_feedback (message : string) : M app unit :=
  original <- gets save_btn ;;
  modify (with_save_btn (message, saved_style)) ;;;
  pending <- gets timers ;;
  modify (with_timers (pending ++ [original])).

(** The oldest pending timer fires and its callback runs. *)
Definition timeout : M app unit :=
  pending <- gets timers ;;
  match pending with
  | original :: rest =>
      modify (with_timers rest) ;;;
      modify (with_save_btn original)
  | [] => ret tt
  end.

Definition reset_default : M app unit :=
  default <- lift (getitem (PDict DEFAULT_CONFIG) "overlay_color") ;;
  config_set "overlay_color" default ;;;
  color <- config_get "overlay_color" ;;
  modify (with_display_color color) ;;;
  if_overlay (color <- config_get "overlay_color" ;; overlay_update_color color) ;;;
  _ <- save ;;
  show_save_feedback "Reset to default!".

Definition save_settings : M app unit :=
  ok <- save ;;
  if ok : bool then show_save_feedback "Saved!" else ret tt.

(** The body of [OverlayWindow.mouseMoveEvent] when its condition holds:
    the drag takes the window to [p]. *)
Definition mouseMoveEvent (p : Z * Z) : M app unit :=
  on_overlay (move p) ;;;
  config_set "overlay_x" (PInt (fst p)) ;;;
  config_set "overlay_y" (PInt (snd p)) ;;;
  _ <- save ;;
  ret tt.

(** [MainWindow.closeEvent]; accepting the event is left to Qt. *)
Definition closeEvent : M app unit :=
  if_overlay (on_overlay close) ;;;
  _ <- save ;;
  ret tt.

(** What the colour handlers leave, apart from the Save button, on a config
    dict [d]: the colour [c] in the config and in the style of both
    displays, and the file written. *)
Definition recoloured (a : app) (d : gmap string pyobj) (c : pyobj) : app :=
  let d' := <["overlay_color" := c]> d in
  mkApp (controller a) (logged_numbers a) (PDict d')
        (option_map
           (fun o =>
              mkOverlay (look d' (logged_numbers a)) (pos o) (transparent_for_input o)
                        (cursor_shape o) (visible o))
           (overlay a))
        (display_label a) c (lock_status a) (overlay_btn a) (save_btn a) (timers a)
        (snd (save_config json_dump (PDict d') (disk a))).

(** The attributes after a handler has run, whether it returned or raised. *)
Definition exec {A : Type} (m : M app A) (a : app) : app := snd (m a).

(** What the user and the timers can make the running program do: a key
    event, a click on one of the buttons, a colour dialog closing, a drag of
    the overlay or a timer firing.  Screen widths and positions come from Qt
    and are C [int]s. *)
Inductive event : Type :=
  | KeyPress (key : MainWindow.key_event)
  | ClickClear
  | ClickOverlay (screen_width : Z)
  | ClickLock
  | ClickPosition (p : string) (screen_width : Z)
  | ColorDialog (choice : option string)
  | ClickReset
  | ClickSave
  | Drag (p : Z * Z)
  | TimerFires.

Definition handle (e : event) : M app unit :=
  match e with
  | KeyPress key => on_key_press key
  | ClickClear => clear_numbers
  | ClickOverlay screen_width => toggle_overlay screen_width
  | ClickLock => toggle_lock
  | ClickPosition p screen_width => set_position_preset p screen_width
  | ColorDialog choice => pick_color choice
  | ClickReset => reset_default
  | ClickSave => save_settings
  | Drag p => mouseMoveEvent p
  | TimerFires => timeout
  end.

(** Only an overlay that exists can be dragged, and the width of a screen
    is a C [int] that is not negative. *)
Definition possible (e : event) (a : app) : Prop :=
  match e with
  | Drag _ => overlay a <> None
  | ClickOverlay screen_width | ClickPosition _ screen_width =>
      0 <= screen_width < 2 ^ 31
  | _ => True
  end.

Inductive reachable : app -> Prop :=
  | reachable_init fs a : init fs = Return a -> reachable a
  | reachable_step e a : reachable a -> possible e a -> reachable (exec (handle e) a).

(** The states the program can get to from a state. *)
Inductive reaches : app -> app -> Prop :=
  | reaches_refl a : reaches a a
  | reaches_step a a' e :
      reaches a a' -> possible e a' -> reaches a (exec (handle e) a').

(** The lock flag of a config, as the conditions of the program read it. *)
Definition locked (cfg : pyobj) : bool :=
  match getitem cfg "overlay_locked" with
  | Return v => truthy v
  | Raise _ => false
  end.

(** A config that is a dict with the four keys. *)
Definition record_config (cfg : pyobj) : Prop :=
  exists d, cfg = PDict d
            /\ forall key, key ∈ DEFAULT_CONFIG_items.*1 -> is_Some (d !! key).

(** A stored coordinate that [move] accepts, or none. *)
Definition coordinate (v : pyobj) : Prop :=
  v = PNone \/ exists n, v = PInt n /\ - 2 ^ 31 <= n < 2 ^ 31.

(** A stored value that is no number at all: a string, a list or an
    object. *)
Definition not_a_number (v : pyobj) : Prop :=
  match v with
  | PStr _ | PList _ | PDict _ => True
  | PNone | PBool _ | PInt _ | PFloat _ => False
  end.

(** A stored position that is complete and that [move] refuses for its
    first or, the first being a fitting [int], for its second
    coordinate. *)
Definition unusable_position (vx vy : pyobj) : Prop :=
  (not_a_number vx /\ vy <> PNone)
  \/ ((exists n, vx = PInt n /\ - 2 ^ 31 <= n < 2 ^ 31) /\ not_a_number vy).

(** The widgets agree with the state they show. *)
Record in_step (a : app) : Prop := mkInStep {
  in_step_config : record_config (config a);
  in_step_lock : lock_status a = if locked (config a) then "Locked" else "Unlocked";
  in_step_button :
    overlay_btn a = match overlay a with
                    | Some _ => "Overlay ON"
                    | None => "Overlay OFF"
                    end;
  in_step_overlay :
    forall o, overlay a = Some o ->
              transparent_for_input o = locked (config a)
              /\ cursor_shape o = (if locked (config a) then BlankCursor
                                   else SizeAllCursor)
              /\ visible o = true;
  in_step_ui :
    forall o, overlay a = Some o ->
              exists d, config a = PDict d /\ ui o = look d (logged_numbers a);
  in_step_buffer : MainWindow.consistent (to_main a)
}.

(** The events whose handlers write the config to the file. *)
Definition saves (e : event) (a : app) : Prop :=
  match e with
  | ClickLock | ClickReset | ClickSave | Drag _ | ColorDialog (Some _) => True
  | ClickPosition _ _ => overlay a <> None
  | KeyPress _ | ClickClear | ClickOverlay _ | ColorDialog None | TimerFires => False
  end.

End Env.

Arguments mkApp {text stylesheet}.
Arguments controller {text stylesheet} a.
Arguments logged_numbers {text stylesheet} a.
Arguments config {text stylesheet} a.
Arguments overlay {text stylesheet} a.
Arguments display_label {text stylesheet} a.
Arguments display_color {text stylesheet} a.
Arguments lock_status {text stylesheet} a.
Arguments overlay_btn {text stylesheet} a.
Arguments save_btn {text stylesheet} a.
Arguments timers {text stylesheet} a.
Arguments disk {text stylesheet} a.
Arguments with_config {text stylesheet} c a.
Arguments with_overlay {text stylesheet} o a.
Arguments with_display_color {text stylesheet} c a.
Arguments with_lock_status {text stylesheet} s a.
Arguments with_overlay_btn {text stylesheet} s a.
Arguments with_save_btn {text stylesheet} b a.
Arguments with_timers {text stylesheet} t a.
Arguments with_disk {text stylesheet} fs a.
Arguments to_main {text stylesheet} a.
Arguments from_main {text stylesheet} w a.
Arguments run_main {text stylesheet A} m.
Arguments on_key_press {text stylesheet} key.
Arguments clear_numbers {text stylesheet}.
Arguments config_get {text stylesheet} key.
Arguments config_set {text stylesheet} key value.
Arguments on_overlay {text stylesheet} m.
Arguments if_overlay {text stylesheet} m.
Arguments save {text} json_dump {stylesheet}.
Arguments overlay_update_text {text stylesheet}.
Arguments overlay_set_click_through {text stylesheet}.
Arguments overlay_update_color {text stylesheet} color.
Arguments init {text} json_load {stylesheet} plain_style fs.
Arguments toggle_overlay {text stylesheet} screen_width.
Arguments toggle_lock {text} json_dump {stylesheet}.
Arguments set_position_preset {text} json_dump {stylesheet} p screen_width.
Arguments pick_color {text} json_dump {stylesheet} choice.
Arguments show_save_feedback {text stylesheet} saved_style message.
Arguments timeout {text stylesheet}.
Arguments reset_default {text} json_dump {stylesheet} saved_style.
Arguments save_settings {text} json_dump {stylesheet} saved_style.
Arguments mouseMoveEvent {text} json_dump {stylesheet} p.
Arguments closeEvent {text} json_dump {stylesheet}.
Arguments exec {text stylesheet A} m a.
Arguments recoloured {text} json_dump {stylesheet} a d c.
Arguments handle {text} json_dump {stylesheet} saved_style e.
Arguments possible {text stylesheet} e a.
Arguments reachable {text} json_load json_dump {stylesheet} plain_style saved_style a.
Arguments in_step {text stylesheet} a.
Arguments reaches {text} json_dump {stylesheet} saved_style a a'.
Arguments saves {text stylesheet} e a.

End Gui.

(** The horizontal position [MainWindow.set_position] computes for a
    preset. *)
Definition preset_x (p : string) (screen_width : Z) : Z :=
  if String.eqb p "left" then 20
  else if String.eqb p "right" then screen_width - 480 - 20
  else (screen_width - 480) / 2.

(** A window started without a [config.json], with values for file
    contents and words for style sheets; and the same with the overlay
    switched on, on a screen 1920 wide. *)
Definition example_app : Gui.app pyobj string :=
  Gui.mkApp [] [] (PDict DEFAULT_CONFIG) None "" (PStr "#ffff00") "Unlocked"
            "Overlay OFF" ("Save", "plain") [] (mkFS None true Writable).

Definition example_shown : Gui.app pyobj string :=
  Gui.exec (Gui.toggle_overlay 1920) example_app.

(** A window started on a file whose [overlay_x] is a word. *)
Definition stuck_config : pyobj :=
  PDict (<["overlay_x" := PStr "left"]> (<["overlay_y" := PInt 30]> DEFAULT_CONFIG)).

Definition example_stuck : Gui.app pyobj string :=
  Gui.mkApp [] [] stuck_config None "" (PStr "#ffff00") "Unlocked"
            "Overlay OFF" ("Save", "plain") [] (mkFS (Some stuck_config) true Writable).

(** * Properties *)

(** ** Python strings *)

Section Strings.

Lemma append_cons (a : ascii) (u v : string) :
  String a u +:+ v = String a (u +:+ v).
Proof. reflexivity. Qed.

Lemma append_empty_l (v : string) : "" +:+ v = v.
Proof. reflexivity. Qed.

Lemma append_empty_r (u : string) : u +:+ "" = u.
Proof.
  induction u as [|a u IH]; [reflexivity|]. now rewrite append_cons, IH.
Qed.

Lemma append_snoc (u : string) (c : ascii) (t : string) :
  (u +:+ String c "") +:+ t = u +:+ String c t.
Proof.
  induction u as [|a u IH]; [reflexivity|]. now rewrite !append_cons, IH.
Qed.

Lemma split_from_spaceless (t tok rest : string) :
  spaceless t = true ->
  split_from tok (t +:+ rest) = split_from (tok +:+ t) rest.
Proof.
  revert tok. induction t as [|c t IH]; intros tok Ht.
  - now rewrite append_empty_l, append_empty_r.
  - simpl in Ht. apply andb_prop in Ht as [Hc Ht]. apply negb_true_iff in Hc.
    rewrite append_cons. simpl. rewrite Hc, IH by assumption.
    now rewrite append_snoc.
Qed.

Lemma join_cons2 (sep x y : string) (l : list string) :
  join sep (x :: y :: l) = x +:+ sep +:+ join sep (y :: l).
Proof. reflexivity. Qed.

(** Splitting the space-joined tokens gives the tokens back. *)
Lemma split_join (ts : list string) :
  Forall token ts -> split (join " " ts) = ts.
Proof.
  unfold split. induction ts as [|t ts IH]; intros Hts; [reflexivity|].
  apply Forall_cons in Hts as [[Hne Hsp] Hts].
  destruct ts as [|t' ts].
  - unfold join; simpl. rewrite <- (append_empty_r t) at 1.
    rewrite split_from_spaceless by assumption.
    rewrite append_empty_l. simpl. now rewrite Hne.
  - rewrite join_cons2, split_from_spaceless by assumption.
    rewrite append_empty_l, append_cons, append_empty_l. simpl.
    rewrite Hne. f_equal. now apply IH.
Qed.

Lemma lstrip_head (c : ascii) (s : string) :
  isspace c = false -> lstrip (String c s) = String c s.
Proof. intros Hc. simpl. now rewrite Hc. Qed.

Lemma rstrip_head (c : ascii) (s : string) :
  isspace c = false -> nonempty (rstrip (String c s)) = true.
Proof. intros Hc. simpl. now rewrite Hc. Qed.

(** A string whose first character is not white space strips to a
    non-empty string. *)
Lemma strip_head (c : ascii) (s : string) :
  isspace c = false -> nonempty (strip (String c s)) = true.
Proof.
  intros Hc. unfold strip. rewrite lstrip_head by assumption.
  now apply rstrip_head.
Qed.

Lemma join_head (c : ascii) (t : string) (ts : list string) :
  exists s, join " " (String c t :: ts) = String c s.
Proof.
  destruct ts as [|t' ts]; [now exists t|].
  rewrite join_cons2, append_cons. eauto.
Qed.
End Strings.

Section Numpad.

Lemma NUMPAD_MAPPING_cases (vk : Z) (d : string) :
  NUMPAD_MAPPING !! vk = Some d ->
  (vk, d) ∈ [ (96, "0"); (97, "1"); (98, "2"); (99, "3"); (100, "4");
              (101, "5"); (102, "6"); (103, "7"); (104, "8"); (105, "9") ].
Proof. intros H. now apply elem_of_list_to_map_2 in H. Qed.

Lemma NUMPAD_MAPPING_spec (vk : Z) (d : string) :
  NUMPAD_MAPPING !! vk = Some d <-> 96 <= vk <= 105 /\ d = keypad_char vk.
Proof.
  split.
  - intros H%NUMPAD_MAPPING_cases.
    repeat (apply elem_of_cons in H as [[= -> ->]|H]; [split; [lia|reflexivity]|]).
    now apply elem_of_nil in H.
  - intros [Hvk ->].
    assert (vk = 96 \/ vk = 97 \/ vk = 98 \/ vk = 99 \/ vk = 100 \/ vk = 101
            \/ vk = 102 \/ vk = 103 \/ vk = 104 \/ vk = 105) as Hcases by lia.
    repeat (destruct Hcases as [->|Hcases]; [reflexivity|]).
    now subst.
Qed.

Lemma digit_shape (d : string) :
  digit d -> exists c, d = String c "" /\ isspace c = false /\ c <> "O"%char.
Proof.
  intros [vk H%NUMPAD_MAPPING_cases].
  repeat (apply elem_of_cons in H as [[= -> ->]|H];
          [eexists; repeat split; (reflexivity || discriminate)|]).
  now apply elem_of_nil in H.
Qed.

Lemma digit_token (d : string) : digit d -> token d.
Proof.
  intros (c & -> & Hc & _)%digit_shape. split; [reflexivity|].
  simpl. now rewrite Hc.
Qed.

Lemma digits_tokens (ds : list string) : Forall digit ds -> Forall token ds.
Proof. intros H. eapply Forall_impl; [exact H|]. apply digit_token. Qed.

End Numpad.

Section Overlay.
Import OverlayWindow.

Lemma startswith_Overlay_head (c : ascii) (s : string) :
  c <> "O"%char -> startswith (String c s) "Overlay" = false.
Proof.
  intros Hc. unfold startswith.
  change (String.prefix "Overlay" (String c s))
    with (if ascii_dec "O" c then String.prefix "verlay" s else false).
  destruct (ascii_dec "O" c) as [Heq|_]; [now elim Hc|reflexivity].
Qed.

(** The space-joined digits start with a character that is neither white
    space nor the letter of the hint. *)
Lemma join_digits_head (n : string) (ns : list string) :
  digit n ->
  exists c s, join " " (n :: ns) = String c s /\ isspace c = false /\ c <> "O"%char.
Proof.
  intros (c & -> & Hsp & HO)%digit_shape.
  destruct (join_head c "" ns) as [s Hs]. eauto.
Qed.

Lemma clamp_join (numbers : list string) :
  Forall token numbers ->
  (if (7 <? length (split (join " " numbers)))%nat
   then join " " (take 7 (split (join " " numbers)))
   else join " " numbers) = join " " (take 7 numbers).
Proof.
  intros H. rewrite split_join by assumption.
  destruct (7 <? length numbers)%nat eqn:Hlen; [reflexivity|].
  apply Nat.ltb_ge in Hlen. now rewrite take_ge.
Qed.

(** C7: the overlay's look after [update_text] is a function of whether the
    buffer holds digits and of the lock flag of the config, by the table:
    digits and locked, the digits with border "none" on a transparent
    background; digits and unlocked, the digits with the dashed border on
    the tinted background; no digits and locked, no text and everything
    transparent; no digits and unlocked, the positioning hint with the
    dashed border on the tinted background.  Locked is a flag of [True] and
    unlocked a flag of [False] or a config without the flag; a flag that is
    not a [bool] counts by its truth value.  The config is a dict that has
    its colour, the text is the space-joined buffer; more than seven digits
    are cut to the first seven. *)
Theorem overlay_mode_table (d : gmap string pyobj) (tint : pyobj)
    (numbers : list string) (locked : bool) (ov : OverlayWindow.t) :
  d !! "overlay_color" = Some tint ->
  Forall digit numbers ->
  d !! "overlay_locked" = Some (PBool locked)
  \/ (d !! "overlay_locked" = None /\ locked = false)
  \/ (exists v, d !! "overlay_locked" = Some v
                /\ (forall b, v <> PBool b) /\ locked = truthy v) ->
  let shown := join " " (take 7 numbers) in
  update_text (PDict d) (join " " numbers) ov =
    (Return tt,
     match numbers, locked with
     | _ :: _, true => mk shown (mkStyle tint "36px" "transparent" "none")
     | _ :: _, false =>
         mk shown (mkStyle tint "36px" "rgba(255, 71, 87, 0.15)" "2px dashed #ff4757")
     | [], true => mk "" (mkStyle (PStr "transparent") "16px" "transparent" "none")
     | [], false =>
         mk positioning_hint
            (mkStyle (PStr "#ff4757") "16px" "rgba(255, 71, 87, 0.15)"
                     "2px dashed #ff4757")
     end).
Proof.
  intros Hcolor Hdigits Hflag shown.
  assert (match d !! "overlay_locked" with Some v => truthy v | None => false end
          = locked) as Hlocked.
  { destruct Hflag as [->|[[-> ->]|(v & -> & _ & ->)]]; reflexivity. }
  clear Hflag. unfold update_text.
  rewrite clamp_join by now apply digits_tokens.
  subst locked shown. destruct numbers as [|n ns].
  - unfold update_overlay_style, setText, setStyleSheet, get. method.
    simpl. destruct (d !! "overlay_locked") as [v|]; simpl;
      [destruct (truthy v)|]; reflexivity.
  - apply Forall_cons in Hdigits as [Hn Hns].
    assert (exists c s, join " " (take 7 (n :: ns)) = String c s
                        /\ isspace c = false /\ c <> "O"%char) as (c & s & -> & Hsp & HO).
    { simpl. now apply join_digits_head. }
    unfold update_overlay_style, setText, setStyleSheet, get, getitem. method.
    rewrite strip_head by assumption. cbn [label].
    rewrite strip_head, startswith_Overlay_head by assumption.
    rewrite Hcolor. cbn [andb negb].
    destruct (d !! "overlay_locked") as [v|]; cbn [truthy];
      [destruct (truthy v)|]; unfold undecorated, decorated; cbn [label];
      rewrite strip_head, startswith_Overlay_head by assumption; reflexivity.
Qed.
End Overlay.

Section Buffer.
Import MainWindow.

(** [update_display] rewrites the label from the buffer and may restyle
    the overlay; it keeps the buffer, the typed output and the config. *)
Lemma update_display_shape (w : t) :
  exists r ov,
    update_display w =
      (r, mk (controller w) (logged_numbers w) (config w) ov
             (join " " (logged_numbers w))).
Proof.
  unfold update_display, if_overlay, setText. method. simpl.
  destruct (overlay w) as [o|]; [|eauto].
  destruct (OverlayWindow.update_text _ _ o) as [r o']. eauto.
Qed.

Lemma clear_numbers_shape (w : t) :
  exists r ov, clear_numbers w = (r, mk (controller w) [] (config w) ov "").
Proof.
  unfold clear_numbers. method.
  destruct (update_display_shape (clear w)) as (r & ov & ->). eauto.
Qed.

Lemma send_numbers_empty (w : t) :
  logged_numbers w = [] -> send_numbers w = (Return tt, w).
Proof. intros H. unfold send_numbers. method. now rewrite H. Qed.

Lemma send_numbers_shape (w : t) :
  logged_numbers w <> [] ->
  exists r ov,
    send_numbers w =
      (r, mk (controller w ++ [join "" (logged_numbers w)]) [] (config w) ov "").
Proof.
  intros H. unfold send_numbers. method.
  destruct (logged_numbers w) as [|n ns] eqn:E; [contradiction|].
  destruct (clear_numbers_shape (type (join "" (n :: ns)) w)) as (r & ov & ->).
  eauto.
Qed.

Lemma on_key_press_enter (w : t) :
  on_key_press (Special enter) w = send_numbers w.
Proof.
  unfold on_key_press. method. simpl.
  now destruct (send_numbers w) as [[] ?].
Qed.

Lemma on_key_press_backspace (w : t) :
  on_key_press (Special backspace) w = clear_numbers w.
Proof.
  unfold on_key_press. method. simpl.
  now destruct (clear_numbers w) as [[] ?].
Qed.

(** A key that is neither a mapped keypad digit nor Enter nor Backspace
    changes nothing and raises nothing. *)
Lemma on_key_press_other (key : key_event) (w : t) :
  numpad_digit key = None ->
  key <> Special enter -> key <> Special backspace ->
  on_key_press key w = (Return tt, w).
Proof.
  intros Hd He Hb. unfold on_key_press. method.
  rewrite Hd. destruct key as [vk char|[| |name]|]; try reflexivity; contradiction.
Qed.

Lemma numpad_digit_KeyCode (key : key_event) (d : string) :
  numpad_digit key = Some d ->
  exists vk char, key = KeyCode (Some vk) char /\ NUMPAD_MAPPING !! vk = Some d.
Proof.
  destruct key as [[vk|] char| |]; simpl; try discriminate. eauto.
Qed.

(** A mapped keypad digit on a full buffer: nothing happens. *)
Lemma on_key_press_digit_full (key : key_event) (d : string) (w : t) :
  numpad_digit key = Some d ->
  (7 <= length (logged_numbers w))%nat ->
  on_key_press key w = (Return tt, w).
Proof.
  intros Hd Hlen. destruct (numpad_digit_KeyCode _ _ Hd) as (vk & char & -> & _).
  unfold on_key_press. method. rewrite Hd.
  apply Nat.ltb_ge in Hlen. now rewrite Hlen.
Qed.

(** A mapped keypad digit on a buffer with room: the digit is appended
    and the display redrawn; an exception from the redraw is dropped. *)
Lemma on_key_press_digit_room (key : key_event) (d : string) (w : t) :
  numpad_digit key = Some d ->
  (length (logged_numbers w) < 7)%nat ->
  exists ov,
    on_key_press key w =
      (Return tt,
       mk (controller w) (logged_numbers w ++ [d]) (config w) ov
          (join " " (logged_numbers w ++ [d]))).
Proof.
  intros Hd Hlen. destruct (numpad_digit_KeyCode _ _ Hd) as (vk & char & -> & _).
  unfold on_key_press. method. rewrite Hd.
  apply Nat.ltb_lt in Hlen. rewrite Hlen.
  destruct (update_display_shape (append d w)) as (r & ov & ->).
  exists ov. now destruct r.
Qed.
End Buffer.

Section Clear.
Import MainWindow.

(** Redrawing the overlay for the empty text a second time changes
    nothing: what it sets depends on the config alone. *)
Lemma update_text_empty_again (cfg : pyobj) (ov : OverlayWindow.t) :
  OverlayWindow.update_text cfg "" (snd (OverlayWindow.update_text cfg "" ov))
  = OverlayWindow.update_text cfg "" ov.
Proof.
  destruct cfg as [| | | | | |d]; try reflexivity.
  unfold OverlayWindow.update_text, OverlayWindow.update_overlay_style, get,
    OverlayWindow.setText, OverlayWindow.setStyleSheet. method.
  simpl. destruct (d !! "overlay_locked") as [v|]; simpl;
    [destruct (truthy v)|]; reflexivity.
Qed.

(** C4: [clear_numbers] leaves the buffer empty whatever the state was, and
    a second call in a row leaves the state of the first call and ends as
    the first call ended. *)
Theorem clear_numbers_idempotent (w : t) :
  logged_numbers (exec clear_numbers w) = []
  /\ exec clear_numbers (exec clear_numbers w) = exec clear_numbers w
  /\ fst (clear_numbers (exec clear_numbers w)) = fst (clear_numbers w).
Proof.
  assert (clear_numbers (exec clear_numbers w) = clear_numbers w) as Hagain.
  { unfold exec, clear_numbers, update_display, bind, gets, modify, if_overlay,
      clear, setText. simpl.
    destruct (overlay w) as [ov|]; simpl; [|reflexivity].
    pose proof (update_text_empty_again (config w) ov) as H.
    destruct (OverlayWindow.update_text (config w) "" ov) as [r ov'] eqn:E.
    simpl in *. destruct r; simpl; now rewrite H. }
  split; [|split].
  - unfold exec. now destruct (clear_numbers_shape w) as (r & ov & ->).
  - unfold exec at 1 3. now rewrite Hagain.
  - now rewrite Hagain.
Qed.
End Clear.

Section Invariant.
Import MainWindow.

Lemma consistent_init (cfg : pyobj) : consistent (init cfg).
Proof. repeat split; simpl; [lia|constructor]. Qed.

Lemma consistent_clear_numbers (w : t) : consistent (exec clear_numbers w).
Proof.
  unfold exec. destruct (clear_numbers_shape w) as (r & ov & ->).
  repeat split; simpl; [lia|constructor].
Qed.

Lemma consistent_send_numbers (w : t) :
  consistent w -> consistent (exec send_numbers w).
Proof.
  intros Hw. unfold exec. destruct (logged_numbers w) as [|n ns] eqn:E.
  - now rewrite send_numbers_empty.
  - destruct (send_numbers_shape w) as (r & ov & ->); [now rewrite E|].
    repeat split; simpl; [lia|constructor].
Qed.

Lemma consistent_on_key_press (key : key_event) (w : t) :
  consistent w -> consistent (exec (on_key_press key) w).
Proof.
  intros Hw. unfold exec.
  destruct (numpad_digit key) as [d|] eqn:Hd.
  - destruct (Nat.lt_ge_cases (length (logged_numbers w)) 7) as [Hlen|Hlen].
    + destruct (on_key_press_digit_room _ _ w Hd Hlen) as [ov ->].
      destruct Hw as (_ & Hdig & _).
      destruct (numpad_digit_KeyCode _ _ Hd) as (vk & _ & _ & Hvk).
      repeat split; simpl.
      * rewrite length_app. simpl. lia.
      * apply Forall_app. split; [assumption|]. repeat constructor. now exists vk.
    + now rewrite (on_key_press_digit_full _ _ w Hd Hlen).
  - destruct key as [vk char|[| |name]|].
    + now rewrite on_key_press_other.
    + rewrite on_key_press_enter. now apply consistent_send_numbers.
    + rewrite on_key_press_backspace. apply consistent_clear_numbers.
    + now rewrite on_key_press_other.
    + now rewrite on_key_press_other.
Qed.

Lemma consistent_step (w w' : t) : consistent w -> step w w' -> consistent w'.
Proof.
  intros Hw Hstep. destruct Hstep as [key w|w|w cfg ov].
  - now apply consistent_on_key_press.
  - apply consistent_clear_numbers.
  - exact Hw.
Qed.

Lemma reachable_consistent (w : t) : reachable w -> consistent w.
Proof.
  induction 1 as [cfg|w w' _ IH Hstep].
  - apply consistent_init.
  - now apply (consistent_step w).
Qed.

(** C2: in every reachable state the buffer has at most seven entries, and
    it still has after a key event (which appends, flushes or clears), after
    [clear_numbers] and after [send_numbers]; a keypad digit arriving while
    the buffer holds seven entries returns normally and changes nothing. *)
Theorem buffer_length_bounded (w : t) :
  reachable w ->
  (length (logged_numbers w) <= 7)%nat
  /\ (forall key, (length (logged_numbers (exec (on_key_press key) w)) <= 7)%nat)
  /\ (length (logged_numbers (exec clear_numbers w)) <= 7)%nat
  /\ (length (logged_numbers (exec send_numbers w)) <= 7)%nat
  /\ (forall key d,
        numpad_digit key = Some d ->
        length (logged_numbers w) = 7%nat ->
        on_key_press key w = (Return tt, w)).
Proof.
  intros Hw%reachable_consistent. repeat split.
  - apply Hw.
  - intros key. now apply consistent_on_key_press.
  - apply consistent_clear_numbers.
  - now apply consistent_send_numbers.
  - intros key d Hd Hlen. apply (on_key_press_digit_full key d); [assumption|lia].
Qed.

(** Keypad digits typed into a consistent state: the buffer takes them in
    order up to seven entries, the label shows the buffer, and nothing is
    typed out. *)
Lemma presses_digits (keys : list key_event) (digits : list string) (w : t) :
  Forall2 (fun key d => numpad_digit key = Some d) keys digits ->
  (length (logged_numbers w) <= 7)%nat ->
  display_label w = join " " (logged_numbers w) ->
  let w' := presses keys w in
  logged_numbers w' = take 7 (logged_numbers w ++ digits)
  /\ display_label w' = join " " (take 7 (logged_numbers w ++ digits))
  /\ controller w' = controller w.
Proof.
  intros Hkeys. revert w.
  induction Hkeys as [|key d keys digits Hd _ IH]; intros w Hlen Hlabel.
  - simpl. rewrite app_nil_r, take_ge by lia. auto.
  - simpl. unfold exec at 1 2 3.
    destruct (Nat.lt_ge_cases (length (logged_numbers w)) 7) as [Hroom|Hfull].
    + destruct (on_key_press_digit_room _ _ w Hd Hroom) as [ov ->].
      simpl. specialize (IH (mk (controller w) (logged_numbers w ++ [d]) (config w) ov
                                (join " " (logged_numbers w ++ [d])))).
      simpl in IH. rewrite <- app_assoc in IH. simpl in IH.
      apply IH; [|reflexivity]. rewrite length_app. simpl. lia.
    + rewrite (on_key_press_digit_full _ _ w Hd Hfull). simpl.
      destruct (IH w Hlen Hlabel) as (H1 & H2 & H3).
      rewrite take_app_le in H1, H2 by lia.
      rewrite take_app_le by lia. auto.
Qed.
End Invariant.

Section Claims.
Import MainWindow.

Lemma keypad_keys_digits (keys : list key_event) :
  Forall (fun key => is_Some (numpad_digit key)) keys ->
  exists digits, Forall2 (fun key d => numpad_digit key = Some d) keys digits.
Proof.
  induction 1 as [|key keys [d Hd] _ [digits IH]].
  - exists []. constructor.
  - exists (d :: digits). now constructor.
Qed.

(** C1: [send_numbers] on a non-empty buffer hands the concatenated digits
    to the controller exactly once and leaves the buffer empty, and keypad
    digits typed afterwards are not typed out; on an empty buffer it does
    nothing at all.  Enter runs [send_numbers]. *)
Theorem flush_emits_once (w : t) :
  (logged_numbers w <> [] ->
   let w' := exec send_numbers w in
   controller w' = controller w ++ [join "" (logged_numbers w)]
   /\ logged_numbers w' = []
   /\ (forall keys,
         Forall (fun key => is_Some (numpad_digit key)) keys ->
         controller (presses keys w') = controller w'))
  /\ (logged_numbers w = [] -> send_numbers w = (Return tt, w))
  /\ on_key_press (Special enter) w = send_numbers w.
Proof.
  split; [|split].
  - intros Hne w'. subst w'. unfold exec.
    destruct (send_numbers_shape w Hne) as (r & ov & ->). simpl.
    repeat split. intros keys [digits Hkeys]%keypad_keys_digits.
    eapply presses_digits in Hkeys as (_ & _ & ->); simpl; [reflexivity|lia|reflexivity].
  - apply send_numbers_empty.
  - apply on_key_press_enter.
Qed.

(** C3: from a reachable state with an empty buffer, after at most seven
    keypad digits the buffer holds them in the order typed and the label
    shows them joined by single spaces; once seven have been typed, further
    keypad digits change neither the buffer nor the label. *)
Theorem render_spaced_in_call_order (w : t) (keys : list key_event)
    (digits : list string) :
  reachable w ->
  logged_numbers w = [] ->
  Forall2 (fun key d => numpad_digit key = Some d) keys digits ->
  let w' := presses keys w in
  ((length keys <= 7)%nat ->
   logged_numbers w' = digits /\ display_label w' = join " " digits)
  /\ ((7 <= length keys)%nat ->
      forall more,
        Forall (fun key => is_Some (numpad_digit key)) more ->
        logged_numbers (presses more w') = logged_numbers w'
        /\ display_label (presses more w') = display_label w').
Proof.
  intros (Hlen & _ & Hlabel)%reachable_consistent Hempty Hkeys w'.
  destruct (presses_digits keys digits w Hkeys Hlen Hlabel) as (Hbuf & Hdisp & _).
  fold w' in Hbuf, Hdisp. rewrite Hempty in Hbuf, Hdisp. simpl in Hbuf, Hdisp.
  pose proof (Forall2_length _ _ _ Hkeys) as Hsame.
  split.
  - intros Hshort. rewrite take_ge in Hbuf, Hdisp by lia. auto.
  - intros Hlong more [extra Hmore]%keypad_keys_digits.
    assert (length (logged_numbers w') = 7%nat) as Hfull.
    { rewrite Hbuf, length_take. lia. }
    destruct (presses_digits more extra w' Hmore) as (Hbuf' & Hdisp' & _).
    + lia.
    + rewrite Hdisp, Hbuf. reflexivity.
    + rewrite take_app_le in Hbuf', Hdisp' by lia.
      rewrite take_ge in Hbuf', Hdisp' by lia.
      rewrite Hbuf', Hdisp'. split; [reflexivity|].
      rewrite Hdisp, Hbuf. reflexivity.
Qed.

Lemma app_singleton_neq {A : Type} (l : list A) (x : A) : l <> l ++ [x].
Proof.
  intros H. apply (f_equal length) in H. rewrite length_app in H. simpl in H. lia.
Qed.

(** C9: [NUMPAD_MAPPING] maps exactly the codes 96 to 105, to "0" up to
    "9"; a key event appends a digit to the buffer only if it is a key code
    in that range, and then that code's digit; an event that is neither a
    mapped keypad code nor Enter nor Backspace, such as a top-row digit
    (codes 48 to 57), changes nothing and types nothing; and every event
    other than Enter and Backspace makes the callback return normally, so
    the listener goes on. *)
Theorem keypad_codes_only :
  (forall vk d,
      NUMPAD_MAPPING !! vk = Some d <-> 96 <= vk <= 105 /\ d = keypad_char vk)
  /\ (forall key w d,
        logged_numbers (exec (on_key_press key) w) = logged_numbers w ++ [d] ->
        exists vk char,
          key = KeyCode (Some vk) char /\ 96 <= vk <= 105 /\ d = keypad_char vk)
  /\ (forall key w,
        numpad_digit key = None ->
        key <> Special enter -> key <> Special backspace ->
        on_key_press key w = (Return tt, w))
  /\ (forall vk char w,
        48 <= vk <= 57 -> on_key_press (KeyCode (Some vk) char) w = (Return tt, w))
  /\ (forall key w,
        key <> Special enter -> key <> Special backspace ->
        fst (on_key_press key w) = Return tt).
Proof.
  split; [exact NUMPAD_MAPPING_spec|]. split; [|split; [|split]].
  - intros key w d. unfold exec.
    destruct (numpad_digit key) as [d'|] eqn:Hd.
    + destruct (numpad_digit_KeyCode _ _ Hd) as (vk & char & -> & Hvk).
      destruct (Nat.lt_ge_cases (length (logged_numbers w)) 7) as [Hlen|Hlen].
      * destruct (on_key_press_digit_room _ _ w Hd Hlen) as [ov ->]. simpl.
        intros [_ [= ->]]%app_inj_tail.
        apply NUMPAD_MAPPING_spec in Hvk as [? ?]. eauto.
      * rewrite (on_key_press_digit_full _ _ w Hd Hlen). simpl.
        intros H. now apply app_singleton_neq in H.
    + destruct key as [vk char|[| |name]|];
        try (rewrite on_key_press_other by (assumption || discriminate); simpl;
             intros H; now apply app_singleton_neq in H).
      * rewrite on_key_press_enter.
        destruct (logged_numbers w) as [|n ns] eqn:E.
        -- rewrite send_numbers_empty by assumption. simpl. rewrite E. discriminate.
        -- destruct (send_numbers_shape w) as (r & ov & ->); [now rewrite E|].
           simpl. discriminate.
      * rewrite on_key_press_backspace.
        destruct (clear_numbers_shape w) as (r & ov & ->). simpl.
        intros H. symmetry in H. now apply app_eq_nil in H as [_ ?].
  - exact on_key_press_other.
  - intros vk char w Hvk. apply on_key_press_other; try discriminate.
    simpl. destruct (NUMPAD_MAPPING !! vk) as [d|] eqn:E; [|reflexivity].
    apply NUMPAD_MAPPING_spec in E as [? _]. lia.
  - intros key w He Hb.
    destruct (numpad_digit key) as [d|] eqn:Hd.
    + destruct (Nat.lt_ge_cases (length (logged_numbers w)) 7) as [Hlen|Hlen].
      * now destruct (on_key_press_digit_room _ _ w Hd Hlen) as [ov ->].
      * now rewrite (on_key_press_digit_full _ _ w Hd Hlen).
    + now rewrite on_key_press_other.
Qed.

(** C10 as stated fails: keypad 1 on the initial state is not handed off,
    the callback has changed the buffer when it returns. *)
Lemma listener_does_not_hand_off :
  ~ hands_off (vk_event 97) (init (PDict DEFAULT_CONFIG)).
Proof. intros [H _]. vm_compute in H. discriminate. Qed.
End Claims.

Section Persistence.

Variable text : Type.
Variable json_load : text -> option pyobj.
Variable json_dump : pyobj -> text * bool.

(** On a dict the loop adds exactly the defaults that are missing. *)
Lemma ensure_keys_dict (items : list (string * pyobj)) (d : gmap string pyobj) :
  ensure_keys items (PDict d) = Return (PDict (d ∪ list_to_map items)).
Proof.
  revert d. induction items as [|[key value] items IH]; intros d; simpl.
  - now rewrite (right_id_L ∅ (∪)).
  - destruct (d !! key) as [x|] eqn:Hkey.
    + rewrite bool_decide_eq_true_2 by eauto. simpl. rewrite IH. do 2 f_equal.
      apply map_eq. intros i. rewrite !lookup_union.
      destruct (decide (key = i)) as [<-|Hne].
      * rewrite Hkey, lookup_insert_eq.
        now destruct (list_to_map items !! key).
      * now rewrite lookup_insert_ne.
    + rewrite bool_decide_eq_false_2 by (intros [? ?]; congruence). simpl.
      rewrite IH. do 2 f_equal.
      now rewrite <- insert_union_l, insert_union_r.
  Qed.

(** A value that is not a dict is never changed by the loop. *)
Lemma ensure_keys_not_dict (items : list (string * pyobj)) (c c' : pyobj) :
  (forall d, c <> PDict d) ->
  ensure_keys items c = Return c' ->
  c' = c /\ forall key, key ∈ items.*1 -> contains key c = Return true.
Proof.
  intros Hc. induction items as [|[key value] items IH]; simpl.
  - intros [= ->]. split; [reflexivity|]. intros key H. now apply elem_of_nil in H.
  - destruct (contains key c) as [[|]|e] eqn:Hin; simpl.
    + intros [-> Hrest]%IH. split; [reflexivity|].
      intros k [->|H]%elem_of_cons; auto.
    + destruct c; simpl; try discriminate. now elim (Hc d).
    + discriminate.
Qed.

Lemma ensure_keys_present (items : list (string * pyobj)) (c : pyobj) :
  (forall key, key ∈ items.*1 -> contains key c = Return true) ->
  ensure_keys items c = Return c.
Proof.
  induction items as [|[key value] items IH]; intros H; simpl; [reflexivity|].
  rewrite (H key) by (simpl; left). simpl. apply IH.
  intros k Hk. apply H. simpl. now right.
Qed.

(** Running the loop on its own result changes nothing. *)
Lemma ensure_keys_again (items : list (string * pyobj)) (c c' : pyobj) :
  ensure_keys items c = Return c' -> ensure_keys items c' = Return c'.
Proof.
  destruct c as [| | | | | |d].
  7: { rewrite ensure_keys_dict. intros [= <-]. rewrite ensure_keys_dict.
       now rewrite <- (assoc_L (∪)), (idemp_L (∪)). }
  all: intros [-> H]%ensure_keys_not_dict; [|discriminate];
    now apply ensure_keys_present.
Qed.

Lemma load_config_parsed (fs : FS text) (s : text) (v : pyobj) :
  node fs = Some s -> can_read fs = true -> json_load s = Some v ->
  load_config json_load fs =
    match ensure_keys DEFAULT_CONFIG_items v with
    | Return config => Return config
    | Raise _ => Return (PDict DEFAULT_CONFIG)
    end.
Proof.
  intros Hnode Hread Hload.
  unfold load_config, load_config_try, exists_, open_r, load_json.
  rewrite Hnode, Hread. cbn [obind]. rewrite Hload. cbn [obind].
  now destruct (ensure_keys DEFAULT_CONFIG_items v).
Qed.

(** No file, a file that cannot be read, a file that does not parse: the
    defaults. *)
Lemma load_config_defaults (fs : FS text) :
  node fs = None \/ can_read fs = false
  \/ (exists s, node fs = Some s /\ json_load s = None) ->
  load_config json_load fs = Return (PDict DEFAULT_CONFIG).
Proof.
  unfold load_config, load_config_try, exists_, open_r, load_json.
  intros [Hnode|[Hread|(s & Hnode & Hload)]].
  - now rewrite Hnode.
  - rewrite Hread. now destruct (node fs).
  - rewrite Hnode. destruct (can_read fs); [|reflexivity].
    simpl. now rewrite Hload.
Qed.

(** Whenever the [try] block does not return, the defaults come back. *)
Lemma load_config_cases (fs : FS text) :
  load_config json_load fs = Return (PDict DEFAULT_CONFIG)
  \/ exists s v config,
       node fs = Some s /\ can_read fs = true /\ json_load s = Some v
       /\ ensure_keys DEFAULT_CONFIG_items v = Return config
       /\ load_config json_load fs = Return config.
Proof.
  destruct (node fs) as [s|] eqn:Hnode.
  2: { left. apply load_config_defaults. now left. }
  destruct (can_read fs) eqn:Hread.
  2: { left. apply load_config_defaults. right. now left. }
  destruct (json_load s) as [v|] eqn:Hload.
  2: { left. apply load_config_defaults. right. right. eauto. }
  rewrite (load_config_parsed fs s v) by assumption.
  destruct (ensure_keys DEFAULT_CONFIG_items v) as [config|e] eqn:Hkeys.
  - right. exists s, v, config. auto.
  - now left.
Qed.

(** A parsed JSON object comes back with the missing defaults added and
    everything else as it was in the file. *)
Lemma load_config_dict (fs : FS text) (s : text) (d : gmap string pyobj) :
  node fs = Some s -> can_read fs = true -> json_load s = Some (PDict d) ->
  load_config json_load fs = Return (PDict (d ∪ DEFAULT_CONFIG)).
Proof.
  intros Hnode Hread Hload.
  rewrite (load_config_parsed fs s (PDict d)) by assumption.
  now rewrite ensure_keys_dict.
Qed.

(** Unless the file parses to a list or to a string, what comes back is a
    dict that has the four keys. *)
Lemma load_config_record (fs : FS text) :
  (forall s v, node fs = Some s -> json_load s = Some v ->
               (forall l, v <> PList l) /\ (forall t, v <> PStr t)) ->
  exists d,
    load_config json_load fs = Return (PDict d)
    /\ forall key, key ∈ DEFAULT_CONFIG_items.*1 -> is_Some (d !! key).
Proof.
  intros Hshape.
  assert (forall d key, key ∈ DEFAULT_CONFIG_items.*1 ->
                        is_Some ((d ∪ DEFAULT_CONFIG) !! key)) as Hkeys.
  { intros d key Hkey. rewrite lookup_union.
    assert (is_Some (DEFAULT_CONFIG !! key)) as [x ->].
    { simpl in Hkey.
      repeat (apply elem_of_cons in Hkey as [->|Hkey]; [now eexists|]).
      now apply elem_of_nil in Hkey. }
    destruct (d !! key); now eexists. }
  destruct (load_config_cases fs) as [H|(s & v & config & Hn & _ & Hl & Hk & H)].
  - exists DEFAULT_CONFIG. split; [assumption|].
    intros key Hkey. specialize (Hkeys ∅ key Hkey).
    now rewrite (left_id_L ∅ (∪)) in Hkeys.
  - destruct (Hshape s v Hn Hl) as [Hlist Hstr].
    destruct v as [| | | |t|l|d]; try discriminate.
    + now elim (Hstr t).
    + now elim (Hlist l).
    + rewrite ensure_keys_dict in Hk. injection Hk as <-. eauto.
Qed.

(** C5: when [config.json] does not exist, cannot be read or does not
    parse, [load_config] returns the default record, with "#ffff00" for the
    colour, [None] for both coordinates and [False] for the lock; and for
    every state of the file [load_config] returns a value and raises
    nothing. *)
Theorem load_config_falls_back (fs : FS text) :
  (node fs = None \/ can_read fs = false
   \/ (exists s, node fs = Some s /\ json_load s = None) ->
   load_config json_load fs = Return (PDict DEFAULT_CONFIG))
  /\ (exists config, load_config json_load fs = Return config)
  /\ DEFAULT_CONFIG =
       {[ "overlay_color" := PStr "#ffff00"; "overlay_x" := PNone;
          "overlay_y" := PNone; "overlay_locked" := PBool false ]}.
Proof.
  split; [|split].
  - apply load_config_defaults.
  - destruct (load_config_cases fs) as [H|(s & v & config & _ & _ & _ & _ & H)]; eauto.
  - reflexivity.
Qed.

(** C6, where the code departs from it: for a readable file that parses to
    the list of the four key names, [load_config] returns that list, in
    which no key can be looked up. *)
Theorem load_config_returns_key_list (fs : FS text) (s : text) :
  node fs = Some s -> can_read fs = true -> json_load s = Some key_names ->
  load_config json_load fs = Return key_names
  /\ (forall key, getitem key_names key = Raise TypeError)
  /\ get key_names "overlay_locked" (PBool false) = Raise AttributeError.
Proof.
  intros Hnode Hread Hload.
  rewrite (load_config_parsed fs s key_names) by assumption.
  repeat split.
Qed.

Hypothesis dump_load :
  forall v s, json_dump v = (s, true) -> json_load s = Some v.

(** C8: with a [json] codec that reads back what it has written in full, if
    [load_config] returns a record and [save_config] of that record reports
    success, then [load_config] returns the same record again. *)
Theorem save_then_load (fs fs' : FS text) (config : pyobj) :
  load_config json_load fs = Return config ->
  save_config json_dump config fs = (true, fs') ->
  load_config json_load fs' = Return config.
Proof.
  intros Hfirst Hsave. unfold save_config in Hsave.
  destruct (dev fs) eqn:Hdev; try discriminate.
  destruct (json_dump config) as [s completed] eqn:Hdump.
  injection Hsave as -> <-.
  apply dump_load in Hdump.
  destruct (can_read fs) eqn:Hread.
  2: { destruct (load_config_cases fs) as [H|(? & ? & ? & _ & H & _)];
         [|congruence].
       rewrite H in Hfirst. injection Hfirst as <-.
       apply load_config_defaults. right. now left. }
  rewrite (load_config_parsed _ s config) by (assumption || reflexivity).
  destruct (load_config_cases fs) as [H|(s0 & v & c & _ & _ & _ & Hkeys & H)];
    rewrite H in Hfirst; injection Hfirst as <-.
  - reflexivity.
  - now rewrite (ensure_keys_again _ _ _ Hkeys).
Qed.
End Persistence.

(** ** More on the overlay label *)

Section OverlayLabel.
Import OverlayWindow.

Lemma spaceless_snoc (tok : string) (c : ascii) :
  spaceless tok = true -> isspace c = false ->
  spaceless (tok +:+ String c "") = true.
Proof.
  intros Htok Hc. induction tok as [|a tok IH].
  - simpl. now rewrite Hc.
  - rewrite append_cons. simpl in *. apply andb_prop in Htok as [Ha Htok].
    now rewrite Ha, IH.
Qed.

Lemma nonempty_snoc (tok : string) (c : ascii) :
  nonempty (tok +:+ String c "") = true.
Proof. now destruct tok. Qed.

(** Every piece [split] returns is non-empty and free of white space. *)
Lemma split_from_tokens (s tok : string) :
  spaceless tok = true -> Forall token (split_from tok s).
Proof.
  revert tok. induction s as [|c s IH]; intros tok Htok; simpl.
  - destruct (nonempty tok) eqn:Hne; repeat constructor; assumption.
  - destruct (isspace c) eqn:Hc.
    + destruct (nonempty tok) eqn:Hne.
      * constructor; [now split|]. now apply IH.
      * now apply IH.
    + apply IH. now apply spaceless_snoc.
Qed.

Lemma split_tokens (s : string) : Forall token (split s).
Proof. now apply split_from_tokens. Qed.

(** The text [update_text] goes on with after its clamp has at most seven
    pieces. *)
Lemma clamp_at_most_seven (text : string) :
  (length (split (if (7 <? length (split text))%nat
                  then join " " (take 7 (split text)) else text)) <= 7)%nat.
Proof.
  destruct (7 <? length (split text))%nat eqn:Hlen.
  - rewrite split_join.
    + rewrite length_take. lia.
    + apply Forall_take, split_tokens.
  - now apply Nat.ltb_ge in Hlen.
Qed.

(** X1: for every text whose characters lie below U+0100, as the
    space-joined keypad digits the program passes do, the label
    [update_text] leaves has at most seven pieces separated by white space;
    the one exception is a call that raises [AttributeError] before any
    [setText] (an empty text with a config that has no [get]), which leaves
    the label as it was.  Text with white space beyond U+00FF is outside
    the strings of this development and is not covered. *)
Theorem update_text_at_most_seven (config : pyobj) (text : string) (ov : t) :
  let r := update_text config text ov in
  (length (split (label (snd r))) <= 7)%nat
  \/ (label (snd r) = label ov /\ fst r = Raise AttributeError).
Proof.
  pose proof (clamp_at_most_seven text) as Hclamp.
  unfold update_text. cbv zeta.
  set (text' := if (7 <? length (split text))%nat
                then join " " (take 7 (split text)) else text) in *.
  unfold update_overlay_style, setText, setStyleSheet, get, getitem. method.
  destruct (nonempty (strip text')) eqn:Hne.
  - left. cbn [label].
    destruct config as [| | | | | |d]; try exact Hclamp.
    destruct (d !! "overlay_locked") as [v|]; cbn [label].
    all: rewrite Hne; cbn [andb].
    all: destruct (negb (startswith text' "Overlay")); cbn [andb].
    all: try (destruct (d !! "overlay_color") as [c|]; cbn [label snd]).
    all: try exact Hclamp.
    all: try (destruct (truthy v); exact Hclamp).
  - destruct config as [| | | | | |d]; try (right; split; reflexivity).
    left. destruct (d !! "overlay_locked") as [v|]; simpl;
      [destruct (truthy v)|]; simpl; lia.
Qed.
End OverlayLabel.

Section OverlayStyle.
Import OverlayWindow.

(** [update_overlay_style] on a dict, in closed form. *)
Lemma update_overlay_style_dict (d : gmap string pyobj) (ov : t) :
  let locked :=
    match d !! "overlay_locked" with Some v => truthy v | None => false end in
  let '(border_style, bg_color) := if locked then undecorated else decorated in
  update_overlay_style (PDict d) ov =
    if shows_numbers (label ov) then
      match d !! "overlay_color" with
      | Some c => (Return tt, mk (label ov) (mkStyle c "36px" bg_color border_style))
      | None => (Raise KeyError, ov)
      end
    else
      (Return tt,
       mk (label ov)
          (mkStyle (PStr (if locked then "transparent" else "#ff4757")) "16px"
                   bg_color border_style)).
Proof.
  unfold shows_numbers, update_overlay_style, setStyleSheet, get, getitem. method.
  destruct (nonempty (strip (label ov)) && negb (startswith (label ov) "Overlay"))
    eqn:Hshown;
    destruct (d !! "overlay_locked") as [v|]; cbn [truthy];
    try destruct (truthy v);
    destruct (d !! "overlay_color") as [c|]; cbn [label decorated undecorated];
    rewrite ?Hshown; reflexivity.
Qed.

(** X2: on a label whose characters lie below U+0100, as those of every
    label the program sets do, [update_overlay_style] never changes the text
    of the label.  It raises [AttributeError] exactly when the config is not
    a dict and [KeyError] exactly when the config is a dict without
    ["overlay_color"] while the label shows numbers; it raises nothing else,
    and when it raises the style sheet is untouched as well.  Labels with
    white space beyond U+00FF are outside the strings of this development
    and are not covered. *)
Theorem update_overlay_style_errors (config : pyobj) (ov : t) :
  let r := update_overlay_style config ov in
  label (snd r) = label ov
  /\ (fst r = Raise AttributeError <-> forall d, config <> PDict d)
  /\ (fst r = Raise KeyError <->
      exists d, config = PDict d /\ d !! "overlay_color" = None
                /\ shows_numbers (label ov) = true)
  /\ (forall e, fst r = Raise e ->
      snd r = ov /\ (e = AttributeError \/ e = KeyError)).
Proof.
  destruct config as [| | | | | |d].
  1-6: cbn; split; [reflexivity|]; split;
       [split; [intros _ d0; discriminate|reflexivity]|]; split;
       [split; [discriminate|intros (d0 & Hd0 & _); discriminate]|];
       intros e [= <-]; auto.
  assert (forall P : Prop, (forall d0, PDict d <> PDict d0) -> P) as Hdict.
  { intros P H. now elim (H d). }
  pose proof (update_overlay_style_dict d ov) as Hstyle. cbv zeta in Hstyle.
  destruct (if match d !! "overlay_locked" with
               | Some v => truthy v
               | None => false
               end then undecorated else decorated) as [border_style bg_color].
  cbv zeta. rewrite Hstyle.
  destruct (shows_numbers (label ov)) eqn:Hshown;
    [destruct (d !! "overlay_color") as [c|] eqn:Hc|]; cbn.
  - split; [reflexivity|]. split; [split; [discriminate|apply Hdict]|].
    split; [|discriminate].
    split; [discriminate|]. intros (d0 & [= <-] & H1 & _). congruence.
  - split; [reflexivity|]. split; [split; [discriminate|apply Hdict]|].
    split; [|intros e [= <-]; auto].
    split; [|reflexivity]. intros _. exists d. auto.
  - split; [reflexivity|]. split; [split; [discriminate|apply Hdict]|].
    split; [|discriminate].
    split; [discriminate|]. intros (d0 & _ & _ & H2). discriminate.
Qed.
End OverlayStyle.

Section MorePersistence.

Variable text : Type.
Variable json_load : text -> option pyobj.
Variable json_dump : pyobj -> text * bool.

(** X3: when [config.json] is readable and parses to a JSON object,
    [load_config] returns a dict that keeps every entry of the file, keys
    the program does not know included, and takes from [DEFAULT_CONFIG] the
    entries of exactly those of the four keys that the file lacks: its keys
    are the keys of the file and the four. *)
Theorem load_config_object (fs : FS text) (s : text) (d : gmap string pyobj) :
  node fs = Some s -> can_read fs = true -> json_load s = Some (PDict d) ->
  exists d',
    load_config json_load fs = Return (PDict d')
    /\ (forall key,
          d' !! key = match d !! key with
                      | Some v => Some v
                      | None => DEFAULT_CONFIG !! key
                      end)
    /\ dom d' = dom d ∪ {[ "overlay_color"; "overlay_x"; "overlay_y"; "overlay_locked" ]}.
Proof.
  intros Hnode Hread Hload. exists (d ∪ DEFAULT_CONFIG).
  rewrite (load_config_parsed _ _ fs s (PDict d)) by assumption.
  rewrite ensure_keys_dict. split; [reflexivity|]. split.
  - intros key. rewrite lookup_union.
    destruct (d !! key), (DEFAULT_CONFIG !! key); reflexivity.
  - rewrite dom_union_L. f_equal.
Qed.

Lemma ensure_keys_has_names (v : pyobj) :
  (forall d, v <> PDict d) ->
  ensure_keys DEFAULT_CONFIG_items v =
    if forallb (has_name v) (DEFAULT_CONFIG_items.*1) then Return v
    else match ensure_keys DEFAULT_CONFIG_items v with
         | Raise e => Raise e
         | Return _ => Raise TypeError
         end.
Proof.
  intros Hv. destruct v as [| | | |t|l|d]; try reflexivity.
  - unfold has_name. simpl.
    repeat (match goal with |- context [substring_of ?k t] =>
              destruct (substring_of k t) end; simpl; try reflexivity).
  - unfold has_name. simpl.
    repeat (match goal with |- context [existsb ?f l] =>
              destruct (existsb f l) end; simpl; try reflexivity).
  - now elim (Hv d).
Qed.

(** X4: when [config.json] parses to a value that is not an object,
    [load_config] returns that very value if each of the four key names
    passes the [in] test on it, and the defaults otherwise; for [null], a
    boolean or a number it is always the defaults. *)
Theorem load_config_not_object (fs : FS text) (s : text) (v : pyobj) :
  node fs = Some s -> can_read fs = true -> json_load s = Some v ->
  (forall d, v <> PDict d) ->
  load_config json_load fs =
    Return (if forallb (has_name v) ["overlay_color"; "overlay_x"; "overlay_y"; "overlay_locked"]
            then v else PDict DEFAULT_CONFIG)
  /\ (match v with PList _ | PStr _ => False | _ => True end ->
      load_config json_load fs = Return (PDict DEFAULT_CONFIG)).
Proof.
  intros Hnode Hread Hload Hv.
  rewrite (load_config_parsed _ _ fs s v) by assumption.
  rewrite (ensure_keys_has_names v Hv).
  change (DEFAULT_CONFIG_items.*1)
    with ["overlay_color"; "overlay_x"; "overlay_y"; "overlay_locked"].
  split.
  - destruct (forallb _ _); [reflexivity|].
    now destruct (ensure_keys DEFAULT_CONFIG_items v).
  - intros Hscalar. destruct v; try reflexivity; try contradiction. now elim (Hv d).
Qed.

Hypothesis dump_load :
  forall v s, json_dump v = (s, true) -> json_load s = Some v.

(** X5: if [json.load] reads back what a completed [json.dump] wrote,
    then after [save_config] has returned [True] for a dict, on a readable
    file, [load_config] returns that dict completed with the defaults, and
    the dict itself when it has the four keys. *)
Theorem save_config_then_load (fs fs' : FS text) (d : gmap string pyobj) :
  can_read fs = true ->
  save_config json_dump (PDict d) fs = (true, fs') ->
  load_config json_load fs' = Return (PDict (d ∪ DEFAULT_CONFIG))
  /\ ((forall key, key ∈ DEFAULT_CONFIG_items.*1 -> is_Some (d !! key)) ->
      load_config json_load fs' = Return (PDict d)).
Proof.
  intros Hread Hsave. unfold save_config in Hsave.
  destruct (dev fs) eqn:Hdev; try discriminate.
  destruct (json_dump (PDict d)) as [s completed] eqn:Hdump.
  injection Hsave as -> <-. apply dump_load in Hdump.
  rewrite (load_config_parsed _ _ _ s (PDict d)) by (assumption || reflexivity).
  rewrite ensure_keys_dict. fold DEFAULT_CONFIG. split; [reflexivity|].
  intros Hkeys. do 2 f_equal.
  apply map_eq. intros key. rewrite lookup_union.
  destruct (d !! key) as [x|] eqn:Hx.
  - now destruct (DEFAULT_CONFIG !! key).
  - destruct (DEFAULT_CONFIG !! key) as [y|] eqn:Hy; [|reflexivity].
    assert (key ∈ DEFAULT_CONFIG_items.*1) as Hin.
    { apply elem_of_list_to_map_2 in Hy. now apply (list_elem_of_fmap_2 fst) in Hy. }
    apply Hkeys in Hin as [? ?]. congruence.
Qed.
End MorePersistence.

Section OverlayText.
Import OverlayWindow.

Lemma update_text_dict (d : gmap string pyobj) (text : string) (ov : t) :
  update_text (PDict d) text ov =
    update_overlay_style (PDict d) (mk (chosen_label d text) (styleSheet ov)).
Proof.
  unfold update_text, chosen_label, setText, get. method. cbv zeta.
  destruct (nonempty (strip _)); [reflexivity|].
  destruct (d !! "overlay_locked") as [v|]; cbn [truthy negb];
    [destruct (truthy v)|]; reflexivity.
Qed.

Lemma shows_numbers_digits (n : string) (ns : list string) :
  digit n -> shows_numbers (join " " (n :: ns)) = true.
Proof.
  intros (c & s & -> & Hsp & HO)%(join_digits_head n ns).
  unfold shows_numbers. now rewrite strip_head, startswith_Overlay_head.
Qed.

Lemma chosen_label_digits (d : gmap string pyobj) (numbers : list string) :
  Forall digit numbers -> (length numbers <= 7)%nat ->
  chosen_label d (join " " numbers) =
    match numbers with
    | _ :: _ => join " " numbers
    | [] => if match d !! "overlay_locked" with Some v => truthy v | None => false end
            then "" else positioning_hint
    end.
Proof.
  intros Hdigits Hlen. unfold chosen_label.
  rewrite clamp_join by now apply digits_tokens.
  rewrite take_ge by assumption.
  destruct numbers as [|n ns]; [reflexivity|].
  apply Forall_cons in Hdigits as [Hn _].
  destruct (join_digits_head n ns Hn) as (c & s & -> & Hsp & _).
  now rewrite strip_head.
Qed.
End OverlayText.

Section MoreBuffer.
Import MainWindow.

(** X6: after Enter the buffer is empty, whatever the state was, and a
    second Enter in a row returns normally and changes nothing: nothing is
    typed twice. *)
Theorem enter_twice (w : t) :
  let w1 := exec (on_key_press (Special enter)) w in
  logged_numbers w1 = []
  /\ on_key_press (Special enter) w1 = (Return tt, w1).
Proof.
  intros w1. assert (logged_numbers w1 = []) as Hempty.
  { subst w1. unfold exec. rewrite on_key_press_enter.
    destruct (logged_numbers w) as [|n ns] eqn:Hbuf.
    - now rewrite send_numbers_empty.
    - now destruct (send_numbers_shape w) as (r & ov & ->); [rewrite Hbuf|]. }
  split; [exact Hempty|].
  rewrite on_key_press_enter. now apply send_numbers_empty.
Qed.

Lemma despace_append (a b : string) : despace (a +:+ b) = despace a +:+ despace b.
Proof.
  induction a as [|c a IH]; [reflexivity|].
  rewrite append_cons. simpl. destruct (isspace c); [exact IH|].
  now rewrite append_cons, IH.
Qed.

Lemma despace_spaceless (t : string) : spaceless t = true -> despace t = t.
Proof.
  induction t as [|c t IH]; [reflexivity|]. simpl.
  intros [Hc Ht]%andb_prop. apply negb_true_iff in Hc. now rewrite Hc, IH.
Qed.

Lemma join_cons2_empty (x y : string) (l : list string) :
  join "" (x :: y :: l) = x +:+ join "" (y :: l).
Proof. reflexivity. Qed.

(** Taking the spaces out of the space-joined tokens concatenates them. *)
Lemma despace_join (ts : list string) :
  Forall token ts -> despace (join " " ts) = join "" ts.
Proof.
  induction ts as [|t ts IH]; intros Hts; [reflexivity|].
  apply Forall_cons in Hts as [[_ Ht] Hts].
  destruct ts as [|t' ts].
  - now apply despace_spaceless.
  - rewrite join_cons2, join_cons2_empty, !despace_append.
    rewrite despace_spaceless by assumption. now rewrite IH.
Qed.

Lemma controller_clear_numbers (w : t) :
  controller (exec clear_numbers w) = controller w.
Proof. unfold exec. now destruct (clear_numbers_shape w) as (r & ov & ->). Qed.

Lemma controller_not_enter (key : key_event) (w : t) :
  key <> Special enter ->
  controller (exec (on_key_press key) w) = controller w.
Proof.
  intros Hkey. destruct (numpad_digit key) as [d|] eqn:Hd.
  - unfold exec.
    destruct (Nat.lt_ge_cases (length (logged_numbers w)) 7) as [Hlen|Hlen].
    + now destruct (on_key_press_digit_room _ _ w Hd Hlen) as [ov ->].
    + now rewrite (on_key_press_digit_full _ _ w Hd Hlen).
  - destruct key as [vk char|[| |name]|].
    + unfold exec. now rewrite on_key_press_other.
    + contradiction.
    + unfold exec. rewrite on_key_press_backspace. apply controller_clear_numbers.
    + unfold exec. now rewrite on_key_press_other.
    + unfold exec. now rewrite on_key_press_other.
Qed.

(** X7: [controller.type] is called for Enter only.  Every other key
    event and [clear_numbers] leave what has been typed as it is, and in a
    state the program can reach Enter on a non-empty buffer types exactly
    one string, the text of the display label with its spaces taken out. *)
Theorem typing_only_on_enter :
  (forall key w,
      key <> Special enter ->
      controller (exec (on_key_press key) w) = controller w)
  /\ (forall w, controller (exec clear_numbers w) = controller w)
  /\ (forall w,
        reachable w -> logged_numbers w <> [] ->
        controller (exec (on_key_press (Special enter)) w)
        = controller w ++ [despace (display_label w)]).
Proof.
  split; [exact controller_not_enter|]. split; [exact controller_clear_numbers|].
  intros w (_ & Hdigits & Hlabel)%reachable_consistent Hne.
  unfold exec. rewrite on_key_press_enter.
  destruct (send_numbers_shape w Hne) as (r & ov & ->). simpl.
  rewrite Hlabel, despace_join; [reflexivity|]. now apply digits_tokens.
Qed.

Lemma controller_enter (w : t) :
  consistent w ->
  controller (exec (on_key_press (Special enter)) w) = controller w
  \/ exists s, digit_string s
              /\ controller (exec (on_key_press (Special enter)) w) = controller w ++ [s].
Proof.
  intros (Hlen & Hdigits & _). unfold exec. rewrite on_key_press_enter.
  destruct (logged_numbers w) as [|n ns] eqn:Hbuf.
  - left. now rewrite send_numbers_empty.
  - right. destruct (send_numbers_shape w) as (r & ov & ->); [now rewrite Hbuf|].
    rewrite Hbuf. exists (join "" (n :: ns)). split; [|reflexivity].
    exists (n :: ns). auto.
Qed.

(** X8: every string the program hands to [controller.type] in a run
    consists of one to seven keypad digits. *)
Theorem typed_strings_are_digits (w : t) :
  reachable w -> Forall digit_string (controller w).
Proof.
  intros Hw.
  assert (consistent w /\ Forall digit_string (controller w)) as [_ H]; [|exact H].
  induction Hw as [cfg|w w' Hw [Hcons IH] Hstep].
  - split; [apply consistent_init|constructor].
  - split; [now apply (consistent_step w)|].
    destruct Hstep as [key w|w|w cfg ov].
    + destruct key as [vk char|[| |name]|];
        try (rewrite controller_not_enter by discriminate; exact IH).
      destruct (controller_enter w Hcons) as [->|(s & Hs & ->)]; [exact IH|].
      apply Forall_app. split; [exact IH|]. now repeat constructor.
    + now rewrite controller_clear_numbers.
    + exact IH.
Qed.
End MoreBuffer.

Section OverlaySync.
Import MainWindow.

(** With a dict config that has its colour, redrawing returns normally and
    leaves on the overlay the label of the buffer. *)
Lemma update_display_dict (w : t) (d : gmap string pyobj) (c : pyobj)
    (ov : OverlayWindow.t) :
  config w = PDict d -> d !! "overlay_color" = Some c -> overlay w = Some ov ->
  Forall digit (logged_numbers w) -> (length (logged_numbers w) <= 7)%nat ->
  exists ov',
    update_display w =
      (Return tt,
       mk (controller w) (logged_numbers w) (config w) (Some ov')
          (join " " (logged_numbers w)))
    /\ OverlayWindow.label ov' = overlay_label_for d (logged_numbers w).
Proof.
  intros Hcfg Hc Hov Hdigits Hlen.
  unfold update_display, if_overlay, setText. method. cbn.
  rewrite Hov, Hcfg, update_text_dict.
  rewrite chosen_label_digits by assumption. fold (overlay_label_for d (logged_numbers w)).
  pose proof (update_overlay_style_dict d
                (OverlayWindow.mk (overlay_label_for d (logged_numbers w))
                                  (OverlayWindow.styleSheet ov))) as Hstyle.
  cbv zeta in Hstyle.
  destruct (if match d !! "overlay_locked" with
               | Some v => truthy v
               | None => false
               end then OverlayWindow.undecorated else OverlayWindow.decorated)
    as [border_style bg_color].
  rewrite Hstyle, Hc. cbn [OverlayWindow.label].
  destruct (shows_numbers _); eexists; split; reflexivity.
Qed.

(** X9: with an overlay and a config dict that has its colour, every key
    event returns normally, and whenever it changes the buffer both displays
    follow: the display label shows the new buffer joined with spaces, and
    the overlay label shows the same, or for an empty buffer the positioning
    hint when unlocked and nothing when locked. *)
Theorem overlay_follows_display (w : t) (d : gmap string pyobj) (c : pyobj)
    (ov : OverlayWindow.t) (key : key_event) :
  config w = PDict d -> d !! "overlay_color" = Some c -> overlay w = Some ov ->
  consistent w ->
  let r := on_key_press key w in
  fst r = Return tt
  /\ (logged_numbers (snd r) <> logged_numbers w ->
      exists ov',
        overlay (snd r) = Some ov'
        /\ OverlayWindow.label ov' = overlay_label_for d (logged_numbers (snd r))
        /\ display_label (snd r) = join " " (logged_numbers (snd r))).
Proof.
  intros Hcfg Hc Hov (Hlen & Hdigits & Hlabel) r. subst r.
  destruct (numpad_digit key) as [n|] eqn:Hn.
  - destruct (Nat.lt_ge_cases (length (logged_numbers w)) 7) as [Hroom|Hfull].
    + destruct (numpad_digit_KeyCode _ _ Hn) as (vk & char & -> & Hvk).
      unfold on_key_press. method. rewrite Hn.
      apply Nat.ltb_lt in Hroom as Hroom'. rewrite Hroom'.
      destruct (update_display_dict (append n w) d c ov) as (ov' & -> & Hov');
        [exact Hcfg|exact Hc|exact Hov| | |].
      * cbn. apply Forall_app. split; [assumption|]. repeat constructor. now exists vk.
      * cbn. rewrite length_app. simpl. lia.
      * cbn. split; [reflexivity|]. intros _. eauto.
    + rewrite (on_key_press_digit_full _ _ w Hn Hfull). cbn.
      split; [reflexivity|]. intros H. now elim H.
  - destruct key as [vk char|[| |name]|];
      try (rewrite on_key_press_other by (assumption || discriminate); cbn;
           split; [reflexivity|]; intros H; now elim H).
    + rewrite on_key_press_enter. unfold send_numbers, clear_numbers. method.
      destruct (logged_numbers w) as [|m ms] eqn:Hbuf.
      * cbn. split; [reflexivity|]. rewrite Hbuf. intros H. now elim H.
      * destruct (update_display_dict (clear (type (join "" (m :: ms)) w)) d c ov)
          as (ov' & -> & Hov');
          [exact Hcfg|exact Hc|exact Hov|constructor|cbn; lia|].
        cbn. split; [reflexivity|]. intros _. eauto.
    + rewrite on_key_press_backspace. unfold clear_numbers. method.
      destruct (update_display_dict (clear w) d c ov) as (ov' & -> & Hov');
        [exact Hcfg|exact Hc|exact Hov|constructor|cbn; lia|].
      cbn. split; [reflexivity|]. intros _. eauto.
Qed.
End OverlaySync.

(** ** Key handling on a well-formed config *)

Section KeysTidy.
Import MainWindow.

Lemma update_text_look (d : gmap string pyobj) (numbers : list string)
    (u : OverlayWindow.t) :
  is_Some (d !! "overlay_color") ->
  Forall digit numbers -> (length numbers <= 7)%nat ->
  OverlayWindow.update_text (PDict d) (join " " numbers) u = (Return tt, look d numbers).
Proof.
  intros [c Hc] Hdigits Hlen.
  rewrite update_text_dict, chosen_label_digits by assumption.
  fold (overlay_label_for d numbers).
  pose proof (update_overlay_style_dict d
                (OverlayWindow.mk (overlay_label_for d numbers)
                                  (OverlayWindow.styleSheet u))) as Hstyle.
  cbv zeta in Hstyle. unfold look.
  destruct (if match d !! "overlay_locked" with
               | Some v => truthy v
               | None => false
               end then OverlayWindow.undecorated else OverlayWindow.decorated)
    as [border_style bg_color].
  rewrite Hstyle, Hc. cbn [OverlayWindow.label].
  destruct numbers as [|n ns].
  - unfold overlay_label_for.
    destruct (match d !! "overlay_locked" with
              | Some v => truthy v
              | None => false
              end); reflexivity.
  - apply Forall_cons in Hdigits as [Hn _].
    unfold overlay_label_for. now rewrite shows_numbers_digits.
Qed.

Lemma update_display_tidy (w : t) (d : gmap string pyobj) :
  config w = PDict d -> is_Some (d !! "overlay_color") ->
  Forall digit (logged_numbers w) -> (length (logged_numbers w) <= 7)%nat ->
  update_display w =
    (Return tt,
     mk (controller w) (logged_numbers w) (config w)
        (option_map (fun _ => look d (logged_numbers w)) (overlay w))
        (join " " (logged_numbers w))).
Proof.
  intros Hcfg Hc Hdigits Hlen.
  unfold update_display, if_overlay, setText. method. cbn.
  destruct (overlay w) as [u|]; [|reflexivity].
  now rewrite Hcfg, update_text_look.
Qed.

Lemma tidy_after_update_display (w : t) (d : gmap string pyobj) :
  config w = PDict d -> is_Some (d !! "overlay_color") ->
  Forall digit (logged_numbers w) -> (length (logged_numbers w) <= 7)%nat ->
  exists w',
    update_display w = (Return tt, w')
    /\ tidy d w'
    /\ controller w' = controller w
    /\ logged_numbers w' = logged_numbers w
    /\ (overlay w' = None <-> overlay w = None).
Proof.
  intros Hcfg Hc Hdigits Hlen. eexists. split; [now apply (update_display_tidy w d)|].
  cbn. repeat split; try assumption.
  - intros u Hu. destruct (overlay w); [now injection Hu as <-|discriminate].
  - now destruct (overlay w).
  - now intros ->.
Qed.

(** On a tidy state every key event and the Clear button return normally
    and leave a tidy state with the same config. *)
Lemma on_key_press_tidy (key : key_event) (w : t) (d : gmap string pyobj) :
  tidy d w ->
  exists w',
    on_key_press key w = (Return tt, w')
    /\ tidy d w'
    /\ (overlay w' = None <-> overlay w = None).
Proof.
  intros (Hcfg & Hc & (Hlen & Hdigits & Hlabel) & Hui).
  assert (tidy d w) as Htidy by (repeat split; assumption).
  destruct (numpad_digit key) as [n|] eqn:Hn.
  - destruct (Nat.lt_ge_cases (length (logged_numbers w)) 7) as [Hroom|Hfull].
    + destruct (numpad_digit_KeyCode _ _ Hn) as (vk & char & -> & Hvk).
      unfold on_key_press. method. rewrite Hn.
      apply Nat.ltb_lt in Hroom as Hroom'. rewrite Hroom'.
      destruct (tidy_after_update_display (append n w) d)
        as (w' & -> & Ht & _ & _ & Hov); [exact Hcfg|exact Hc| | |eauto].
      * cbn. apply Forall_app. split; [assumption|]. repeat constructor. now exists vk.
      * cbn. rewrite length_app. simpl. lia.
    + rewrite (on_key_press_digit_full _ _ w Hn Hfull). eauto.
  - destruct key as [vk char|[| |name]|];
      try (rewrite on_key_press_other by (assumption || discriminate); eauto).
    + rewrite on_key_press_enter. unfold send_numbers, clear_numbers. method.
      destruct (logged_numbers w) as [|m ms] eqn:Hbuf; [eauto|].
      destruct (tidy_after_update_display (clear (type (join "" (m :: ms)) w)) d)
        as (w' & -> & Ht & _ & _ & Hov);
        [exact Hcfg|exact Hc|constructor|cbn; lia|eauto].
    + rewrite on_key_press_backspace. unfold clear_numbers. method.
      destruct (tidy_after_update_display (clear w) d)
        as (w' & -> & Ht & _ & _ & Hov);
        [exact Hcfg|exact Hc|constructor|cbn; lia|eauto].
Qed.

Lemma clear_numbers_tidy (w : t) (d : gmap string pyobj) :
  tidy d w ->
  exists w',
    clear_numbers w = (Return tt, w')
    /\ tidy d w'
    /\ (overlay w' = None <-> overlay w = None).
Proof.
  intros (Hcfg & Hc & _). unfold clear_numbers. method.
  destruct (tidy_after_update_display (clear w) d)
    as (w' & -> & Ht & _ & _ & Hov);
    [exact Hcfg|exact Hc|constructor|cbn; lia|eauto].
Qed.
End KeysTidy.

(** ** The handlers of the main window *)

Section Handlers.
Import Gui.

Variable text : Type.
Variable json_load : text -> option pyobj.
Variable json_dump : pyobj -> text * bool.
Variable stylesheet : Type.
Variable plain_style : stylesheet.
Variable saved_style : stylesheet.

Implicit Types (a : app text stylesheet) (d : gmap string pyobj).

Lemma config_get_dict a d (key : string) (v : pyobj) :
  config a = PDict d -> d !! key = Some v -> config_get key a = (Return v, a).
Proof.
  intros Hcfg Hkey. unfold config_get, getitem. method. now rewrite Hcfg, Hkey.
Qed.

Lemma config_set_dict a d (key : string) (v : pyobj) :
  config a = PDict d ->
  config_set key v a = (Return tt, with_config (PDict (<[key := v]> d)) a).
Proof. intros Hcfg. unfold config_set, setitem. method. now rewrite Hcfg. Qed.

Lemma record_config_insert d (key : string) (v : pyobj) :
  record_config (PDict d) -> record_config (PDict (<[key := v]> d)).
Proof.
  intros (d0 & [= <-] & Hkeys). exists (<[key := v]> d). split; [reflexivity|].
  intros k Hk. destruct (decide (key = k)) as [->|Hne].
  - rewrite lookup_insert_eq. eauto.
  - rewrite lookup_insert_ne by assumption. now apply Hkeys.
Qed.

Lemma record_config_key d (key : string) :
  record_config (PDict d) -> key ∈ DEFAULT_CONFIG_items.*1 -> is_Some (d !! key).
Proof. intros (d0 & [= <-] & Hkeys). apply Hkeys. Qed.

Lemma record_config_keys d :
  record_config (PDict d) ->
  is_Some (d !! "overlay_color") /\ is_Some (d !! "overlay_x")
  /\ is_Some (d !! "overlay_y") /\ is_Some (d !! "overlay_locked").
Proof.
  intros H. repeat split; apply (record_config_key d _ H); simpl;
    repeat ((left; reflexivity) || right).
Qed.

Lemma locked_dict d :
  locked (PDict d) = match d !! "overlay_locked" with Some v => truthy v | None => false end.
Proof. unfold locked, getitem. now destruct (d !! "overlay_locked"). Qed.

Lemma locked_insert_ne d (key : string) (v : pyobj) :
  key <> "overlay_locked" -> locked (PDict (<[key := v]> d)) = locked (PDict d).
Proof. intros Hne. rewrite !locked_dict. now rewrite lookup_insert_ne. Qed.

Lemma locked_insert d (v : pyobj) :
  locked (PDict (<["overlay_locked" := v]> d)) = truthy v.
Proof. rewrite locked_dict. now rewrite lookup_insert_eq. Qed.

Lemma look_insert d (key : string) (v : pyobj) (numbers : list string) :
  key <> "overlay_locked" -> key <> "overlay_color" ->
  look (<[key := v]> d) numbers = look d numbers.
Proof.
  intros H1 H2. unfold look, overlay_label_for.
  now rewrite !lookup_insert_ne by assumption.
Qed.

(** Restyling the overlay that shows a buffer, after the colour or another
    key that is not the lock has been written. *)
Lemma restyle_look d d' (numbers : list string) :
  is_Some (d' !! "overlay_color") -> Forall digit numbers ->
  d' !! "overlay_locked" = d !! "overlay_locked" ->
  OverlayWindow.update_overlay_style (PDict d') (look d numbers)
  = (Return tt, look d' numbers).
Proof.
  intros [c Hc] Hdigits Hlock.
  pose proof (update_overlay_style_dict d' (look d numbers)) as Hstyle.
  cbv zeta in Hstyle. unfold look, overlay_label_for in *. rewrite Hlock in *.
  destruct (if match d !! "overlay_locked" with
               | Some v => truthy v
               | None => false
               end then OverlayWindow.undecorated else OverlayWindow.decorated)
    as [border_style bg_color].
  rewrite Hstyle, Hc. cbn [OverlayWindow.label].
  destruct numbers as [|n ns].
  - destruct (match d !! "overlay_locked" with
              | Some v => truthy v
              | None => false
              end); reflexivity.
  - apply Forall_cons in Hdigits as [Hn _]. now rewrite shows_numbers_digits.
Qed.

Lemma update_overlay_style_returns d (u : OverlayWindow.t) :
  is_Some (d !! "overlay_color") ->
  exists u', OverlayWindow.update_overlay_style (PDict d) u = (Return tt, u').
Proof.
  intros [c Hc]. pose proof (update_overlay_style_dict d u) as Hstyle.
  cbv zeta in Hstyle.
  destruct (if match d !! "overlay_locked" with
               | Some v => truthy v
               | None => false
               end then OverlayWindow.undecorated else OverlayWindow.decorated)
    as [border_style bg_color].
  rewrite Hstyle, Hc. destruct (shows_numbers _); eauto.
Qed.

Lemma set_click_through_dict d (v : pyobj) (o : overlay_window) :
  is_Some (d !! "overlay_color") ->
  exists u',
    set_click_through (PDict d) v o =
      (Return tt,
       mkOverlay u' (pos o) (truthy v)
                 (if truthy v then BlankCursor else SizeAllCursor) true).
Proof.
  intros Hc. unfold set_click_through, setWindowFlags, setCursor, show, on_ui. method.
  destruct (update_overlay_style_returns d (ui o) Hc) as [u' Hu]. exists u'.
  destruct (truthy v); cbn -[OverlayWindow.update_overlay_style];
    now rewrite Hu.
Qed.

(** Where a new overlay is put: at the stored position when both
    coordinates are stored and [move] accepts them, in the middle of the
    top of the screen when one is [None]. *)
Lemma new_dict d (vx vy : pyobj) (screen_width : Z) :
  is_Some (d !! "overlay_color") ->
  d !! "overlay_x" = Some vx -> d !! "overlay_y" = Some vy ->
  new (PDict d) screen_width =
    if is_not_none vx && is_not_none vy then
      x <-? as_int vx ;;
      y <-? as_int vy ;;
      Return (mkOverlay (look d []) (x, y) false ArrowCursor false)
    else
      Return (mkOverlay (look d []) ((screen_width - 480) / 2, 30) false
                        ArrowCursor false).
Proof.
  intros Hc Hx Hy. unfold new, set_position, setWindowFlags, on_ui, move, getitem.
  method. cbn -[OverlayWindow.update_text look].
  pose proof (update_text_look d [] (OverlayWindow.mk ""
                (OverlayWindow.mkStyle PNone "" "" "")) Hc) as Hlook.
  change (join " " []) with "" in Hlook.
  rewrite Hlook; [|constructor|simpl; lia]. cbn -[look].
  rewrite Hx, Hy. destruct (is_not_none vx); cbn; [|reflexivity].
  destruct (is_not_none vy); cbn; [|reflexivity].
  destruct (as_int vx); cbn; [|reflexivity]. now destruct (as_int vy).
Qed.

Lemma bind_returns {S A B : Type} (m : M S A) (k : A -> M S B) (s s' : S) (x : A) :
  m s = (Return x, s') -> bind m k s = k x s'.
Proof. intros H. unfold bind. now rewrite H. Qed.

Lemma bind_raises {S A B : Type} (m : M S A) (k : A -> M S B) (s s' : S) (e : exn) :
  m s = (Raise e, s') -> bind m k s = (Raise e, s').
Proof. intros H. unfold bind. now rewrite H. Qed.

Lemma save_returns a :
  save json_dump a =
    (Return (fst (save_config json_dump (config a) (disk a))),
     with_disk (snd (save_config json_dump (config a) (disk a))) a).
Proof. unfold save. now destruct (save_config json_dump (config a) (disk a)). Qed.

Lemma toggle_lock_spec a d (v : pyobj) :
  config a = PDict d -> is_Some (d !! "overlay_color") ->
  d !! "overlay_locked" = Some v ->
  Forall digit (logged_numbers a) -> (length (logged_numbers a) <= 7)%nat ->
  let now_locked := negb (truthy v) in
  let d' := <["overlay_locked" := PBool now_locked]> d in
  toggle_lock json_dump a =
    (Return tt,
     mkApp (controller a) (logged_numbers a) (PDict d')
       (option_map
          (fun o =>
             mkOverlay (look d' (logged_numbers a)) (pos o) now_locked
                       (if now_locked then BlankCursor else SizeAllCursor) true)
          (overlay a))
       (display_label a) (display_color a)
       (if now_locked then "Locked" else "Unlocked") (overlay_btn a) (save_btn a)
       (timers a) (snd (save_config json_dump (PDict d') (disk a)))).
Proof.
  intros Hcfg Hc Hv Hdigits Hlen now_locked d'.
  assert (is_Some (d' !! "overlay_color")) as Hc'.
  { unfold d'. now rewrite lookup_insert_ne. }
  assert (d' !! "overlay_locked" = Some (PBool now_locked)) as Hv'.
  { unfold d'. now rewrite lookup_insert_eq. }
  unfold toggle_lock.
  rewrite (bind_returns _ _ a a v) by now apply (config_get_dict a d).
  rewrite (bind_returns _ _ a (with_config (PDict d') a) tt)
    by now apply (config_set_dict a d).
  rewrite (bind_returns _ _ _ (with_config (PDict d') a) (PBool now_locked))
    by now apply (config_get_dict _ d').
  rewrite (bind_returns _ _ _
             (with_lock_status (if now_locked then "Locked" else "Unlocked")
                               (with_config (PDict d') a)) tt) by reflexivity.
  rewrite (bind_returns _ _ _
             (with_lock_status (if now_locked then "Locked" else "Unlocked")
                               (with_config (PDict d') a)) (PBool now_locked))
    by now apply (config_get_dict _ d').
  destruct (overlay a) as [o|] eqn:Hov.
  - destruct (set_click_through_dict d' (PBool now_locked) o Hc') as [u' Hu'].
    erewrite bind_returns.
    2: { unfold if_overlay. cbn [overlay with_lock_status with_config]. rewrite Hov.
         erewrite bind_returns.
         2: { unfold overlay_set_click_through.
              erewrite bind_returns;
                [|apply (config_get_dict _ d'); [reflexivity|exact Hv']].
              unfold on_overlay. method. cbn [overlay config with_lock_status with_config].
              rewrite Hov, Hu'. reflexivity. }
         unfold overlay_update_text, on_overlay, on_ui. method.
         cbn -[OverlayWindow.update_text look].
         rewrite update_text_look by assumption. reflexivity. }
    erewrite bind_returns by apply save_returns. unfold ret. cbn -[look].
    reflexivity.
  - erewrite bind_returns.
    2: { unfold if_overlay. cbn [overlay with_lock_status with_config]. now rewrite Hov. }
    erewrite bind_returns by apply save_returns.
    unfold ret, with_disk, with_lock_status, with_config. cbn. now rewrite Hov.
Qed.

Lemma toggle_overlay_off a (o : overlay_window) (screen_width : Z) :
  overlay a = Some o ->
  toggle_overlay screen_width a =
    (Return tt,
     mkApp (controller a) (logged_numbers a) (config a) None (display_label a)
           (display_color a) (lock_status a) "Overlay OFF" (save_btn a) (timers a)
           (disk a)).
Proof.
  intros Hov. unfold toggle_overlay, on_overlay, close. method. cbn.
  rewrite Hov. cbn. now rewrite Hov.
Qed.

Lemma toggle_overlay_on a d (v : pyobj) (screen_width : Z) :
  overlay a = None -> config a = PDict d -> is_Some (d !! "overlay_color") ->
  d !! "overlay_locked" = Some v ->
  Forall digit (logged_numbers a) -> (length (logged_numbers a) <= 7)%nat ->
  toggle_overlay screen_width a =
    match new (PDict d) screen_width with
    | Return o =>
        (Return tt,
         mkApp (controller a) (logged_numbers a) (config a)
               (Some (mkOverlay (look d (logged_numbers a)) (pos o) (truthy v)
                                (if truthy v then BlankCursor else SizeAllCursor)
                                true))
               (display_label a) (display_color a) (lock_status a) "Overlay ON"
               (save_btn a) (timers a) (disk a))
    | Raise e => (Raise e, a)
    end.
Proof.
  intros Hov Hcfg Hc Hv Hdigits Hlen. unfold toggle_overlay.
  rewrite (bind_returns _ _ a a None) by (unfold gets; now rewrite Hov).
  rewrite (bind_returns _ _ a a (PDict d)) by (unfold gets; now rewrite Hcfg).
  destruct (new (PDict d) screen_width) as [o|e].
  2: { now rewrite (bind_raises _ _ a a e). }
  rewrite (bind_returns _ _ a a o) by reflexivity.
  rewrite (bind_returns _ _ a (with_overlay (Some o) a) tt) by reflexivity.
  destruct (set_click_through_dict d v o Hc) as [u' Hu'].
  erewrite bind_returns.
  2: { unfold overlay_set_click_through.
       erewrite bind_returns; [|apply (config_get_dict _ d); [exact Hcfg|exact Hv]].
       unfold on_overlay. method. cbn [overlay config with_overlay].
       rewrite Hcfg, Hu'. reflexivity. }
  erewrite bind_returns.
  2: { unfold overlay_update_text, on_overlay, on_ui. method.
       cbn -[OverlayWindow.update_text look].
       rewrite Hcfg, update_text_look by assumption. reflexivity. }
  unfold on_overlay, show, with_overlay_btn, with_overlay. method. cbn -[look].
  now rewrite Hcfg.
Qed.

Lemma set_position_off a (p : string) (screen_width : Z) :
  overlay a = None -> set_position_preset json_dump p screen_width a = (Return tt, a).
Proof. intros Hov. unfold set_position_preset. method. now rewrite Hov. Qed.

Lemma insert_coordinates a d (o : overlay_window) (p : Z * Z) :
  overlay a = Some o -> config a = PDict d ->
  let d' := <["overlay_y" := PInt (snd p)]> (<["overlay_x" := PInt (fst p)]> d) in
  (on_overlay (move p) ;;;
   config_set "overlay_x" (PInt (fst p)) ;;;
   config_set "overlay_y" (PInt (snd p)) ;;;
   _ <- save json_dump ;;
   ret tt) a =
    (Return tt,
     mkApp (controller a) (logged_numbers a) (PDict d')
           (Some (mkOverlay (ui o) p (transparent_for_input o) (cursor_shape o)
                            (visible o)))
           (display_label a) (display_color a) (lock_status a) (overlay_btn a)
           (save_btn a) (timers a)
           (snd (save_config json_dump (PDict d') (disk a)))).
Proof.
  intros Hov Hcfg d'.
  erewrite bind_returns.
  2: { unfold on_overlay, move. method. rewrite Hov. reflexivity. }
  erewrite bind_returns; [|now apply (config_set_dict _ d)].
  erewrite bind_returns; [|now apply (config_set_dict _ (<["overlay_x" := PInt (fst p)]> d))].
  erewrite bind_returns by apply save_returns. reflexivity.
Qed.

Lemma set_position_on a d (o : overlay_window) (p : string) (screen_width : Z) :
  overlay a = Some o -> config a = PDict d ->
  let x := preset_x p screen_width in
  let d' := <["overlay_y" := PInt 30]> (<["overlay_x" := PInt x]> d) in
  set_position_preset json_dump p screen_width a =
    (Return tt,
     mkApp (controller a) (logged_numbers a) (PDict d')
           (Some (mkOverlay (ui o) (x, 30) (transparent_for_input o) (cursor_shape o)
                            (visible o)))
           (display_label a) (display_color a) (lock_status a) (overlay_btn a)
           (save_btn a) (timers a)
           (snd (save_config json_dump (PDict d') (disk a)))).
Proof.
  intros Hov Hcfg x d'. unfold set_position_preset.
  rewrite (bind_returns _ _ a a (Some o)) by (unfold gets; now rewrite Hov).
  cbv zeta. fold (preset_x p screen_width). fold x.
  exact (insert_coordinates a d o (x, 30) Hov Hcfg).
Qed.

Lemma mouseMoveEvent_on a d (o : overlay_window) (p : Z * Z) :
  overlay a = Some o -> config a = PDict d ->
  let d' := <["overlay_y" := PInt (snd p)]> (<["overlay_x" := PInt (fst p)]> d) in
  mouseMoveEvent json_dump p a =
    (Return tt,
     mkApp (controller a) (logged_numbers a) (PDict d')
           (Some (mkOverlay (ui o) p (transparent_for_input o) (cursor_shape o)
                            (visible o)))
           (display_label a) (display_color a) (lock_status a) (overlay_btn a)
           (save_btn a) (timers a)
           (snd (save_config json_dump (PDict d') (disk a)))).
Proof. intros Hov Hcfg. exact (insert_coordinates a d o p Hov Hcfg). Qed.

Lemma overlay_update_color_look a d (c : pyobj) (o : overlay_window) :
  config a = PDict (<["overlay_color" := c]> d) -> overlay a = Some o ->
  ui o = look d (logged_numbers a) -> Forall digit (logged_numbers a) ->
  if_overlay (overlay_update_color c) a =
    (Return tt,
     with_overlay
       (Some (mkOverlay (look (<["overlay_color" := c]> d) (logged_numbers a)) (pos o)
                        (transparent_for_input o) (cursor_shape o) (visible o)))
       a).
Proof.
  intros Hcfg Hov Hui Hdigits. unfold if_overlay. rewrite Hov.
  unfold overlay_update_color.
  erewrite bind_returns; [|now apply (config_set_dict _ (<["overlay_color" := c]> d))].
  rewrite insert_insert_eq.
  erewrite bind_returns; [|reflexivity].
  unfold on_overlay, on_ui. cbn -[OverlayWindow.update_overlay_style look].
  rewrite Hov, Hui. cbn -[OverlayWindow.update_overlay_style look].
  rewrite (restyle_look d).
  - unfold with_overlay, with_config. cbn -[look]. now rewrite Hcfg.
  - rewrite lookup_insert_eq. eauto.
  - assumption.
  - now rewrite lookup_insert_ne.
Qed.

Lemma pick_color_spec a d (hex : string) :
  config a = PDict d ->
  (forall o, overlay a = Some o -> ui o = look d (logged_numbers a)) ->
  Forall digit (logged_numbers a) ->
  pick_color json_dump (Some hex) a = (Return tt, recoloured json_dump a d (PStr hex)).
Proof.
  intros Hcfg Hui Hdigits. unfold pick_color, recoloured.
  erewrite bind_returns; [|now apply (config_set_dict _ d)].
  erewrite bind_returns; [|reflexivity].
  destruct (overlay a) as [o|] eqn:Hov.
  - erewrite bind_returns.
    2: { apply (overlay_update_color_look _ d (PStr hex) o);
           [reflexivity|exact Hov|now apply Hui|exact Hdigits]. }
    erewrite bind_returns by apply save_returns. reflexivity.
  - erewrite bind_returns.
    2: { unfold if_overlay. cbn [overlay with_display_color with_config].
         now rewrite Hov. }
    erewrite bind_returns by apply save_returns.
    unfold ret, with_disk, with_display_color, with_config. cbn. now rewrite Hov.
Qed.

Lemma reset_default_spec a d :
  config a = PDict d ->
  (forall o, overlay a = Some o -> ui o = look d (logged_numbers a)) ->
  Forall digit (logged_numbers a) ->
  reset_default json_dump saved_style a =
    (Return tt,
     with_timers (timers a ++ [save_btn a])
       (with_save_btn ("Reset to default!", saved_style)
          (recoloured json_dump a d (PStr "#ffff00")))).
Proof.
  intros Hcfg Hui Hdigits. unfold reset_default, recoloured.
  erewrite bind_returns; [|reflexivity].
  erewrite bind_returns; [|now apply (config_set_dict _ d)].
  erewrite bind_returns;
    [|apply (config_get_dict _ (<["overlay_color" := PStr "#ffff00"]> d));
      [reflexivity|now rewrite lookup_insert_eq]].
  erewrite bind_returns; [|reflexivity].
  destruct (overlay a) as [o|] eqn:Hov.
  - erewrite bind_returns.
    2: { unfold if_overlay. cbn [overlay with_display_color with_config]. rewrite Hov.
         erewrite bind_returns;
           [|apply (config_get_dict _ (<["overlay_color" := PStr "#ffff00"]> d));
             [reflexivity|now rewrite lookup_insert_eq]].
         pose proof (overlay_update_color_look
                       (with_display_color (PStr "#ffff00")
                          (with_config (PDict (<["overlay_color" := PStr "#ffff00"]> d)) a))
                       d (PStr "#ffff00") o) as Hstep.
         unfold if_overlay in Hstep. cbn [overlay with_display_color with_config] in Hstep.
         rewrite Hov in Hstep. apply Hstep; [reflexivity|reflexivity| |exact Hdigits].
         now apply Hui. }
    erewrite bind_returns by apply save_returns. reflexivity.
  - erewrite bind_returns.
    2: { unfold if_overlay. cbn [overlay with_display_color with_config].
         now rewrite Hov. }
    erewrite bind_returns by apply save_returns.
    unfold show_save_feedback, with_timers, with_save_btn, with_disk,
      with_display_color, with_config. method. cbn. now rewrite Hov.
Qed.

Lemma save_settings_spec a :
  save_settings json_dump saved_style a =
    let r := save_config json_dump (config a) (disk a) in
    (Return tt,
     if fst r then
       with_timers (timers a ++ [save_btn a])
         (with_save_btn ("Saved!", saved_style) (with_disk (snd r) a))
     else with_disk (snd r) a).
Proof.
  unfold save_settings. erewrite bind_returns by apply save_returns. cbv zeta.
  now destruct (fst (save_config json_dump (config a) (disk a))).
Qed.

Lemma timeout_spec a :
  timeout a =
    (Return tt,
     match timers a with
     | original :: rest => with_save_btn original (with_timers rest a)
     | [] => a
     end).
Proof. unfold timeout. method. now destruct (timers a). Qed.

Lemma to_main_from_main (w : MainWindow.t) a :
  (MainWindow.overlay w = None <-> overlay a = None) ->
  to_main (from_main w a) = w.
Proof.
  intros Hov. destruct w as [ctrl buf cfg ov lbl]. unfold to_main, from_main. cbn in *.
  f_equal. destruct (overlay a) as [o|], ov as [u|]; try reflexivity.
  - destruct Hov as [H _]. discriminate (H eq_refl).
  - destruct Hov as [_ H]. discriminate (H eq_refl).
Qed.

(** *** The widgets stay in step *)

Lemma in_step_build a d :
  config a = PDict d -> record_config (PDict d) ->
  lock_status a = (if locked (PDict d) then "Locked" else "Unlocked") ->
  overlay_btn a = match overlay a with
                  | Some _ => "Overlay ON"
                  | None => "Overlay OFF"
                  end ->
  (forall o, overlay a = Some o ->
             transparent_for_input o = locked (PDict d)
             /\ cursor_shape o = (if locked (PDict d) then BlankCursor else SizeAllCursor)
             /\ visible o = true
             /\ ui o = look d (logged_numbers a)) ->
  MainWindow.consistent (to_main a) ->
  in_step a.
Proof.
  intros Hcfg Hrec Hlock Hbtn Hov Hbuf. constructor; rewrite ?Hcfg; try assumption.
  - intros o Ho. destruct (Hov o Ho) as (? & ? & ? & _). auto.
  - intros o Ho. destruct (Hov o Ho) as (_ & _ & _ & ?). eauto.
Qed.

Lemma in_step_parts a :
  in_step a ->
  exists d,
    config a = PDict d /\ record_config (PDict d)
    /\ lock_status a = (if locked (PDict d) then "Locked" else "Unlocked")
    /\ overlay_btn a = match overlay a with
                       | Some _ => "Overlay ON"
                       | None => "Overlay OFF"
                       end
    /\ (forall o, overlay a = Some o ->
                  transparent_for_input o = locked (PDict d)
                  /\ cursor_shape o
                     = (if locked (PDict d) then BlankCursor else SizeAllCursor)
                  /\ visible o = true
                  /\ ui o = look d (logged_numbers a))
    /\ MainWindow.consistent (to_main a).
Proof.
  intros [Hrec Hlock Hbtn Hov Hui Hbuf]. destruct Hrec as (d & Hcfg & Hkeys).
  exists d. rewrite Hcfg in *. split; [reflexivity|]. split; [exists d; auto|].
  split; [assumption|]. split; [assumption|]. split; [|assumption].
  intros o Ho. destruct (Hov o Ho) as (? & ? & ?).
  destruct (Hui o Ho) as (d' & [= <-] & ?). auto.
Qed.

(** The handlers of the key events, which work on a part of the window. *)
Lemma run_main_in_step {A : Type} (m : M MainWindow.t A) a d (r : outcome A)
    (w' : MainWindow.t) :
  in_step a -> config a = PDict d ->
  m (to_main a) = (r, w') -> tidy d w' ->
  (MainWindow.overlay w' = None <-> MainWindow.overlay (to_main a) = None) ->
  run_main m a = (r, from_main w' a) /\ in_step (from_main w' a).
Proof.
  intros (d0 & Hcfg0 & Hrec & Hlock & Hbtn & Hov & Hbuf)%in_step_parts Hcfg Hm
         (Hcfg' & Hc & Hcons & Hui) Hiff.
  rewrite Hcfg in Hcfg0. injection Hcfg0 as <-.
  split; [unfold run_main; now rewrite Hm|].
  assert (MainWindow.overlay w' = None <-> overlay a = None) as Hiff'.
  { rewrite Hiff. cbn. destruct (overlay a); cbn; split; congruence. }
  apply (in_step_build _ d); cbn.
  - exact Hcfg'.
  - exact Hrec.
  - exact Hlock.
  - rewrite Hbtn. destruct (overlay a) as [o|]; [|reflexivity].
    destruct (MainWindow.overlay w'); reflexivity.
  - intros o Ho. destruct (overlay a) as [o0|] eqn:Hov0.
    + destruct (MainWindow.overlay w') as [u|] eqn:Hu.
      * injection Ho as <-. cbn. destruct (Hov o0 eq_refl) as (? & ? & ? & _).
        repeat split; try assumption. now apply Hui.
      * destruct Hiff' as [Hnone _]. discriminate (Hnone eq_refl).
    + discriminate.
  - now rewrite to_main_from_main.
Qed.

Lemma to_main_tidy a d :
  in_step a -> config a = PDict d -> tidy d (to_main a).
Proof.
  intros (d0 & Hcfg0 & Hrec & _ & _ & Hov & Hbuf)%in_step_parts Hcfg.
  rewrite Hcfg in Hcfg0. injection Hcfg0 as <-.
  repeat split; try apply Hbuf.
  - exact Hcfg.
  - now apply record_config_keys.
  - intros u Hu. cbn in Hu. destruct (overlay a) as [o|] eqn:Ho; [|discriminate].
    injection Hu as <-. now apply Hov.
Qed.

Lemma consistent_to_main a a' :
  logged_numbers a' = logged_numbers a -> display_label a' = display_label a ->
  MainWindow.consistent (to_main a) -> MainWindow.consistent (to_main a').
Proof. unfold MainWindow.consistent, to_main. cbn. now intros -> ->. Qed.

Lemma in_step_frame a a' :
  config a' = config a -> overlay a' = overlay a ->
  logged_numbers a' = logged_numbers a -> display_label a' = display_label a ->
  lock_status a' = lock_status a -> overlay_btn a' = overlay_btn a ->
  in_step a -> in_step a'.
Proof.
  intros Hcfg Hov Hbuf Hlbl Hlock Hbtn [H1 H2 H3 H4 H5 H6].
  constructor; rewrite ?Hcfg, ?Hov, ?Hbuf, ?Hlock, ?Hbtn; try assumption.
  now apply (consistent_to_main a).
Qed.

(** The overlay button keeps the widgets in step; it returns normally
    unless the new overlay cannot be built, and then nothing has changed. *)
Lemma toggle_overlay_in_step a (w : Z) :
  in_step a ->
  in_step (exec (toggle_overlay w) a)
  /\ (fst (toggle_overlay w a) = Return tt
      \/ exists err,
           overlay a = None /\ new (config a) w = Raise err
           /\ toggle_overlay w a = (Raise err, a)).
Proof.
  intros Ha.
  destruct (in_step_parts a Ha) as (d & Hcfg & Hrec & Hlock & Hbtn & Hov & Hbuf).
  destruct (record_config_keys d Hrec) as (Hc & _ & _ & [v Hv]).
  pose proof Hbuf as (Hlen & Hdigits & _). cbn in Hlen, Hdigits.
  unfold exec. destruct (overlay a) as [o|] eqn:Ho.
  - rewrite (toggle_overlay_off a o w Ho). split; [|now left].
    apply (in_step_build _ d); cbn;
      [exact Hcfg|exact Hrec|exact Hlock|reflexivity|intros o' [=]|].
    now apply (consistent_to_main a).
  - rewrite (toggle_overlay_on a d v w Ho Hcfg Hc Hv Hdigits Hlen).
    destruct (new (PDict d) w) as [o|err] eqn:Hnew.
    + split; [|now left].
      apply (in_step_build _ d); cbn -[look];
        [exact Hcfg|exact Hrec|exact Hlock|reflexivity| |].
      * intros o' [= <-]. cbn -[look]. rewrite locked_dict, Hv. auto.
      * now apply (consistent_to_main a).
    + split; [exact Ha|]. right. exists err. rewrite Hcfg. auto.
Qed.

Lemma set_position_in_step a (p : string) (w : Z) :
  in_step a ->
  in_step (exec (set_position_preset json_dump p w) a)
  /\ fst (set_position_preset json_dump p w a) = Return tt.
Proof.
  intros Ha.
  destruct (in_step_parts a Ha) as (d & Hcfg & Hrec & Hlock & Hbtn & Hov & Hbuf).
  unfold exec. destruct (overlay a) as [o|] eqn:Ho.
  - rewrite (set_position_on a d o p w Ho Hcfg). split; [|reflexivity].
    cbn -[look].
    set (d' := <["overlay_y" := PInt 30]> (<["overlay_x" := PInt (preset_x p w)]> d)).
    assert (locked (PDict d') = locked (PDict d)) as Hl.
    { unfold d'. now rewrite !locked_insert_ne. }
    apply (in_step_build _ d'); cbn -[look].
    + reflexivity.
    + unfold d'. now do 2 apply record_config_insert.
    + now rewrite Hl.
    + assumption.
    + intros o' [= <-]. cbn -[look]. rewrite Hl.
      destruct (Hov o eq_refl) as (? & ? & ? & Hlook).
      repeat split; try assumption. unfold d'. now rewrite !look_insert.
    + now apply (consistent_to_main a).
  - rewrite (set_position_off a p w Ho). auto.
Qed.

(** Every handler keeps the widgets in step, and returns normally unless
    it is the overlay button and the new overlay cannot be built, in which
    case nothing has changed. *)
Lemma handle_in_step a (e : event) :
  in_step a -> possible e a ->
  in_step (exec (handle json_dump saved_style e) a)
  /\ (fst (handle json_dump saved_style e a) = Return tt
      \/ exists screen_width err,
           e = ClickOverlay screen_width /\ overlay a = None
           /\ new (config a) screen_width = Raise err
           /\ handle json_dump saved_style e a = (Raise err, a)).
Proof.
  intros Ha Hposs.
  destruct (in_step_parts a Ha) as (d & Hcfg & Hrec & Hlock & Hbtn & Hov & Hbuf).
  destruct (record_config_keys d Hrec) as (Hc & [vx Hx] & [vy Hy] & [v Hv]).
  pose proof Hbuf as (Hlen & Hdigits & Hlabel). cbn in Hlen, Hdigits, Hlabel.
  assert (forall o, overlay a = Some o -> ui o = look d (logged_numbers a)) as Hui.
  { intros o Ho. now apply Hov. }
  unfold exec. destruct e as [key| |w| |p w|[hex|]| | |p|]; cbn [handle].
  - (* a key event *)
    destruct (on_key_press_tidy key (to_main a) d (to_main_tidy a d Ha Hcfg))
      as (w' & Hrun & Htidy & Hiff).
    destruct (run_main_in_step _ a d _ w' Ha Hcfg Hrun Htidy Hiff) as [Heq Hin].
    unfold on_key_press. rewrite Heq. auto.
  - (* Clear *)
    destruct (clear_numbers_tidy (to_main a) d (to_main_tidy a d Ha Hcfg))
      as (w' & Hrun & Htidy & Hiff).
    destruct (run_main_in_step _ a d _ w' Ha Hcfg Hrun Htidy Hiff) as [Heq Hin].
    unfold clear_numbers. rewrite Heq. auto.
  - (* the overlay button *)
    destruct (toggle_overlay_in_step a w Ha) as [Hin [Hret|(err & Ho & Hnew & Hrun)]];
      [auto|].
    split; [exact Hin|]. right. exists w, err. auto.
  - (* the lock button *)
    rewrite (toggle_lock_spec a d v Hcfg Hc Hv Hdigits Hlen). split; [|now left].
    cbn -[look]. set (d' := <["overlay_locked" := PBool (negb (truthy v))]> d).
    assert (locked (PDict d') = negb (truthy v)) as Hl by apply locked_insert.
    apply (in_step_build _ d'); cbn -[look].
    + reflexivity.
    + now apply record_config_insert.
    + now rewrite Hl.
    + rewrite Hbtn. now destruct (overlay a).
    + intros o' Ho'. destruct (overlay a) as [o|]; [|discriminate].
      injection Ho' as <-. cbn -[look]. now rewrite Hl.
    + now apply (consistent_to_main a).
  - (* a position preset *)
    destruct (set_position_in_step a p w Ha). auto.
  - (* a colour picked *)
    rewrite (pick_color_spec a d hex Hcfg Hui Hdigits). split; [|now left].
    cbn -[look]. set (d' := <["overlay_color" := PStr hex]> d).
    assert (locked (PDict d') = locked (PDict d)) as Hl.
    { unfold d'. now rewrite locked_insert_ne. }
    apply (in_step_build _ d'); cbn -[look].
    + reflexivity.
    + now apply record_config_insert.
    + now rewrite Hl.
    + rewrite Hbtn. now destruct (overlay a).
    + intros o' Ho'. destruct (overlay a) as [o|] eqn:Ho; [|discriminate].
      injection Ho' as <-. cbn -[look]. rewrite Hl.
      destruct (Hov o eq_refl) as (? & ? & ? & _). auto.
    + now apply (consistent_to_main a).
  - (* the colour dialog cancelled *)
    auto.
  - (* Reset Default *)
    rewrite (reset_default_spec a d Hcfg Hui Hdigits). split; [|now left].
    cbn -[look]. set (d' := <["overlay_color" := PStr "#ffff00"]> d).
    assert (locked (PDict d') = locked (PDict d)) as Hl.
    { unfold d'. now rewrite locked_insert_ne. }
    apply (in_step_build _ d'); cbn -[look].
    + reflexivity.
    + now apply record_config_insert.
    + now rewrite Hl.
    + rewrite Hbtn. now destruct (overlay a).
    + intros o' Ho'. destruct (overlay a) as [o|] eqn:Ho; [|discriminate].
      injection Ho' as <-. cbn -[look]. rewrite Hl.
      destruct (Hov o eq_refl) as (? & ? & ? & _). auto.
    + now apply (consistent_to_main a).
  - (* Save *)
    rewrite save_settings_spec. cbv zeta. split; [|now left]. cbn [snd].
    destruct (fst (save_config json_dump (config a) (disk a)));
      now apply (in_step_frame a).
  - (* a drag *)
    destruct (overlay a) as [o|] eqn:Ho; [|now elim Hposs].
    rewrite (mouseMoveEvent_on a d o p Ho Hcfg). split; [|now left].
    cbn -[look].
    set (d' := <["overlay_y" := PInt (snd p)]> (<["overlay_x" := PInt (fst p)]> d)).
    assert (locked (PDict d') = locked (PDict d)) as Hl.
    { unfold d'. now rewrite !locked_insert_ne. }
    apply (in_step_build _ d'); cbn -[look].
    + reflexivity.
    + unfold d'. now do 2 apply record_config_insert.
    + now rewrite Hl.
    + assumption.
    + intros o' [= <-]. cbn -[look]. rewrite Hl.
      destruct (Hov o eq_refl) as (? & ? & ? & Hlook).
      repeat split; try assumption. unfold d'. now rewrite !look_insert.
    + now apply (consistent_to_main a).
  - (* a timer *)
    rewrite timeout_spec. split; [|now left]. cbn [snd].
    destruct (timers a); [assumption|]. now apply (in_step_frame a).
Qed.

(** *** The running program *)

(** A dict that [load_config] returns has the four keys. *)
Lemma load_config_dict_record (fs : FS text) d :
  load_config json_load fs = Return (PDict d) -> record_config (PDict d).
Proof.
  intros Hload.
  destruct (load_config_cases _ json_load fs)
    as [H|(s & v & config & _ & _ & _ & Hkeys & H)];
    rewrite H in Hload; injection Hload as Hd.
  - exists d. split; [reflexivity|]. intros key Hkey. rewrite <- Hd.
    simpl in Hkey.
    repeat (apply elem_of_cons in Hkey as [->|Hkey]; [now eexists|]).
    now apply elem_of_nil in Hkey.
  - subst config. destruct v as [| | | |t|l|d0];
      try (apply ensure_keys_not_dict in Hkeys as [[=] _]; discriminate).
    rewrite ensure_keys_dict in Hkeys. injection Hkeys as <-.
    exists (d0 ∪ list_to_map DEFAULT_CONFIG_items). split; [reflexivity|].
    intros key Hkey. rewrite lookup_union.
    assert (is_Some ((list_to_map DEFAULT_CONFIG_items : gmap string pyobj) !! key))
      as [x ->].
    { simpl in Hkey.
      repeat (apply elem_of_cons in Hkey as [->|Hkey]; [now eexists|]).
      now apply elem_of_nil in Hkey. }
    destruct (d0 !! key); now eexists.
Qed.

Lemma init_dict (fs : FS text) d :
  load_config json_load fs = Return (PDict d) ->
  exists c v,
    d !! "overlay_color" = Some c /\ d !! "overlay_locked" = Some v
    /\ init json_load plain_style fs =
         Return (mkApp [] [] (PDict d) None "" c
                       (if truthy v then "Locked" else "Unlocked") "Overlay OFF"
                       ("Save", plain_style) [] fs).
Proof.
  intros Hload. pose proof (load_config_dict_record fs d Hload) as Hrec.
  destruct (record_config_keys d Hrec) as ([c Hc] & _ & _ & [v Hv]).
  exists c, v. split; [exact Hc|]. split; [exact Hv|].
  unfold init. rewrite Hload. cbn. now rewrite Hv, Hc.
Qed.

Lemma init_in_step (fs : FS text) a :
  init json_load plain_style fs = Return a -> in_step a.
Proof.
  intros Hinit. destruct (load_config json_load fs) as [cfg|e] eqn:Hload.
  2: { unfold init in Hinit. now rewrite Hload in Hinit. }
  destruct cfg as [| | | | | |d];
    try (unfold init in Hinit; rewrite Hload in Hinit; discriminate).
  destruct (init_dict fs d Hload) as (c & v & Hc & Hv & Heq).
  rewrite Heq in Hinit. injection Hinit as <-.
  apply (in_step_build _ d); cbn.
  - reflexivity.
  - now apply (load_config_dict_record fs).
  - now rewrite locked_dict, Hv.
  - reflexivity.
  - intros o [=].
  - apply (consistent_init (PDict d)).
Qed.

(** X10: [MainWindow.__init__] needs a dict from [load_config].  With a
    dict it returns a window with that config, the file untouched, no
    overlay, an empty buffer and nothing typed; with any other value it
    raises [TypeError] at [self.config["overlay_locked"]], and so it does on
    a readable [config.json] that holds the array of the four key names. *)
Theorem start_needs_a_record (fs : FS text) :
  (forall d,
      load_config json_load fs = Return (PDict d) ->
      exists a,
        init json_load plain_style fs = Return a
        /\ config a = PDict d /\ disk a = fs /\ overlay a = None
        /\ logged_numbers a = [] /\ controller a = [])
  /\ (forall v,
        load_config json_load fs = Return v -> (forall d, v <> PDict d) ->
        init json_load plain_style fs = Raise TypeError)
  /\ (forall s,
        node fs = Some s -> can_read fs = true -> json_load s = Some key_names ->
        init json_load plain_style fs = Raise TypeError).
Proof.
  assert (forall v,
            load_config json_load fs = Return v -> (forall d, v <> PDict d) ->
            init json_load plain_style fs = Raise TypeError) as Hbad.
  { intros v Hload Hv. unfold init. rewrite Hload.
    destruct v as [| | | | | |d]; try reflexivity. now elim (Hv d). }
  split; [|split; [exact Hbad|]].
  - intros d Hload. destruct (init_dict fs d Hload) as (c & v & _ & _ & ->).
    eexists. repeat split.
  - intros s Hnode Hread Hparse. apply (Hbad key_names); [|discriminate].
    now rewrite (load_config_parsed _ _ fs s key_names).
Qed.

(** X11: in every state the program reaches from start-up by key events,
    clicks, colour dialogs, drags and timers, the widgets agree with the
    state: the config is a dict with the four keys, the lock button says
    Locked exactly when [overlay_locked] is true, the overlay button says
    ON exactly when there is an overlay, an overlay that exists is visible,
    lets input through exactly when locked, has the blank cursor when locked
    and the sizing cursor when not, and shows the label and style of the
    table of modes for the buffer, and the buffer holds at most seven digits
    which the display label shows. *)
Theorem widgets_stay_in_step a :
  reachable json_load json_dump plain_style saved_style a -> in_step a.
Proof.
  induction 1 as [fs a Hinit|e a _ IH Hposs].
  - now apply (init_in_step fs).
  - now apply handle_in_step.
Qed.

Lemma coordinate_as_int (v : pyobj) :
  coordinate v -> is_not_none v = true -> exists n, as_int v = Return n /\ v = PInt n.
Proof.
  intros [->|(n & -> & Hn)] Hv; [discriminate|]. exists n. split; [|reflexivity].
  unfold as_int.
  destruct (Z.leb_spec (- 2 ^ 31) n); [|lia]. destruct (Z.ltb_spec n (2 ^ 31)); [|lia].
  reflexivity.
Qed.

(** X12: in a state the program reaches from start-up no handler raises,
    provided that, when the overlay is being switched on, the stored
    [overlay_x] and [overlay_y] are each [None] or an [int] that fits a C
    [int]. *)
Theorem handlers_return a (e : event) :
  reachable json_load json_dump plain_style saved_style a -> possible e a ->
  (forall screen_width,
      e = ClickOverlay screen_width -> overlay a = None ->
      exists vx vy,
        getitem (config a) "overlay_x" = Return vx
        /\ getitem (config a) "overlay_y" = Return vy
        /\ coordinate vx /\ coordinate vy) ->
  fst (handle json_dump saved_style e a) = Return tt.
Proof.
  intros Hreach Hposs Hcoord.
  assert (in_step a) as Ha.
  { clear Hposs Hcoord. induction Hreach as [fs a Hinit|e' a _ IH Hposs'].
    - now apply (init_in_step fs).
    - now apply handle_in_step. }
  destruct (handle_in_step a e Ha Hposs)
    as [_ [Hret|(w & err & -> & Hov & Hnew & _)]]; [exact Hret|].
  destruct (Hcoord w eq_refl Hov) as (vx & vy & Hx & Hy & Hcx & Hcy).
  destruct (in_step_parts a Ha) as (d & Hcfg & Hrec & _).
  destruct (record_config_keys d Hrec) as (Hc & _).
  rewrite Hcfg in *. unfold getitem in Hx, Hy.
  destruct (d !! "overlay_x") as [vx'|] eqn:Hdx; [injection Hx as ->|discriminate].
  destruct (d !! "overlay_y") as [vy'|] eqn:Hdy; [injection Hy as ->|discriminate].
  rewrite (new_dict d vx vy w Hc Hdx Hdy) in Hnew.
  destruct (is_not_none vx) eqn:Hnx; [|discriminate].
  destruct (is_not_none vy) eqn:Hny; [|discriminate].
  destruct (coordinate_as_int vx Hcx Hnx) as (nx & Hax & _).
  destruct (coordinate_as_int vy Hcy Hny) as (ny & Hay & _).
  cbn in Hnew. rewrite Hax in Hnew. cbn in Hnew. now rewrite Hay in Hnew.
Qed.

Lemma getitem_insert_ne d (key key' : string) (v : pyobj) :
  key' <> key ->
  getitem (PDict (<[key' := v]> d)) key = getitem (PDict d) key.
Proof. intros Hne. unfold getitem. now rewrite lookup_insert_ne. Qed.

Lemma insert_lock_twice d (v : pyobj) :
  <["overlay_locked" := PBool (negb (truthy (PBool (negb (truthy v)))))]>
    (<["overlay_locked" := PBool (negb (truthy v))]> d)
  = <["overlay_locked" := PBool (truthy v)]> d.
Proof. rewrite insert_insert_eq. cbn. now rewrite negb_involutive. Qed.

(** X13: with the widgets in step, [toggle_lock] returns normally, negates
    the lock flag and leaves the other entries of the config, the buffer,
    what has been typed and the display label alone; a second call restores
    the flag, and the whole config when the flag was a [bool]. *)
Theorem toggle_lock_flips a :
  in_step a ->
  let a1 := exec (toggle_lock json_dump) a in
  let a2 := exec (toggle_lock json_dump) a1 in
  fst (toggle_lock json_dump a) = Return tt
  /\ locked (config a1) = negb (locked (config a))
  /\ (forall key, key <> "overlay_locked" ->
                  getitem (config a1) key = getitem (config a) key)
  /\ logged_numbers a1 = logged_numbers a
  /\ controller a1 = controller a
  /\ display_label a1 = display_label a
  /\ locked (config a2) = locked (config a)
  /\ (forall b, getitem (config a) "overlay_locked" = Return (PBool b) ->
                config a2 = config a).
Proof.
  intros Ha a1 a2.
  destruct (in_step_parts a Ha) as (d & Hcfg & Hrec & _ & _ & _ & Hbuf).
  destruct (record_config_keys d Hrec) as (Hc & _ & _ & [v Hv]).
  pose proof Hbuf as (Hlen & Hdigits & _). cbn in Hlen, Hdigits.
  pose proof (toggle_lock_spec a d v Hcfg Hc Hv Hdigits Hlen) as H1.
  cbv zeta in H1.
  set (d1 := <["overlay_locked" := PBool (negb (truthy v))]> d) in *.
  assert (config a1 = PDict d1) as Hcfg1.
  { subst a1. unfold exec. now rewrite H1. }
  assert (logged_numbers a1 = logged_numbers a) as Hbuf1.
  { subst a1. unfold exec. now rewrite H1. }
  assert (is_Some (d1 !! "overlay_color")) as Hc1.
  { unfold d1. now rewrite lookup_insert_ne. }
  assert (d1 !! "overlay_locked" = Some (PBool (negb (truthy v)))) as Hv1.
  { unfold d1. now rewrite lookup_insert_eq. }
  pose proof (toggle_lock_spec a1 d1 _ Hcfg1 Hc1 Hv1) as H2.
  rewrite Hbuf1 in H2. specialize (H2 Hdigits Hlen). cbv zeta in H2.
  unfold d1 in H2. rewrite insert_lock_twice in H2.
  assert (config a2 = PDict (<["overlay_locked" := PBool (truthy v)]> d)) as Hcfg2.
  { subst a2. unfold exec. now rewrite H2. }
  split; [now rewrite H1|]. split.
  { rewrite Hcfg1, Hcfg. unfold d1. rewrite locked_insert, locked_dict, Hv.
    reflexivity. }
  split.
  { intros key Hkey. rewrite Hcfg1, Hcfg. now apply getitem_insert_ne. }
  split; [exact Hbuf1|].
  split; [subst a1; unfold exec; now rewrite H1|].
  split; [subst a1; unfold exec; now rewrite H1|].
  split.
  { rewrite Hcfg2, Hcfg. now rewrite locked_insert, locked_dict, Hv. }
  intros b Hb. rewrite Hcfg2, Hcfg. rewrite Hcfg in Hb. unfold getitem in Hb.
  rewrite Hv in Hb. injection Hb as ->. cbn. now rewrite insert_id.
Qed.

(** A record written to a writable, readable file is what is loaded from
    it afterwards. *)
Lemma saved_record_loads d (fs : FS text) :
  (forall v s, json_dump v = (s, true) -> json_load s = Some v) ->
  (forall v, snd (json_dump v) = true) ->
  record_config (PDict d) -> dev fs = Writable -> can_read fs = true ->
  load_config json_load (snd (save_config json_dump (PDict d) fs)) = Return (PDict d).
Proof.
  intros Hcodec Hfull (d0 & [= <-] & Hkeys) Hdev Hread. unfold save_config.
  rewrite Hdev. pose proof (Hfull (PDict d)) as Hdone.
  destruct (json_dump (PDict d)) as [s completed] eqn:Hdump. cbn in Hdone. subst.
  apply Hcodec in Hdump. cbn [snd].
  rewrite (load_config_parsed _ _ _ s (PDict d)) by (assumption || reflexivity).
  rewrite ensure_keys_dict. fold DEFAULT_CONFIG. do 2 f_equal.
  apply map_eq. intros key. rewrite lookup_union.
  destruct (d !! key) as [x|] eqn:Hx.
  - now destruct (DEFAULT_CONFIG !! key).
  - destruct (DEFAULT_CONFIG !! key) as [y|] eqn:Hy; [|reflexivity].
    assert (key ∈ DEFAULT_CONFIG_items.*1) as Hin.
    { apply elem_of_list_to_map_2 in Hy. now apply (list_elem_of_fmap_2 fst) in Hy. }
    apply Hkeys in Hin as [? ?]. congruence.
Qed.

(** X14: let [json.dump] always complete and [json.load] read back what
    it wrote, and let [config.json] be writable and readable.  After
    [toggle_lock], a position preset with the overlay on, a colour chosen in
    the dialog, [reset_default], [save_settings] and a drag of the overlay,
    [load_config] on the file returns the config in memory; every other
    event leaves both the file and the config as they are. *)
Theorem settings_reach_the_file a (e : event) :
  (forall v s, json_dump v = (s, true) -> json_load s = Some v) ->
  (forall v, snd (json_dump v) = true) ->
  in_step a -> possible e a ->
  dev (disk a) = Writable -> can_read (disk a) = true ->
  let a' := exec (handle json_dump saved_style e) a in
  (saves e a -> load_config json_load (disk a') = Return (config a'))
  /\ (~ saves e a -> disk a' = disk a /\ config a' = config a).
Proof.
  intros Hcodec Hfull Ha Hposs Hdev Hread a'.
  destruct (in_step_parts a Ha) as (d & Hcfg & Hrec & _ & _ & Hov & Hbuf).
  destruct (record_config_keys d Hrec) as (Hc & _ & _ & [v Hv]).
  pose proof Hbuf as (Hlen & Hdigits & _). cbn in Hlen, Hdigits.
  assert (forall o, overlay a = Some o -> ui o = look d (logged_numbers a)) as Hui.
  { intros o Ho. now apply Hov. }
  assert (forall d', record_config (PDict d') ->
            load_config json_load (snd (save_config json_dump (PDict d') (disk a)))
            = Return (PDict d')) as Hsaved.
  { intros d' Hd'. now apply saved_record_loads. }
  subst a'. unfold exec.
  destruct e as [key| |w| |p w|[hex|]| | |p|]; cbn [handle saves].
  - split; [contradiction|]. intros _.
    destruct (on_key_press_tidy key (to_main a) d (to_main_tidy a d Ha Hcfg))
      as (w' & Hrun & Htidy & Hiff).
    destruct (run_main_in_step _ a d _ w' Ha Hcfg Hrun Htidy Hiff) as [Heq _].
    unfold on_key_press. rewrite Heq. cbn.
    destruct Htidy as (Hcfg' & _). now rewrite Hcfg', Hcfg.
  - split; [contradiction|]. intros _.
    destruct (clear_numbers_tidy (to_main a) d (to_main_tidy a d Ha Hcfg))
      as (w' & Hrun & Htidy & Hiff).
    destruct (run_main_in_step _ a d _ w' Ha Hcfg Hrun Htidy Hiff) as [Heq _].
    unfold clear_numbers. rewrite Heq. cbn.
    destruct Htidy as (Hcfg' & _). now rewrite Hcfg', Hcfg.
  - split; [contradiction|]. intros _.
    destruct (overlay a) as [o|] eqn:Ho.
    + now rewrite (toggle_overlay_off a o w Ho).
    + rewrite (toggle_overlay_on a d v w Ho Hcfg Hc Hv Hdigits Hlen).
      now destruct (new (PDict d) w).
  - split; [|tauto]. intros _.
    rewrite (toggle_lock_spec a d v Hcfg Hc Hv Hdigits Hlen). cbn -[look].
    apply Hsaved. now apply record_config_insert.
  - destruct (overlay a) as [o|] eqn:Ho.
    + split; [|intros H; elim H; discriminate]. intros _.
      rewrite (set_position_on a d o p w Ho Hcfg). cbn -[look].
      apply Hsaved. now do 2 apply record_config_insert.
    + split; [intros H; now elim H|]. intros _.
      now rewrite (set_position_off a p w Ho).
  - split; [|tauto]. intros _.
    rewrite (pick_color_spec a d hex Hcfg Hui Hdigits). cbn -[look].
    apply Hsaved. now apply record_config_insert.
  - split; [contradiction|]. auto.
  - split; [|tauto]. intros _.
    rewrite (reset_default_spec a d Hcfg Hui Hdigits). cbn -[look].
    apply Hsaved. now apply record_config_insert.
  - split; [|tauto]. intros _. rewrite save_settings_spec. cbv zeta. cbn [snd].
    rewrite Hcfg in *.
    destruct (fst (save_config json_dump (PDict d) (disk a))); cbn;
      rewrite Hcfg; now apply Hsaved.
  - split; [|tauto]. intros _.
    destruct (overlay a) as [o|] eqn:Ho; [|now elim Hposs].
    rewrite (mouseMoveEvent_on a d o p Ho Hcfg). cbn -[look].
    apply Hsaved. now do 2 apply record_config_insert.
  - split; [contradiction|]. intros _. rewrite timeout_spec. cbn [snd].
    now destruct (timers a).
Qed.

(** With a stored position that [move] refuses, no new overlay can be
    built. *)
Lemma new_refused d (vx vy : pyobj) (screen_width : Z) :
  is_Some (d !! "overlay_color") ->
  d !! "overlay_x" = Some vx -> d !! "overlay_y" = Some vy ->
  unusable_position vx vy ->
  new (PDict d) screen_width = Raise TypeError.
Proof.
  intros Hc Hx Hy Hbad. rewrite (new_dict d vx vy screen_width Hc Hx Hy).
  destruct Hbad as [[Hvx Hvy]|((n & -> & Hn) & Hvy)].
  - destruct vx; try contradiction; now destruct vy.
  - cbn. destruct (Z.leb_spec (- 2 ^ 31) n); [|lia].
    destruct (Z.ltb_spec n (2 ^ 31)); [|lia]. cbn.
    now destruct vy.
Qed.

(** X15: when the stored position is complete and [move] refuses it (an
    [overlay_x] that is a string, a list or an object, or such an
    [overlay_y] after a fitting [overlay_x]) and there is no overlay, then
    whatever happens afterwards there is still no overlay, and every click
    on the overlay button raises [TypeError] and changes nothing: no handler
    repairs the position. *)
Theorem overlay_never_opens a a' (vx vy : pyobj) :
  in_step a -> overlay a = None ->
  getitem (config a) "overlay_x" = Return vx ->
  getitem (config a) "overlay_y" = Return vy ->
  unusable_position vx vy ->
  reaches json_dump saved_style a a' ->
  overlay a' = None
  /\ forall screen_width,
       toggle_overlay screen_width a' = (Raise TypeError, a').
Proof.
  intros Ha Hov Hx Hy Hbad Hreach.
  assert (in_step a' /\ overlay a' = None
          /\ getitem (config a') "overlay_x" = Return vx
          /\ getitem (config a') "overlay_y" = Return vy) as (Ha' & Hov' & Hx' & Hy').
  { induction Hreach as [a|a a' e _ IH Hposs]; [auto|].
    destruct (IH Ha Hov Hx Hy) as (Ha' & Hov' & Hx' & Hy'). clear IH.
    split; [now apply handle_in_step|].
    destruct (in_step_parts a' Ha') as (d & Hcfg & Hrec & _ & _ & Hovl & Hbuf).
    destruct (record_config_keys d Hrec) as (Hc & _ & _ & [v Hv]).
    pose proof Hbuf as (Hlen & Hdigits & _). cbn in Hlen, Hdigits.
    assert (forall o, overlay a' = Some o -> ui o = look d (logged_numbers a')) as Hui.
    { intros o Ho. now apply Hovl. }
    unfold exec. destruct e as [key| |w| |p w|[hex|]| | |p|]; cbn [handle].
    - destruct (on_key_press_tidy key (to_main a') d (to_main_tidy a' d Ha' Hcfg))
        as (w' & Hrun & Htidy & Hiff).
      destruct (run_main_in_step _ a' d _ w' Ha' Hcfg Hrun Htidy Hiff) as [Heq _].
      unfold on_key_press. rewrite Heq. cbn. rewrite Hov'.
      destruct Htidy as (Hcfg' & _). now rewrite Hcfg', <- Hcfg.
    - destruct (clear_numbers_tidy (to_main a') d (to_main_tidy a' d Ha' Hcfg))
        as (w' & Hrun & Htidy & Hiff).
      destruct (run_main_in_step _ a' d _ w' Ha' Hcfg Hrun Htidy Hiff) as [Heq _].
      unfold clear_numbers. rewrite Heq. cbn. rewrite Hov'.
      destruct Htidy as (Hcfg' & _). now rewrite Hcfg', <- Hcfg.
    - rewrite (toggle_overlay_on a' d v w Hov' Hcfg Hc Hv Hdigits Hlen).
      rewrite Hcfg in Hx', Hy'. unfold getitem in Hx', Hy'.
      destruct (d !! "overlay_x") as [vx'|] eqn:Hdx; [injection Hx' as ->|discriminate].
      destruct (d !! "overlay_y") as [vy'|] eqn:Hdy; [injection Hy' as ->|discriminate].
      rewrite (new_refused d vx vy w Hc Hdx Hdy Hbad). cbn.
      rewrite Hcfg. unfold getitem. now rewrite Hdx, Hdy.
    - rewrite (toggle_lock_spec a' d v Hcfg Hc Hv Hdigits Hlen). cbn -[look getitem].
      rewrite Hov'. rewrite Hcfg in Hx', Hy'.
      now rewrite !getitem_insert_ne by discriminate.
    - now rewrite (set_position_off a' p w Hov').
    - rewrite (pick_color_spec a' d hex Hcfg Hui Hdigits). cbn -[look getitem].
      rewrite Hov'. rewrite Hcfg in Hx', Hy'.
      now rewrite !getitem_insert_ne by discriminate.
    - auto.
    - rewrite (reset_default_spec a' d Hcfg Hui Hdigits). cbn -[look getitem].
      rewrite Hov'. rewrite Hcfg in Hx', Hy'.
      now rewrite !getitem_insert_ne by discriminate.
    - rewrite save_settings_spec. cbv zeta. cbn [snd].
      now destruct (fst (save_config json_dump (config a') (disk a'))).
    - now elim Hposs.
    - rewrite timeout_spec. cbn [snd]. now destruct (timers a'). }
  split; [exact Hov'|]. intros w.
  destruct (in_step_parts a' Ha') as (d & Hcfg & Hrec & _ & _ & _ & Hbuf).
  destruct (record_config_keys d Hrec) as (Hc & _ & _ & [v Hv]).
  pose proof Hbuf as (Hlen & Hdigits & _). cbn in Hlen, Hdigits.
  rewrite (toggle_overlay_on a' d v w Hov' Hcfg Hc Hv Hdigits Hlen).
  rewrite Hcfg in Hx', Hy'. unfold getitem in Hx', Hy'.
  destruct (d !! "overlay_x") as [vx'|] eqn:Hdx; [injection Hx' as ->|discriminate].
  destruct (d !! "overlay_y") as [vy'|] eqn:Hdy; [injection Hy' as ->|discriminate].
  now rewrite (new_refused d vx vy w Hc Hdx Hdy Hbad).
Qed.

Lemma preset_x_fits (p : string) (screen_width : Z) :
  0 <= screen_width < 2 ^ 31 ->
  - 2 ^ 31 <= preset_x p screen_width < 2 ^ 31.
Proof.
  intros Hw. unfold preset_x.
  destruct (String.eqb p "left"); [lia|]. destruct (String.eqb p "right"); [lia|].
  assert (- 240 <= (screen_width - 480) / 2 < 2 ^ 31); [|lia]. split.
  - apply Z.div_le_lower_bound; lia.
  - apply Z.div_lt_upper_bound; lia.
Qed.

Lemma preset_x_on_screen (p : string) (screen_width : Z) :
  520 <= screen_width ->
  0 <= preset_x p screen_width /\ preset_x p screen_width + 480 <= screen_width.
Proof.
  intros Hw. unfold preset_x.
  destruct (String.eqb p "left"); [lia|]. destruct (String.eqb p "right"); [lia|].
  assert (0 <= (screen_width - 480) / 2 <= screen_width - 480); [|lia]. split.
  - apply Z.div_pos; lia.
  - apply Z.div_le_upper_bound; lia.
Qed.

(** Switching the overlay on with stored coordinates that [move] accepts,
    in closed form. *)
Lemma opens_at a d (vx vy : pyobj) (screen_width : Z) :
  in_step a -> overlay a = None -> config a = PDict d ->
  d !! "overlay_x" = Some vx -> d !! "overlay_y" = Some vy ->
  coordinate vx -> coordinate vy ->
  toggle_overlay screen_width a =
    (Return tt,
     mkApp (controller a) (logged_numbers a) (config a)
           (Some (mkOverlay (look d (logged_numbers a))
                            (match vx, vy with
                             | PInt x, PInt y => (x, y)
                             | _, _ => (preset_x "mid" screen_width, 30)
                             end)
                            (locked (config a))
                            (if locked (config a) then BlankCursor else SizeAllCursor)
                            true))
           (display_label a) (display_color a) (lock_status a) "Overlay ON"
           (save_btn a) (timers a) (disk a)).
Proof.
  intros Ha Hov Hcfg Hdx Hdy Hcx Hcy.
  destruct (in_step_parts a Ha) as (d0 & Hcfg0 & Hrec & _ & _ & _ & Hbuf).
  rewrite Hcfg in Hcfg0. injection Hcfg0 as <-.
  destruct (record_config_keys d Hrec) as (Hc & _ & _ & [v Hv]).
  pose proof Hbuf as (Hlen & Hdigits & _). cbn in Hlen, Hdigits.
  rewrite (toggle_overlay_on a d v screen_width Hov Hcfg Hc Hv Hdigits Hlen).
  rewrite (new_dict d vx vy screen_width Hc Hdx Hdy).
  rewrite Hcfg, locked_dict, Hv.
  destruct Hcx as [->|(nx & -> & Hnx)]; [reflexivity|].
  destruct Hcy as [->|(ny & -> & Hny)]; [reflexivity|].
  destruct (coordinate_as_int (PInt nx)) as (? & Hax & [= <-]);
    [right; eauto|reflexivity|].
  destruct (coordinate_as_int (PInt ny)) as (? & Hay & [= <-]);
    [right; eauto|reflexivity|].
  cbn [is_not_none andb obind]. rewrite Hax. cbn [obind]. now rewrite Hay.
Qed.

(** X16: with the widgets in step, no overlay, and stored coordinates that
    are each [None] or a fitting [int], the overlay button returns normally
    and only sets its own text to ON and creates the overlay: at the stored
    position when both coordinates are stored, else centred for a width of
    480 and 30 from the top; with the label and style of the table of modes
    for the buffer; letting input through and with the blank cursor exactly
    when locked; and visible. *)
Theorem overlay_opens_at a (vx vy : pyobj) (screen_width : Z) :
  in_step a -> overlay a = None ->
  getitem (config a) "overlay_x" = Return vx ->
  getitem (config a) "overlay_y" = Return vy ->
  coordinate vx -> coordinate vy ->
  exists d o,
    config a = PDict d
    /\ toggle_overlay screen_width a =
         (Return tt,
          mkApp (controller a) (logged_numbers a) (config a) (Some o) (display_label a)
                (display_color a) (lock_status a) "Overlay ON" (save_btn a) (timers a)
                (disk a))
    /\ pos o = match vx, vy with
               | PInt x, PInt y => (x, y)
               | _, _ => (preset_x "mid" screen_width, 30)
               end
    /\ ui o = look d (logged_numbers a)
    /\ transparent_for_input o = locked (config a)
    /\ cursor_shape o = (if locked (config a) then BlankCursor else SizeAllCursor)
    /\ visible o = true.
Proof.
  intros Ha Hov Hx Hy Hcx Hcy.
  destruct (in_step_parts a Ha) as (d & Hcfg & _).
  rewrite Hcfg in Hx, Hy. unfold getitem in Hx, Hy.
  destruct (d !! "overlay_x") as [vx'|] eqn:Hdx; [injection Hx as ->|discriminate].
  destruct (d !! "overlay_y") as [vy'|] eqn:Hdy; [injection Hy as ->|discriminate].
  exists d. eexists. split; [exact Hcfg|]. split.
  - apply (opens_at a d vx vy screen_width Ha Hov Hcfg Hdx Hdy Hcx Hcy).
  - repeat split.
Qed.

(** X17: with the overlay on, a position preset moves it to the horizontal
    position of the preset and 30 from the top, leaves its other attributes
    and stores the position in the config; on a screen at least 520 wide the
    480 of the overlay lie within the screen; and switching the overlay off
    and on again, on whatever screens, brings it back at that place with
    the same look. *)
Theorem preset_position a (o : overlay_window) (p : string) (screen_width : Z) :
  in_step a -> overlay a = Some o -> 0 <= screen_width < 2 ^ 31 ->
  let a1 := exec (set_position_preset json_dump p screen_width) a in
  let x := preset_x p screen_width in
  overlay a1 = Some (mkOverlay (ui o) (x, 30) (transparent_for_input o)
                               (cursor_shape o) (visible o))
  /\ getitem (config a1) "overlay_x" = Return (PInt x)
  /\ getitem (config a1) "overlay_y" = Return (PInt 30)
  /\ (520 <= screen_width -> 0 <= x /\ x + 480 <= screen_width)
  /\ (forall w1 w2,
        overlay (exec (toggle_overlay w2) (exec (toggle_overlay w1) a1))
        = Some (mkOverlay (ui o) (x, 30) (transparent_for_input o)
                          (cursor_shape o) (visible o))).
Proof.
  intros Ha Hov Hw a1 x.
  destruct (in_step_parts a Ha) as (d & Hcfg & Hrec & _ & _ & Hovl & Hbuf).
  pose proof (set_position_on a d o p screen_width Hov Hcfg) as H1. cbv zeta in H1.
  fold x in H1.
  assert (in_step a1) as Ha1 by apply (set_position_in_step a p screen_width Ha).
  set (d1 := <["overlay_y" := PInt 30]> (<["overlay_x" := PInt x]> d)) in *.
  assert (a1 = mkApp (controller a) (logged_numbers a) (PDict d1)
                 (Some (mkOverlay (ui o) (x, 30) (transparent_for_input o)
                                  (cursor_shape o) (visible o)))
                 (display_label a) (display_color a) (lock_status a) (overlay_btn a)
                 (save_btn a) (timers a)
                 (snd (save_config json_dump (PDict d1) (disk a)))) as Heq1.
  { subst a1. unfold exec. now rewrite H1. }
  split; [now rewrite Heq1|].
  split; [rewrite Heq1; cbn; unfold d1;
          now rewrite lookup_insert_ne, lookup_insert_eq|].
  split; [rewrite Heq1; cbn; unfold d1; now rewrite lookup_insert_eq|].
  split; [now apply preset_x_on_screen|].
  intros w1 w2.
  assert (overlay a1 = Some (mkOverlay (ui o) (x, 30) (transparent_for_input o)
                                       (cursor_shape o) (visible o))) as Hov1
    by now rewrite Heq1.
  pose proof (toggle_overlay_off a1 _ w1 Hov1) as H2.
  set (a2 := exec (toggle_overlay w1) a1).
  assert (in_step a2) as Ha2 by apply (toggle_overlay_in_step a1 w1 Ha1).
  assert (overlay a2 = None) as Hov2 by (subst a2; unfold exec; now rewrite H2).
  assert (config a2 = PDict d1) as Hcfg2
    by (subst a2; unfold exec; rewrite H2, Heq1; reflexivity).
  assert (logged_numbers a2 = logged_numbers a) as Hbuf2
    by (subst a2; unfold exec; rewrite H2, Heq1; reflexivity).
  pose proof (opens_at a2 d1 (PInt x) (PInt 30) w2 Ha2 Hov2 Hcfg2) as Hrun.
  unfold exec at 1. rewrite Hrun; clear Hrun.
  - cbn [snd overlay]. f_equal.
    destruct (Hovl o Hov) as (Ht & Hcur & Hv & Hlook).
    assert (locked (PDict d1) = locked (PDict d)) as Hl
      by (unfold d1; now rewrite !locked_insert_ne).
    rewrite Hcfg2, Hl, Hbuf2. unfold d1. rewrite !look_insert by discriminate.
    now rewrite Hlook, Ht, Hcur, Hv.
  - unfold d1. now rewrite lookup_insert_ne, lookup_insert_eq.
  - unfold d1. now rewrite lookup_insert_eq.
  - right. exists x. split; [reflexivity|]. now apply preset_x_fits.
  - right. exists 30. split; [reflexivity|]. lia.
Qed.

(** X18: when switching the overlay on returns normally, switching it off
    again restores the state there was before, attribute for attribute. *)
Theorem overlay_toggle_twice a (w1 w2 : Z) :
  in_step a -> overlay a = None ->
  fst (toggle_overlay w1 a) = Return tt ->
  exec (toggle_overlay w2) (exec (toggle_overlay w1) a) = a.
Proof.
  intros Ha Hov Hret.
  destruct (in_step_parts a Ha) as (d & Hcfg & Hrec & _ & Hbtn & _ & Hbuf).
  destruct (record_config_keys d Hrec) as (Hc & _ & _ & [v Hv]).
  pose proof Hbuf as (Hlen & Hdigits & _). cbn in Hlen, Hdigits.
  rewrite Hov in Hbtn.
  pose proof (toggle_overlay_on a d v w1 Hov Hcfg Hc Hv Hdigits Hlen) as H1.
  destruct (new (PDict d) w1) as [o|err].
  - unfold exec at 2. rewrite H1. cbn [snd]. unfold exec.
    erewrite toggle_overlay_off by reflexivity. cbn.
    destruct a. cbn in *. now subst.
  - rewrite H1 in Hret. discriminate.
Qed.

(** X19: with the widgets in step, a colour chosen in the dialog is stored
    under ["overlay_color"], the other entries of the config being kept, and
    colours the display label; an overlay keeps its text and takes the
    colour when it shows numbers, and keeps its style when it shows the hint
    or nothing; the buffer is untouched; and a dialog that is cancelled
    changes nothing at all. *)
Theorem colour_picked a (hex : string) :
  in_step a ->
  let a' := exec (pick_color json_dump (Some hex)) a in
  fst (pick_color json_dump (Some hex) a) = Return tt
  /\ getitem (config a') "overlay_color" = Return (PStr hex)
  /\ (forall key, key <> "overlay_color" ->
                  getitem (config a') key = getitem (config a) key)
  /\ display_color a' = PStr hex
  /\ (forall o, overlay a = Some o ->
        exists o',
          overlay a' = Some o'
          /\ OverlayWindow.label (ui o') = OverlayWindow.label (ui o)
          /\ (logged_numbers a <> [] ->
              OverlayWindow.color (OverlayWindow.styleSheet (ui o')) = PStr hex)
          /\ (logged_numbers a = [] ->
              OverlayWindow.styleSheet (ui o') = OverlayWindow.styleSheet (ui o)))
  /\ logged_numbers a' = logged_numbers a
  /\ pick_color json_dump None a = (Return tt, a).
Proof.
  intros Ha a'.
  destruct (in_step_parts a Ha) as (d & Hcfg & Hrec & _ & _ & Hov & Hbuf).
  pose proof Hbuf as (Hlen & Hdigits & _). cbn in Hlen, Hdigits.
  assert (forall o, overlay a = Some o -> ui o = look d (logged_numbers a)) as Hui.
  { intros o Ho. now apply Hov. }
  pose proof (pick_color_spec a d hex Hcfg Hui Hdigits) as H1.
  subst a'. unfold exec. rewrite H1. cbn -[look getitem].
  split; [reflexivity|]. split; [cbn; now rewrite lookup_insert_eq|].
  split; [intros key Hkey; rewrite Hcfg; now apply getitem_insert_ne|].
  split; [reflexivity|]. split; [|split; reflexivity].
  intros o Ho. rewrite Ho. cbn -[look]. eexists. split; [reflexivity|].
  rewrite (Hui o Ho). unfold look, overlay_label_for. cbn -[truthy].
  rewrite !lookup_insert_ne by discriminate. rewrite lookup_insert_eq.
  destruct (if match d !! "overlay_locked" with
               | Some v => truthy v
               | None => false
               end then OverlayWindow.undecorated else OverlayWindow.decorated)
    as [border_style bg_color].
  cbn. destruct (logged_numbers a); repeat split; intros; congruence.
Qed.

(** X20: [save_settings] shows Saved! in the green style, and starts the
    timer that holds the text and style displaced, exactly when
    [save_config] returned [True]; when it returned [False] the Save button
    and the timers stay as they are.  [reset_default] shows its message and
    starts its timer whether or not its own [save_config] succeeded, and
    leaves the default colour in the config and on the display label. *)
Theorem feedback_on_save_and_reset a :
  in_step a ->
  let saved := fst (save_config json_dump (config a) (disk a)) in
  let a1 := exec (save_settings json_dump saved_style) a in
  let a2 := exec (reset_default json_dump saved_style) a in
  (saved = true ->
   save_btn a1 = ("Saved!", saved_style) /\ timers a1 = timers a ++ [save_btn a])
  /\ (saved = false -> save_btn a1 = save_btn a /\ timers a1 = timers a)
  /\ save_btn a2 = ("Reset to default!", saved_style)
  /\ timers a2 = timers a ++ [save_btn a]
  /\ getitem (config a2) "overlay_color" = Return (PStr "#ffff00")
  /\ display_color a2 = PStr "#ffff00".
Proof.
  intros Ha saved a1 a2.
  destruct (in_step_parts a Ha) as (d & Hcfg & Hrec & _ & _ & Hov & Hbuf).
  pose proof Hbuf as (Hlen & Hdigits & _). cbn in Hlen, Hdigits.
  assert (forall o, overlay a = Some o -> ui o = look d (logged_numbers a)) as Hui.
  { intros o Ho. now apply Hov. }
  subst a1 a2. unfold exec.
  rewrite save_settings_spec, (reset_default_spec a d Hcfg Hui Hdigits).
  cbv zeta. fold saved. cbn -[look getitem].
  split; [intros ->; split; reflexivity|].
  split; [intros ->; split; reflexivity|].
  repeat split. cbn. now rewrite lookup_insert_eq.
Qed.

(** X21: with no timer pending, a feedback message followed by its timer
    puts the Save button back as it was.  A second message before the first
    timer has fired takes the first message in the green style for the
    original, so that after both timers the button is left showing the first
    message in the green style, not what it showed before. *)
Theorem save_feedback_sticks a (m1 m2 : string) :
  timers a = [] ->
  let once := exec timeout (exec (show_save_feedback saved_style m1) a) in
  let twice :=
    exec timeout
      (exec timeout
         (exec (show_save_feedback saved_style m2)
               (exec (show_save_feedback saved_style m1) a))) in
  save_btn once = save_btn a /\ timers once = []
  /\ save_btn twice = (m1, saved_style) /\ timers twice = [].
Proof.
  intros Hno. unfold exec, timeout, show_save_feedback, with_timers, with_save_btn.
  method. cbn. rewrite Hno. cbn. auto.
Qed.

(** X22: [closeEvent] returns normally in every state.  It leaves the
    config, the buffer, what has been typed and every widget of the main
    window as they are; an overlay is hidden, not dropped, and keeps its
    label, place and flags; the only other change is the file.  When the
    config is a dict with the four keys, [config.json] is writable and
    readable, [json.dump] completes and [json.load] reads back what it wrote,
    [load_config] on the file left behind returns the config of the window
    that was closed. *)
Theorem closing_saves a :
  let a' := exec (closeEvent json_dump) a in
  fst (closeEvent json_dump a) = Return tt
  /\ a' = with_disk (disk a')
            (with_overlay
               (option_map
                  (fun o => mkOverlay (ui o) (pos o) (transparent_for_input o)
                                      (cursor_shape o) false)
                  (overlay a))
               a)
  /\ disk a' = snd (save_config json_dump (config a) (disk a))
  /\ ((forall v s, json_dump v = (s, true) -> json_load s = Some v) ->
      (forall v, snd (json_dump v) = true) ->
      record_config (config a) -> dev (disk a) = Writable -> can_read (disk a) = true ->
      load_config json_load (disk a') = Return (config a)).
Proof.
  intros a'.
  assert (closeEvent json_dump a =
            (Return tt,
             with_disk (snd (save_config json_dump (config a) (disk a)))
               (with_overlay
                  (option_map
                     (fun o => mkOverlay (ui o) (pos o) (transparent_for_input o)
                                         (cursor_shape o) false)
                     (overlay a))
                  a))) as Hrun.
  { unfold closeEvent, if_overlay, on_overlay, close. method.
    destruct a as [ct buf cfg [o|] lbl col lock btn sv tm fs]; cbn;
      now rewrite save_returns. }
  subst a'. unfold exec. rewrite Hrun. cbn [fst snd].
  split; [reflexivity|]. split; [reflexivity|]. split; [reflexivity|].
  intros Hcodec Hfull (d & Hcfg & Hkeys) Hdev Hread. cbn [disk with_disk].
  rewrite Hcfg. apply saved_record_loads; try assumption. now exists d.
Qed.
(** C10, as the code has it: a key event is dealt with inside the callback
    of the listener, and nothing of it is handed on.  When the callback
    returns, a mapped keypad digit with room in the buffer is in the buffer
    and on the display label; for Enter on a non-empty buffer the digits
    have been typed out, the buffer is empty and the label blank; for
    Backspace the buffer is empty and the label blank.  With the widgets in
    step the callback returns normally, the display label shows the buffer
    as it is then, and an overlay has been redrawn for that buffer, its
    window left alone, the config being the same.  In every state no timer
    has been started for the main thread to run later, and the file is
    untouched. *)
Theorem listener_acts_in_callback a (key : MainWindow.key_event) :
  let a' := exec (on_key_press key) a in
  (forall digit,
      MainWindow.numpad_digit key = Some digit ->
      (length (logged_numbers a) < 7)%nat ->
      logged_numbers a' = logged_numbers a ++ [digit]
      /\ display_label a' = join " " (logged_numbers a ++ [digit]))
  /\ (key = MainWindow.Special MainWindow.enter -> logged_numbers a <> [] ->
      controller a' = controller a ++ [join "" (logged_numbers a)]
      /\ logged_numbers a' = []
      /\ display_label a' = "")
  /\ (key = MainWindow.Special MainWindow.backspace ->
      logged_numbers a' = [] /\ display_label a' = "")
  /\ (in_step a ->
      fst (on_key_press key a) = Return tt
      /\ config a' = config a
      /\ display_label a' = join " " (logged_numbers a')
      /\ forall o,
           overlay a = Some o ->
           exists d,
             config a = PDict d
             /\ overlay a' =
                  Some (mkOverlay (look d (logged_numbers a')) (pos o)
                                  (transparent_for_input o) (cursor_shape o)
                                  (visible o)))
  /\ timers a' = timers a
  /\ disk a' = disk a.
Proof.
  intros a'. subst a'. unfold exec, on_key_press, run_main.
  split; [|split; [|split; [|split; [|split]]]].
  - intros digit Hdigit Hlen.
    destruct (on_key_press_digit_room key digit (to_main a) Hdigit Hlen) as [ov ->].
    now cbn.
  - intros -> Hne. rewrite on_key_press_enter.
    destruct (send_numbers_shape (to_main a) Hne) as (r & ov & ->). now cbn.
  - intros ->. rewrite on_key_press_backspace.
    destruct (clear_numbers_shape (to_main a)) as (r & ov & ->). now cbn.
  - intros Ha.
    destruct (in_step_parts a Ha) as (d & Hcfg & _).
    destruct (on_key_press_tidy key (to_main a) d (to_main_tidy a d Ha Hcfg))
      as (w' & -> & (Hcfg' & _ & (_ & _ & Hlabel) & Hlook) & Hiff).
    cbn [fst snd from_main config display_label logged_numbers overlay].
    split; [reflexivity|]. split; [now rewrite Hcfg', Hcfg|].
    split; [exact Hlabel|].
    intros o Ho. exists d. split; [exact Hcfg|]. rewrite Ho.
    destruct (MainWindow.overlay w') as [u|] eqn:Hu.
    + now rewrite (Hlook u eq_refl).
    + apply proj1 in Hiff. specialize (Hiff eq_refl).
      unfold to_main in Hiff. cbn in Hiff. rewrite Ho in Hiff. discriminate.
  - now destruct (MainWindow.on_key_press key (to_main a)).
  - now destruct (MainWindow.on_key_press key (to_main a)).
Qed.
End Handlers.

(** ** The theorems at concrete inputs *)

Section Examples.
Import MainWindow.

Lemma digit_1 : digit "1".
Proof. exists 97. reflexivity. Qed.

Lemma flush_emits_once_witness :
  let w := mk ["7"] ["1"; "2"] (PDict DEFAULT_CONFIG) None "1 2" in
  logged_numbers w <> []
  /\ controller (exec send_numbers w) = ["7"; "12"]
  /\ logged_numbers (exec send_numbers w) = [].
Proof.
  intros w.
  assert (logged_numbers w <> []) as Hne by discriminate.
  destruct (proj1 (flush_emits_once w) Hne) as (Hout & Hbuf & _).
  split; [exact Hne|]. split; [exact Hout|exact Hbuf].
Defined.

Lemma buffer_length_bounded_witness :
  let seven :=
    presses [vk_event 97; vk_event 98; vk_event 99; vk_event 100; vk_event 101;
             vk_event 102; vk_event 103] (init (PDict DEFAULT_CONFIG)) in
  reachable seven
  /\ length (logged_numbers seven) = 7%nat
  /\ on_key_press (vk_event 104) seven = (Return tt, seven).
Proof.
  intros seven.
  assert (reachable seven) as Hseven.
  { subst seven. unfold presses. cbn [fold_left].
    do 7 (eapply reachable_step; [|apply step_key]). apply reachable_init. }
  split; [exact Hseven|]. split; [reflexivity|].
  apply (buffer_length_bounded seven Hseven) with (d := "8"); reflexivity.
Defined.

Lemma render_spaced_in_call_order_witness :
  let w := presses [vk_event 97; vk_event 98; vk_event 99] (init PNone) in
  logged_numbers w = ["1"; "2"; "3"] /\ display_label w = "1 2 3".
Proof.
  apply (render_spaced_in_call_order (init PNone)
           [vk_event 97; vk_event 98; vk_event 99] ["1"; "2"; "3"]).
  - apply reachable_init.
  - reflexivity.
  - repeat constructor.
  - simpl. lia.
Defined.

Lemma keypad_codes_only_witness :
  on_key_press (KeyCode (Some 49) (Some "1")) (init PNone) = (Return tt, init PNone).
Proof.
  apply (proj1 (proj2 (proj2 (proj2 keypad_codes_only)))). lia.
Defined.

Lemma overlay_mode_table_witness :
  let ov := OverlayWindow.mk "" (OverlayWindow.mkStyle PNone "" "" "") in
  let flag (b : bool) : gmap string pyobj :=
    <["overlay_locked" := PBool b]> DEFAULT_CONFIG in
  OverlayWindow.update_text (PDict (flag true)) "1 2" ov
  = (Return tt,
     OverlayWindow.mk "1 2"
       (OverlayWindow.mkStyle (PStr "#ffff00") "36px" "transparent" "none"))
  /\ OverlayWindow.update_text (PDict (flag false)) "1 2" ov
     = (Return tt,
        OverlayWindow.mk "1 2"
          (OverlayWindow.mkStyle (PStr "#ffff00") "36px" "rgba(255, 71, 87, 0.15)"
             "2px dashed #ff4757"))
  /\ OverlayWindow.update_text (PDict (flag true)) "" ov
     = (Return tt,
        OverlayWindow.mk ""
          (OverlayWindow.mkStyle (PStr "transparent") "16px" "transparent" "none"))
  /\ OverlayWindow.update_text (PDict (flag false)) "" ov
     = (Return tt,
        OverlayWindow.mk OverlayWindow.positioning_hint
          (OverlayWindow.mkStyle (PStr "#ff4757") "16px" "rgba(255, 71, 87, 0.15)"
             "2px dashed #ff4757")).
Proof.
  intros ov flag.
  assert (forall b, flag b !! "overlay_color" = Some (PStr "#ffff00")) as Hc
    by (intros []; reflexivity).
  assert (forall b, flag b !! "overlay_locked" = Some (PBool b)) as Hb
    by (intros []; reflexivity).
  assert (Forall digit ["1"; "2"]) as Hd
    by (repeat constructor; [exists 97|exists 98]; reflexivity).
  assert (Forall digit []) as Hd0 by constructor.
  split; [|split; [|split]].
  - exact (overlay_mode_table (flag true) (PStr "#ffff00") ["1"; "2"] true ov
             (Hc true) Hd (or_introl (Hb true))).
  - exact (overlay_mode_table (flag false) (PStr "#ffff00") ["1"; "2"] false ov
             (Hc false) Hd (or_introl (Hb false))).
  - exact (overlay_mode_table (flag true) (PStr "#ffff00") [] true ov
             (Hc true) Hd0 (or_introl (Hb true))).
  - exact (overlay_mode_table (flag false) (PStr "#ffff00") [] false ov
             (Hc false) Hd0 (or_introl (Hb false))).
Defined.

Lemma load_config_falls_back_witness :
  load_config value_load (mkFS None true Writable) = Return (PDict DEFAULT_CONFIG).
Proof.
  apply (proj1 (load_config_falls_back pyobj value_load (mkFS None true Writable))).
  left. reflexivity.
Defined.

Lemma load_config_returns_key_list_witness :
  load_config value_load (mkFS (Some key_names) true Writable) = Return key_names.
Proof.
  apply (load_config_returns_key_list pyobj value_load
           (mkFS (Some key_names) true Writable) key_names);
    reflexivity.
Defined.

Lemma save_then_load_witness :
  let config := PDict ({[ "overlay_locked" := PBool true ]} ∪ DEFAULT_CONFIG) in
  let fs := mkFS (Some (PDict {[ "overlay_locked" := PBool true ]})) true Writable in
  let fs' := mkFS (Some config) true Writable in
  load_config value_load fs = Return config
  /\ save_config value_dump config fs = (true, fs')
  /\ load_config value_load fs' = Return config.
Proof.
  intros config fs fs'.
  assert (forall v s, value_dump v = (s, true) -> value_load s = Some v) as Hcodec.
  { intros v s [= <-]. reflexivity. }
  assert (load_config value_load fs = Return config) as Hfirst by reflexivity.
  assert (save_config value_dump config fs = (true, fs')) as Hsave by reflexivity.
  split; [exact Hfirst|]. split; [exact Hsave|].
  exact (save_then_load pyobj value_load value_dump Hcodec fs fs' config Hfirst Hsave).
Defined.

End Examples.

Section MoreExamples.
Import Gui.

Lemma example_app_in_step : in_step example_app.
Proof.
  apply (init_in_step pyobj value_load string "plain" (mkFS None true Writable)).
  reflexivity.
Qed.

Lemma example_shown_in_step : in_step example_shown.
Proof.
  apply (toggle_overlay_in_step pyobj string example_app 1920 example_app_in_step).
Qed.

Lemma example_stuck_in_step : in_step example_stuck.
Proof.
  apply (init_in_step pyobj value_load string "plain"
           (mkFS (Some stuck_config) true Writable)).
  reflexivity.
Qed.

Lemma value_codec : forall v s, value_dump v = (s, true) -> value_load s = Some v.
Proof. intros v s [= <-]. reflexivity. Qed.

Lemma update_overlay_style_errors_witness :
  fst (OverlayWindow.update_overlay_style key_names
         (OverlayWindow.mk "1" (OverlayWindow.mkStyle PNone "" "" "")))
  = Raise AttributeError.
Proof.
  apply (proj1 (proj2 (update_overlay_style_errors key_names
                         (OverlayWindow.mk "1" (OverlayWindow.mkStyle PNone "" "" ""))))).
  intros d. discriminate.
Defined.

Lemma load_config_object_witness :
  exists d',
    load_config value_load
      (mkFS (Some (PDict {[ "theme" := PStr "dark" ]})) true Writable)
    = Return (PDict d')
    /\ d' !! "theme" = Some (PStr "dark")
    /\ d' !! "overlay_locked" = Some (PBool false).
Proof.
  destruct (load_config_object pyobj value_load
              (mkFS (Some (PDict {[ "theme" := PStr "dark" ]})) true Writable)
              (PDict {[ "theme" := PStr "dark" ]}) {[ "theme" := PStr "dark" ]}
              eq_refl eq_refl eq_refl) as (d' & Hload & Hkeys & _).
  exists d'. split; [exact Hload|]. split; rewrite Hkeys; reflexivity.
Defined.

Lemma load_config_not_object_witness :
  load_config value_load (mkFS (Some (PInt 5)) true Writable)
  = Return (PDict DEFAULT_CONFIG).
Proof.
  apply (proj2 (load_config_not_object pyobj value_load
                  (mkFS (Some (PInt 5)) true Writable) (PInt 5) (PInt 5)
                  eq_refl eq_refl eq_refl ltac:(discriminate))).
  exact I.
Defined.

Lemma save_config_then_load_witness :
  load_config value_load
    (mkFS (Some (PDict {[ "overlay_locked" := PBool true ]})) true Writable)
  = Return (PDict ({[ "overlay_locked" := PBool true ]} ∪ DEFAULT_CONFIG)).
Proof.
  apply (proj1 (save_config_then_load pyobj value_load value_dump value_codec
                  (mkFS None true Writable) _ {[ "overlay_locked" := PBool true ]}
                  eq_refl eq_refl)).
Defined.

Lemma typing_only_on_enter_witness :
  let w :=
    MainWindow.presses [MainWindow.vk_event 97; MainWindow.vk_event 98]
                       (MainWindow.init PNone) in
  MainWindow.controller
    (MainWindow.exec (MainWindow.on_key_press (MainWindow.Special MainWindow.enter)) w)
  = ["12"].
Proof.
  intros w.
  apply (proj2 (proj2 typing_only_on_enter) w); [|discriminate].
  subst w. unfold MainWindow.presses. cbn [fold_left].
  do 2 (eapply MainWindow.reachable_step; [|apply MainWindow.step_key]).
  apply MainWindow.reachable_init.
Defined.

Lemma typed_strings_are_digits_witness :
  Forall digit_string
    (MainWindow.controller
       (MainWindow.presses [MainWindow.vk_event 97; MainWindow.Special MainWindow.enter]
                           (MainWindow.init PNone))).
Proof.
  apply typed_strings_are_digits.
  apply (MainWindow.reachable_step
           (MainWindow.exec (MainWindow.on_key_press (MainWindow.vk_event 97))
                            (MainWindow.init PNone)));
    [|apply MainWindow.step_key].
  apply (MainWindow.reachable_step (MainWindow.init PNone));
    [apply MainWindow.reachable_init|apply MainWindow.step_key].
Defined.

Lemma overlay_follows_display_witness :
  let w := MainWindow.mk [] [] (PDict DEFAULT_CONFIG) (Some (look DEFAULT_CONFIG [])) "" in
  fst (MainWindow.on_key_press (MainWindow.vk_event 97) w) = Return tt.
Proof.
  intros w.
  apply (overlay_follows_display w DEFAULT_CONFIG (PStr "#ffff00") (look DEFAULT_CONFIG [])
           (MainWindow.vk_event 97) eq_refl eq_refl eq_refl).
  repeat split; simpl; (lia || constructor).
Defined.

Lemma start_needs_a_record_witness :
  init value_load "plain" (mkFS (Some key_names) true Writable) = Raise TypeError.
Proof.
  apply (proj2 (proj2 (start_needs_a_record pyobj value_load string "plain"
                         (mkFS (Some key_names) true Writable))) key_names);
    reflexivity.
Defined.

Lemma widgets_stay_in_step_witness :
  let run e := exec (handle value_dump "green" e) in
  in_step (run (KeyPress (MainWindow.vk_event 97))
             (run ClickLock (run (ClickOverlay 1920) example_app))).
Proof.
  intros run.
  apply (widgets_stay_in_step pyobj value_load value_dump string "plain" "green").
  subst run. cbv beta.
  apply reachable_step; [|exact I].
  apply reachable_step; [|exact I].
  apply reachable_step; [|cbn; lia].
  apply (reachable_init _ _ _ _ _ _ (mkFS None true Writable)). reflexivity.
Defined.

Lemma handlers_return_witness :
  fst (handle value_dump "green" (ClickOverlay 1920) example_app) = Return tt.
Proof.
  apply (handlers_return pyobj value_load value_dump string "plain" "green").
  - apply (reachable_init _ _ _ _ _ _ (mkFS None true Writable)). reflexivity.
  - cbn. lia.
  - intros w _ _. exists PNone, PNone. repeat split; now left.
Defined.

Lemma toggle_lock_flips_witness :
  locked (config (exec (toggle_lock value_dump) example_app))
  = negb (locked (config example_app)).
Proof.
  apply (toggle_lock_flips pyobj value_dump string example_app example_app_in_step).
Defined.

Lemma settings_reach_the_file_witness :
  load_config value_load (disk (exec (handle value_dump "green" ClickLock) example_app))
  = Return (config (exec (handle value_dump "green" ClickLock) example_app)).
Proof.
  apply (proj1 (settings_reach_the_file pyobj value_load value_dump string "green"
                  example_app ClickLock value_codec (fun _ => eq_refl)
                  example_app_in_step I eq_refl eq_refl)).
  exact I.
Defined.

Lemma overlay_never_opens_witness :
  overlay (exec (handle value_dump "green" ClickLock) example_stuck) = None.
Proof.
  apply (overlay_never_opens pyobj value_dump string "green" example_stuck
           (exec (handle value_dump "green" ClickLock) example_stuck)
           (PStr "left") (PInt 30) example_stuck_in_step eq_refl eq_refl eq_refl).
  - left. split; [exact I|discriminate].
  - apply reaches_step; [apply reaches_refl|exact I].
Defined.

Lemma overlay_opens_at_witness :
  exists o,
    overlay (exec (toggle_overlay 1920) example_app) = Some o /\ pos o = (720, 30).
Proof.
  destruct (overlay_opens_at pyobj string example_app PNone PNone 1920
              example_app_in_step eq_refl eq_refl eq_refl
              (or_introl eq_refl) (or_introl eq_refl))
    as (d & o & _ & Hrun & Hpos & _).
  exists o. unfold exec. rewrite Hrun. split; [reflexivity|exact Hpos].
Defined.

Lemma preset_position_witness :
  getitem (config (exec (set_position_preset value_dump "right" 1920) example_shown))
          "overlay_x"
  = Return (PInt 1420).
Proof.
  destruct (overlay example_shown) as [o|] eqn:Ho; [|discriminate].
  apply (preset_position pyobj value_dump string example_shown o "right" 1920
           example_shown_in_step Ho).
  lia.
Defined.

Lemma overlay_toggle_twice_witness :
  exec (toggle_overlay 1280) (exec (toggle_overlay 1920) example_app) = example_app.
Proof.
  apply (overlay_toggle_twice pyobj string example_app 1920 1280
           example_app_in_step eq_refl eq_refl).
Defined.

Lemma colour_picked_witness :
  display_color (exec (pick_color value_dump (Some "#00ff00")) example_app)
  = PStr "#00ff00".
Proof.
  apply (colour_picked pyobj value_dump string example_app "#00ff00"
           example_app_in_step).
Defined.

Lemma feedback_on_save_and_reset_witness :
  save_btn (exec (reset_default value_dump "green") example_app)
  = ("Reset to default!", "green").
Proof.
  apply (feedback_on_save_and_reset pyobj value_dump string "green" example_app
           example_app_in_step).
Defined.

Lemma save_feedback_sticks_witness :
  save_btn
    (exec timeout
       (exec timeout
          (exec (show_save_feedback "green" "Saved!")
                (exec (show_save_feedback "green" "Saved!") example_app))))
  = ("Saved!", "green").
Proof.
  apply (save_feedback_sticks pyobj string "green" example_app "Saved!" "Saved!" eq_refl).
Defined.

Lemma closing_saves_witness :
  load_config value_load (disk (exec (closeEvent value_dump) example_shown))
  = Return (config example_shown).
Proof.
  apply (closing_saves pyobj value_load value_dump string example_shown);
    try reflexivity.
  - exact value_codec.
  - apply in_step_config, example_shown_in_step.
Defined.
Lemma listener_acts_in_callback_witness :
  let a' := exec (on_key_press (MainWindow.vk_event 97)) example_shown in
  logged_numbers a' = ["1"]
  /\ display_label a' = "1"
  /\ (forall o,
        overlay example_shown = Some o ->
        exists d,
          config example_shown = PDict d
          /\ overlay a' =
               Some (mkOverlay (look d (logged_numbers a')) (pos o)
                               (transparent_for_input o) (cursor_shape o)
                               (visible o)))
  /\ timers a' = timers example_shown
  /\ disk a' = disk example_shown.
Proof.
  destruct (listener_acts_in_callback pyobj string example_shown
              (MainWindow.vk_event 97))
    as (Hdigit & _ & _ & Hdrawn & Htimers & Hdisk).
  destruct (Hdigit "1") as [Hbuffer Hlabel]; [reflexivity|vm_compute; lia|].
  destruct (Hdrawn example_shown_in_step) as (_ & _ & _ & Hoverlay).
  split; [exact Hbuffer|]. split; [exact Hlabel|]. split; [exact Hoverlay|].
  split; [exact Htimers|exact Hdisk].
Defined.
End MoreExamples.
